(** * Retrieval-and-streaming orchestration engine: a shallow embedding

    The development follows the Python sources of the chatbot backend
    ([app/chatbot/rag.py], [jsonl_handler.py], [agents.py], [utils.py],
    [streaming_utils.py], [views.py]).  Python values are modelled as they
    are at run time: a [str] is a sequence of Unicode code points, a [dict]
    with string keys is an insertion-ordered association list, an exception
    is an explicit outcome.  Calls that leave the repository (the language
    model, the embedding service, the vector index, [json.loads], [md5],
    the clock) are parameters of the sections that use them. *)

From Stdlib Require Import List NArith ZArith Bool Arith Lia String Ascii.
From Stdlib Require Import DecimalString DecimalZ DecimalNat.
Import ListNotations.

Set Implicit Arguments.
Set Warnings "-register-all".

(* ===================================================================== *)
(** * Python strings *)
(* ===================================================================== *)

Module Py.

(** A Python [str]: its code points, in order. *)
Definition pystr := list N.

(** An ASCII literal of the source, as a [pystr]. *)
Definition lit (s : string) : pystr :=
  map N_of_ascii (list_ascii_of_string s).

Definition str_eqb (a b : pystr) : bool :=
  if list_eq_dec N.eq_dec a b then true else false.

(** [not s]: a string is falsy exactly when it is empty. *)
Definition nonempty (s : pystr) : bool :=
  match s with [] => false | _ :: _ => true end.

(** ** [s.encode('utf-8')]

    Only the length of the encoding is ever used.  Surrogate code points
    cannot be encoded: [encode] raises [UnicodeEncodeError] on them. *)

Definition is_surrogate (c : N) : bool :=
  ((55296 <=? c) && (c <=? 57343))%N.

Definition utf8_width (c : N) : option nat :=
  if (c <? 128)%N then Some 1
  else if (c <? 2048)%N then Some 2
  else if is_surrogate c then None
  else if (c <? 65536)%N then Some 3
  else Some 4.

Fixpoint utf8_len (s : pystr) : option nat :=
  match s with
  | [] => Some 0
  | c :: s' =>
      match utf8_width c, utf8_len s' with
      | Some w, Some n => Some (w + n)
      | _, _ => None
      end
  end.

(** ** Whitespace: [str.isspace], also the regular expression class [\s] *)

Definition isspace (c : N) : bool :=
  (((9 <=? c) && (c <=? 13)) || ((28 <=? c) && (c <=? 32))
   || (c =? 133) || (c =? 160) || (c =? 5760)
   || ((8192 <=? c) && (c <=? 8202))
   || (c =? 8232) || (c =? 8233) || (c =? 8239) || (c =? 8287)
   || (c =? 12288))%N.

Fixpoint lstrip (s : pystr) : pystr :=
  match s with
  | c :: s' => if isspace c then lstrip s' else s
  | [] => []
  end.

Definition rstrip (s : pystr) : pystr := rev (lstrip (rev s)).

(** [s.strip()] *)
Definition strip (s : pystr) : pystr := rstrip (lstrip s).

(** ** Slices [s[i:j]] and [s[:n]] *)

Definition slice {A} (s : list A) (i j : nat) : list A :=
  firstn (j - i) (skipn i s).

(** [s[:n]] for a Python [int] [n]; a negative bound counts from the end. *)
Definition slice_to (s : pystr) (n : Z) : pystr :=
  if (0 <=? n)%Z then firstn (Z.to_nat n) s
  else firstn (List.length s - Z.to_nat (- n)) s.

(** ** [s.startswith], [sub in s], [s.split(sep)], [sep.join] *)

Fixpoint startswith (s pre : pystr) : bool :=
  match pre, s with
  | [], _ => true
  | p :: pre', c :: s' => (p =? c)%N && startswith s' pre'
  | _ :: _, [] => false
  end.

Fixpoint contains (s sub : pystr) : bool :=
  startswith s sub
  || match s with [] => false | _ :: s' => contains s' sub end.

(** [s.split(sep)] for a non-empty separator: the occurrences of [sep] are
    found from left to right and do not overlap.  [skip] counts the code
    points of a separator still to be passed over, [cur] is the piece being
    read, reversed. *)
Fixpoint split_go (sep s : pystr) (skip : nat) (cur : pystr) : list pystr :=
  match s with
  | [] => [rev cur]
  | c :: s' =>
      match skip with
      | S k => split_go sep s' k cur
      | O =>
          if startswith s sep
          then rev cur :: split_go sep s' (List.length sep - 1) []
          else split_go sep s' 0 (c :: cur)
      end
  end.

Definition split (s sep : pystr) : list pystr := split_go sep s 0 [].

Fixpoint join (sep : pystr) (parts : list pystr) : pystr :=
  match parts with
  | [] => []
  | [p] => p
  | p :: rest => p ++ sep ++ join sep rest
  end.

(** [range(0, stop, step)] for a positive step. *)
Definition range0 (stop step : nat) : list nat :=
  map (fun k => k * step) (seq 0 ((stop + step - 1) / step)).

(** Decimal rendering of a natural number, as in an f-string. *)
Definition dec (n : nat) : pystr :=
  lit (NilZero.string_of_uint (Nat.to_uint n)).

(** A double quote, a newline, a backtick. *)
Definition dq : pystr := [34%N].
Definition nl : pystr := [10%N].
Definition bt3 : pystr := [96%N; 96%N; 96%N].

End Py.

Import Py.

(* ===================================================================== *)
(** * Exceptions and Python values *)
(* ===================================================================== *)

Module Exn.

Inductive exn_class :=
| UnicodeEncodeError | UnicodeDecodeError | TypeError | AttributeError
| ValueError | JSONDecodeError | PlainException | ServiceError.

(** An exception object; [HTTPException] is FastAPI's and carries a status
    code and a detail. *)
Inductive exn :=
| Exc (c : exn_class) (msg : pystr)
| HTTPException (status_code : nat) (detail : pystr).

(** [str(e)] *)
Definition exn_str (e : exn) : pystr :=
  match e with
  | Exc _ msg => msg
  | HTTPException code detail => dec code ++ lit ": " ++ detail
  end.

Definition is_class (c : exn_class) (e : exn) : bool :=
  match e with
  | Exc c' _ =>
      match c, c' with
      | UnicodeEncodeError, UnicodeEncodeError
      | UnicodeDecodeError, UnicodeDecodeError
      | TypeError, TypeError
      | AttributeError, AttributeError
      | ValueError, ValueError
      | JSONDecodeError, JSONDecodeError
      | PlainException, PlainException
      | ServiceError, ServiceError => true
      (* [json.JSONDecodeError] is a subclass of [ValueError] *)
      | ValueError, JSONDecodeError => true
      | _, _ => false
      end
  | HTTPException _ _ => false
  end.

(** The result of running a piece of Python: a value, or a raised
    exception. *)
Inductive outcome (A : Type) :=
| Returned (a : A)
| Raised (e : exn).

Arguments Returned {A} a.
Arguments Raised {A} e.

Definition bind {A B} (m : outcome A) (k : A -> outcome B) : outcome B :=
  match m with
  | Returned a => k a
  | Raised e => Raised e
  end.

(** [try: m except Exception as e: h e] *)
Definition try_except {A} (m : outcome A) (h : exn -> outcome A) : outcome A :=
  match m with
  | Returned a => Returned a
  | Raised e => h e
  end.

Fixpoint foldM {A S} (f : S -> A -> outcome S) (st : S) (l : list A)
  : outcome S :=
  match l with
  | [] => Returned st
  | a :: l' => bind (f st a) (fun st' => foldM f st' l')
  end.

End Exn.

Import Exn.

Declare Scope py_scope.
Delimit Scope py_scope with py.
Notation "x <- m ;; k" := (bind m (fun x => k))
  (at level 61, m at next level, right associativity) : py_scope.
Open Scope py_scope.

(** [len(s.encode('utf-8'))] *)
Definition encoded_len (s : pystr) : outcome nat :=
  match utf8_len s with
  | Some n => Returned n
  | None => Raised (Exc UnicodeEncodeError (lit "surrogates not allowed"))
  end.

(* ===================================================================== *)
(** * The chunker *)
(* ===================================================================== *)

Module Chunker.

(** The two loop variables of the chunking functions. *)
Record buf := { chunks : list pystr; current_chunk : pystr }.

Definition is_sentence_end (c : N) : bool :=
  ((c =? 46) || (c =? 33) || (c =? 63))%N.

(** [re.split(r'(?<=[.!?])\s+', paragraph)]: a match starts at a whitespace
    code point that directly follows one of [. ! ?] and extends over the
    whole whitespace run. *)
Fixpoint re_split_go (s : pystr) (after_punct in_match : bool) (cur : pystr)
  : list pystr :=
  match s with
  | [] => [rev cur]
  | c :: s' =>
      if isspace c then
        if in_match then re_split_go s' false true cur
        else if after_punct then rev cur :: re_split_go s' false true []
        else re_split_go s' false false (c :: cur)
      else re_split_go s' (is_sentence_end c) false (c :: cur)
  end.

Definition re_split_sentences (paragraph : pystr) : list pystr :=
  re_split_go paragraph false false [].

Section Loop.

(** What the two chunkers differ in: how a paragraph is cut into
    sentences and what is put between two sentences of one chunk. *)
Variable split_sentences : pystr -> list pystr.
Variable sentence_sep : pystr.
Variable chunk_size : Z.

Definition sentence_step (st : buf) (sentence : pystr) : outcome buf :=
  n <- encoded_len (current_chunk st ++ sentence) ;;
  if (chunk_size <? Z.of_nat n)%Z then
    if nonempty (current_chunk st) then
      Returned {| chunks := chunks st ++ [strip (current_chunk st)];
                  current_chunk := sentence |}
    else
      (* a single sentence is too large: force split *)
      Returned {| chunks := chunks st ++ [slice_to sentence chunk_size];
                  current_chunk := current_chunk st |}
  else
    Returned {| chunks := chunks st;
                current_chunk :=
                  if nonempty (current_chunk st)
                  then current_chunk st ++ sentence_sep ++ sentence
                  else sentence |}.

Definition paragraph_step (st : buf) (paragraph : pystr) : outcome buf :=
  n <- encoded_len (current_chunk st ++ paragraph) ;;
  if (chunk_size <? Z.of_nat n)%Z then
    if nonempty (current_chunk st) then
      Returned {| chunks := chunks st ++ [strip (current_chunk st)];
                  current_chunk := paragraph |}
    else
      (* a single paragraph is too large: split by sentences *)
      foldM sentence_step st (split_sentences paragraph)
  else
    Returned {| chunks := chunks st;
                current_chunk :=
                  if nonempty (current_chunk st)
                  then current_chunk st ++ nl ++ nl ++ paragraph
                  else paragraph |}.

Definition flush (st : buf) : list pystr :=
  if nonempty (current_chunk st)
  then chunks st ++ [strip (current_chunk st)]
  else chunks st.

Definition chunk_loop (text : pystr) : outcome (list pystr) :=
  st <- foldM paragraph_step {| chunks := []; current_chunk := [] |}
          (split text (nl ++ nl)) ;;
  Returned (flush st).

End Loop.

(** [rag._chunk_text(text, chunk_size)] *)
Definition _chunk_text (text : pystr) (chunk_size : Z) : outcome (list pystr) :=
  chunk_loop re_split_sentences (lit " ") chunk_size text.

(** [JSONLProcessor.chunk_large_text(text, max_chunk_size)] *)
Definition chunk_large_text (text : pystr) (max_chunk_size : Z)
  : outcome (list pystr) :=
  n <- encoded_len text ;;
  if (Z.of_nat n <=? max_chunk_size)%Z then Returned [text]
  else chunk_loop (fun p => split p (lit ". ")) (lit ". ") max_chunk_size text.

End Chunker.

Import Chunker.

(* ===================================================================== *)
(** * Python values, dictionaries *)
(* ===================================================================== *)

Module Val.

(** A Python [float], identified by its [repr] (which determines it). *)
Record pyfloat := { float_repr : pystr }.

(** The values that [json.loads] produces and that metadata can hold. *)
Inductive pyval :=
| PyNone
| PyBool (b : bool)
| PyInt (z : Z)
| PyFloat (f : pyfloat)
| PyStr (s : pystr)
| PyList (l : list pyval)
| PyDict (d : list (pystr * pyval)).

(** A [dict] with string keys, in insertion order. *)
Definition dict := list (pystr * pyval).

(** [d.get(key)] as an option. *)
Fixpoint lookup (d : dict) (key : pystr) : option pyval :=
  match d with
  | [] => None
  | (k, v) :: d' => if str_eqb k key then Some v else lookup d' key
  end.

(** [key in d] *)
Definition has_key (d : dict) (key : pystr) : bool :=
  match lookup d key with Some _ => true | None => false end.

(** [d[key] = v]: an existing key keeps its position. *)
Fixpoint set (d : dict) (key : pystr) (v : pyval) : dict :=
  match d with
  | [] => [(key, v)]
  | (k, w) :: d' =>
      if str_eqb k key then (k, v) :: d' else (k, w) :: set d' key v
  end.

(** [del d[key]] *)
Fixpoint del (d : dict) (key : pystr) : dict :=
  match d with
  | [] => []
  | (k, w) :: d' => if str_eqb k key then d' else (k, w) :: del d' key
  end.

(** [d.get(key, default)] *)
Definition get_default (d : dict) (key : pystr) (default : pyval) : pyval :=
  match lookup d key with Some v => v | None => default end.

(** Truth value of a Python object. *)
Definition truthy (v : pyval) : bool :=
  match v with
  | PyNone => false
  | PyBool b => b
  | PyInt z => negb (z =? 0)%Z
  | PyFloat f =>
      negb (str_eqb (float_repr f) (lit "0.0")
            || str_eqb (float_repr f) (lit "-0.0"))
  | PyStr s => nonempty s
  | PyList l => match l with [] => false | _ => true end
  | PyDict d => match d with [] => false | _ => true end
  end.

(** [x or y] *)
Definition py_or (x y : pyval) : pyval := if truthy x then x else y.

(** [isinstance(v, (str, int, float, bool))] *)
Definition is_basic (v : pyval) : bool :=
  match v with
  | PyStr _ | PyInt _ | PyFloat _ | PyBool _ => true
  | PyNone | PyList _ | PyDict _ => false
  end.

(** [v == s] for a string literal [s]: only a [str] can be equal to it. *)
Definition eq_str (v : pyval) (s : pystr) : bool :=
  match v with PyStr s' => str_eqb s' s | _ => false end.

(** Decimal rendering of a Python [int]. *)
Definition dec_int (z : Z) : pystr :=
  lit (NilZero.string_of_int (Z.to_int z)).

End Val.

Import Val.

(* ===================================================================== *)
(** * A reference decoder for [json.loads]

    The pipeline is stated over an arbitrary decoder (a section variable
    below); this one follows the standard library's scanner and is used to
    run the pipeline on concrete inputs.  Turning a float literal into a
    [float] and wording the error message are left to two parameters. *)
(* ===================================================================== *)

Module JsonRef.

Definition is_json_ws (c : N) : bool :=
  ((c =? 32) || (c =? 9) || (c =? 10) || (c =? 13))%N.

Fixpoint skip_ws (s : pystr) : pystr :=
  match s with
  | c :: s' => if is_json_ws c then skip_ws s' else s
  | [] => []
  end.

Definition is_digit (c : N) : bool := ((48 <=? c) && (c <=? 57))%N.

Definition hexval (c : N) : option N :=
  if is_digit c then Some (c - 48)%N
  else if ((97 <=? c) && (c <=? 102))%N then Some (c - 87)%N
  else if ((65 <=? c) && (c <=? 70))%N then Some (c - 55)%N
  else None.

Definition hex4 (s : pystr) : option (N * pystr) :=
  match s with
  | a :: b :: c :: d :: rest =>
      match hexval a, hexval b, hexval c, hexval d with
      | Some x, Some y, Some z, Some w =>
          Some ((((x * 16 + y) * 16 + z) * 16 + w)%N, rest)
      | _, _, _, _ => None
      end
  | _ => None
  end.

Definition simple_escape (c : N) : option N :=
  if (c =? 34)%N then Some 34%N          (* quote *)
  else if (c =? 92)%N then Some 92%N     (* backslash *)
  else if (c =? 47)%N then Some 47%N     (* slash *)
  else if (c =? 98)%N then Some 8%N      (* b *)
  else if (c =? 102)%N then Some 12%N    (* f *)
  else if (c =? 110)%N then Some 10%N    (* n *)
  else if (c =? 114)%N then Some 13%N    (* r *)
  else if (c =? 116)%N then Some 9%N     (* t *)
  else None.

(** The body of a string, after its opening quote. *)
Fixpoint scan_string (fuel : nat) (s acc : pystr) : option (pystr * pystr) :=
  match fuel with
  | O => None
  | S fuel' =>
      match s with
      | [] => None
      | c :: s' =>
          if (c =? 34)%N then Some (rev acc, s')
          else if (c =? 92)%N then
            match s' with
            | [] => None
            | e :: s'' =>
                if (e =? 117)%N then
                  match hex4 s'' with
                  | None => None
                  | Some (u1, r1) =>
                      let single := scan_string fuel' r1 (u1 :: acc) in
                      if ((55296 <=? u1) && (u1 <=? 56319))%N then
                        match r1 with
                        | 92%N :: 117%N :: r2 =>
                            match hex4 r2 with
                            | Some (u2, r3) =>
                                if ((56320 <=? u2) && (u2 <=? 57343))%N
                                then scan_string fuel' r3
                                       ((65536 + (u1 - 55296) * 1024
                                         + (u2 - 56320))%N :: acc)
                                else single
                            | None => None
                            end
                        | _ => single
                        end
                      else single
                  end
                else
                  match simple_escape e with
                  | Some x => scan_string fuel' s'' (x :: acc)
                  | None => None
                  end
            end
          else if (c <? 32)%N then None
          else scan_string fuel' s' (c :: acc)
      end
  end.

Fixpoint span_digits (s acc : pystr) : pystr * pystr :=
  match s with
  | c :: s' => if is_digit c then span_digits s' (c :: acc) else (rev acc, s)
  | [] => (rev acc, [])
  end.

Definition digits_value (ds : pystr) : Z :=
  fold_left (fun z c => (z * 10 + Z.of_N (c - 48))%Z) ds 0%Z.

Section Decoder.

Variable float_of_literal : pystr -> pyfloat.

(** A number: an optional minus sign, an integer part without leading
    zeros, an optional fraction and an optional exponent. *)
Definition scan_number (s : pystr) : option (pyval * pystr) :=
  let '(neg, s1) :=
    match s with 45%N :: r => (true, r) | _ => (false, s) end in
  let int_part :=
    match s1 with
    | 48%N :: r => Some ([48%N], r)
    | c :: _ => if is_digit c then Some (span_digits s1 []) else None
    | [] => None
    end in
  match int_part with
  | None => None
  | Some (ds, r1) =>
      let '(frac, r2) :=
        match r1 with
        | 46%N :: r =>
            match span_digits r [] with
            | ([], _) => ([], r1)
            | (fs, r') => (46%N :: fs, r')
            end
        | _ => ([], r1)
        end in
      let '(ex, r3) :=
        match r2 with
        | e :: r =>
            if ((e =? 101) || (e =? 69))%N then
              let '(sign, r') :=
                match r with
                | g :: r'' =>
                    if ((g =? 43) || (g =? 45))%N then ([g], r'')
                    else ([], r)
                | [] => ([], r)
                end in
              match span_digits r' [] with
              | ([], _) => ([], r2)
              | (es, r'') => (e :: sign ++ es, r'')
              end
            else ([], r2)
        | [] => ([], r2)
        end in
      match frac, ex with
      | [], [] =>
          Some (PyInt (if neg then - digits_value ds else digits_value ds)%Z,
                r3)
      | _, _ =>
          Some (PyFloat (float_of_literal
                           ((if neg then [45%N] else []) ++ ds ++ frac ++ ex)),
                r3)
      end
  end.

Fixpoint scan_value (fuel : nat) (s : pystr) {struct fuel}
  : option (pyval * pystr) :=
  match fuel with
  | O => None
  | S fuel' =>
      match s with
      | 34%N :: r =>
          match scan_string (S (List.length r)) r [] with
          | Some (str, r') => Some (PyStr str, r')
          | None => None
          end
      | 123%N :: r =>
          match skip_ws r with
          | 125%N :: r' => Some (PyDict [], r')
          | r' =>
              match scan_members fuel' r' [] with
              | Some (d, r'') => Some (PyDict d, r'')
              | None => None
              end
          end
      | 91%N :: r =>
          match skip_ws r with
          | 93%N :: r' => Some (PyList [], r')
          | r' =>
              match scan_elements fuel' r' [] with
              | Some (l, r'') => Some (PyList l, r'')
              | None => None
              end
          end
      | _ =>
          if startswith s (lit "null") then Some (PyNone, skipn 4 s)
          else if startswith s (lit "true") then Some (PyBool true, skipn 4 s)
          else if startswith s (lit "false")
          then Some (PyBool false, skipn 5 s)
          else if startswith s (lit "NaN")
          then Some (PyFloat {| float_repr := lit "nan" |}, skipn 3 s)
          else if startswith s (lit "Infinity")
          then Some (PyFloat {| float_repr := lit "inf" |}, skipn 8 s)
          else if startswith s (lit "-Infinity")
          then Some (PyFloat {| float_repr := lit "-inf" |}, skipn 9 s)
          else scan_number s
      end
  end

(** The elements of an array, from the first one on. *)
with scan_elements (fuel : nat) (s : pystr) (acc : list pyval) {struct fuel}
  : option (list pyval * pystr) :=
  match fuel with
  | O => None
  | S fuel' =>
      match scan_value fuel' s with
      | None => None
      | Some (v, r) =>
          match skip_ws r with
          | 93%N :: r' => Some (rev (v :: acc), r')
          | 44%N :: r' => scan_elements fuel' (skip_ws r') (v :: acc)
          | _ => None
          end
      end
  end

(** The members of an object, from the first key on; a repeated key
    keeps its first position and takes the last value. *)
with scan_members (fuel : nat) (s : pystr) (acc : dict) {struct fuel}
  : option (dict * pystr) :=
  match fuel with
  | O => None
  | S fuel' =>
      match s with
      | 34%N :: r =>
          match scan_string (S (List.length r)) r [] with
          | None => None
          | Some (key, r1) =>
              match skip_ws r1 with
              | 58%N :: r2 =>
                  match scan_value fuel' (skip_ws r2) with
                  | None => None
                  | Some (v, r3) =>
                      match skip_ws r3 with
                      | 125%N :: r4 => Some (set acc key v, r4)
                      | 44%N :: r4 =>
                          scan_members fuel' (skip_ws r4) (set acc key v)
                      | _ => None
                      end
                  end
              | _ => None
              end
          end
      | _ => None
      end
  end.

Variable error_message : pystr -> pystr.

(** [json.loads(s)] *)
Definition loads (s : pystr) : outcome pyval :=
  let s0 := skip_ws s in
  match scan_value (2 * List.length s0 + 2) s0 with
  | Some (v, rest) =>
      match skip_ws rest with
      | [] => Returned v
      | _ => Raised (Exc JSONDecodeError (error_message s))
      end
  | None => Raised (Exc JSONDecodeError (error_message s))
  end.

End Decoder.

End JsonRef.

(* ===================================================================== *)
(** * The text-generation capability ([app/llm.py]) *)
(* ===================================================================== *)

Module Llm.

Section Model.

(** The generative model called with a prompt and a temperature: the
    [text] of its response ([None] when there is none), or an exception. *)
Variable generate : pystr -> pyfloat -> outcome (option pystr).

(** The same in streaming mode: the [text] of each chunk that arrives
    and, when the stream breaks, the exception that ends it. *)
Variable generate_stream : pystr -> pyfloat -> list pystr * option exn.

Definition default_temperature : pyfloat := {| float_repr := lit "0.7" |}.
Definition low_temperature : pyfloat := {| float_repr := lit "0.2" |}.

(** [get_google_response(prompt, temperature)]: never raises. *)
Definition get_google_response (prompt : pystr) (temperature : pyfloat)
  : pystr :=
  match generate prompt temperature with
  | Returned (Some text) =>
      if nonempty text then strip text else lit "No response generated."
  | Returned None => lit "No response generated."
  | Raised e => lit "Error while generating response: " ++ exn_str e
  end.

(** [get_google_response_stream(prompt, temperature)]: the chunks the
    generator yields. *)
Definition get_google_response_stream (prompt : pystr) (temperature : pyfloat)
  : list pystr :=
  let '(texts, broken) := generate_stream prompt temperature in
  filter nonempty texts
  ++ match broken with
     | Some e => [lit "Error while generating response: " ++ exn_str e]
     | None => []
     end.

End Model.

End Llm.

Import Llm.

(* ===================================================================== *)
(** * The intent classifier ([app/chatbot/agents.py]) *)
(* ===================================================================== *)

Module Intent.

Definition is_ascii_letter (c : N) : bool :=
  (((97 <=? c) && (c <=? 122)) || ((65 <=? c) && (c <=? 90)))%N.

(** [re.sub] with the pattern of three backticks and any ASCII letters,
    replaced by nothing: every fence, with the letters that follow it, is
    deleted.  [skip] counts the backticks of a fence still to
    be passed over; [letters] holds while the letters after it are read. *)
Fixpoint re_sub_fence (s : pystr) (skip : nat) (letters : bool) : pystr :=
  match s with
  | [] => []
  | c :: s' =>
      match skip with
      | S k => re_sub_fence s' k letters
      | O =>
          if letters && is_ascii_letter c then re_sub_fence s' 0 true
          else if startswith s bt3 then re_sub_fence s' 2 true
          else c :: re_sub_fence s' 0 false
      end
  end.

(** [s.replace(sub, empty)] for a non-empty [sub]. *)
Fixpoint remove_go (sub s : pystr) (skip : nat) : pystr :=
  match s with
  | [] => []
  | c :: s' =>
      match skip with
      | S k => remove_go sub s' k
      | O =>
          if startswith s sub then remove_go sub s' (List.length sub - 1)
          else c :: remove_go sub s' 0
      end
  end.

Definition remove (s sub : pystr) : pystr := remove_go sub s 0.

(** The code points up to the first closing brace, if there is one. *)
Fixpoint upto_close (s acc : pystr) : option pystr :=
  match s with
  | [] => None
  | c :: s' => if (c =? 125)%N then Some (rev acc) else upto_close s' (c :: acc)
  end.

Definition quoted_intent : pystr := dq ++ lit "intent" ++ dq.

(** [re.search(r'\{[^}]*"intent"[^}]*\}', s)]: the leftmost opening brace
    whose text up to the next closing brace mentions ["intent"]; the match
    runs from the one brace to the other. *)
Fixpoint re_search_intent (s : pystr) : option pystr :=
  match s with
  | [] => None
  | c :: s' =>
      if (c =? 123)%N then
        match upto_close s' [] with
        | Some inner =>
            if contains inner quoted_intent then Some (c :: inner ++ [125%N])
            else re_search_intent s'
        | None => re_search_intent s'
        end
      else re_search_intent s'
  end.

Definition other : pystr := lit "other".

Definition valid_intents : list pystr :=
  [lit "refund"; lit "rp"; lit "ad_booking"; lit "customer"; lit "agency";
   lit "other"].

(** [{"intent": "other"}] *)
Definition default_intent : pyval := PyDict [(lit "intent", PyStr other)].

Section Classifier.

(** [json.loads] *)
Variable json_loads : pystr -> outcome pyval.
Variable generate : pystr -> pyfloat -> outcome (option pystr).

Definition extract_json_from_string (response : pystr) : pyval :=
  let body : outcome pyval :=
    if negb (nonempty response) || str_eqb (strip response) []
    then Raised (Exc ValueError (lit "Empty response from LLM"))
    else
      let cleaned := strip (remove (re_sub_fence response 0 false) bt3) in
      if negb (nonempty cleaned)
      then Raised (Exc ValueError (lit "No valid content found in response"))
      else json_loads cleaned in
  match body with
  | Returned v => v
  | Raised e =>
      if is_class JSONDecodeError e then
        (* try to extract JSON embedded in text *)
        match re_search_intent response with
        | Some m =>
            match json_loads m with
            | Returned v => v
            | Raised _ => default_intent
            end
        | None => default_intent
        end
      else default_intent
  end.

Definition intent_prompt (query : pystr) : pystr :=
  nl ++ lit "        query = " ++ query ++ nl ++
  lit "        tell me the intent based on the query" ++ nl ++
  lit "        out of following intents:" ++ nl ++ lit "        - refund" ++
  nl ++
  lit "        - rp (want to know related to the platform rajasthan " ++
  lit "patrika)" ++ nl ++
  lit "        - ad_booking (want to know related to the advertisement " ++
  lit "booking)" ++ nl ++
  lit "        - customer (want to know related to book ad for " ++
  lit "customer)" ++ nl ++
  lit "        - agency (want to know related to book ad for agency)" ++
  nl ++ lit "        - other" ++ nl ++ lit "        " ++ nl ++
  lit "        {" ++ nl ++ lit "            " ++ dq ++ lit "intent" ++ dq ++
  lit ": " ++ dq ++ lit "refund/rp/ad_booking/customer/agency/other" ++ dq ++
  nl ++ lit "        }" ++ nl ++ nl ++
  lit "        don't give any other text like ```json or ``` and " ++
  lit "response just give the json format response" ++ nl ++ lit "        ".

(** [x in valid_intents] *)
Definition in_valid_intents (x : pyval) : bool :=
  existsb (eq_str x) valid_intents.

(** [get_intent(query)] *)
Definition get_intent (query : pystr) : outcome pyval :=
  try_except
    (let response :=
       get_google_response generate (intent_prompt query) default_temperature in
     if negb (nonempty response) || str_eqb (strip response) []
     then Returned (PyStr other)
     else
       let parsed_response := extract_json_from_string response in
       intent <- match parsed_response with
                 | PyDict d => Returned (get_default d (lit "intent") (PyStr other))
                 | _ => Raised (Exc AttributeError (lit "object has no attribute 'get'"))
                 end ;;
       if negb (in_valid_intents intent) then Returned (PyStr other)
       else Returned intent)
    (fun _ => Returned (PyStr other)).

End Classifier.

End Intent.

Import Intent.

(* ===================================================================== *)
(** * Fixed answers and support menus ([views.py], [utils.py],
      [streaming_utils.py]) *)
(* ===================================================================== *)

Module Msg.

Record support_message := { label : pystr; options : list pystr }.

(** The predefined answer of the streaming endpoints. *)
Definition rajasthan_patrika_message : pystr :=
  lit "Rajasthan Patrika has a readership of over 2.59 crore, positioning " ++
  lit "it 26th among the top 50 paid newspapers worldwide (WAN-IFRA). " ++
  lit "It is the 5th largest newspaper in India, according to AMIC " ++
  lit "UNESCO. Rajasthan Patrika is the only Hindi daily with a " ++
  lit "significant presence in southern India." ++ nl ++ nl ++
  lit "It is part of the Patrika Group, which reaches 50% of India's " ++
  lit "Hindi-speaking population and has extended its reach across " ++
  lit "8 states with 38 editions. In MPCG, the publication is released " ++
  lit "as " ++ dq ++ lit "Patrika" ++ dq ++ lit "." ++ nl ++ nl ++
  lit "Rajasthan Patrika is known as the " ++ dq ++
  lit "Newspaper with a Soul," ++ dq ++
  lit " committed to comprehensive coverage of national events, " ++
  lit "local stories, and daily issues, addressing every facet " ++
  lit "of society and community with unwavering dedication." ++ nl ++ nl ++
  lit "Notable associations and events include:" ++ nl ++
  lit "*   Amitabh Bachchan and Prakash Jha in a Satyagraha Patrika " ++
  lit "TVC." ++ nl ++ lit "*   Deepika Padukone TVC." ++ nl ++
  lit "*   Ranveer Singh (Catchnews TVC)." ++ nl ++
  lit "*   Priyanka Chopra." ++ nl ++
  lit "*   Dr. APJ Abdul Kalam's visit to the Rajasthan Patrika " ++
  lit "office." ++ nl ++
  lit "*   Parineeti Chopra's visit to Rajasthan Patrika." ++ nl ++
  lit "*   Mac Rajasthan Patrika." ++ nl ++ nl ++
  lit "Rajasthan Patrika initiates sharp and effective reactions " ++
  lit "through regular series of campaigns, taking up problems " ++
  lit "not noticed by the administration or raised by others, leading " ++
  lit "to responsive administrative action." ++ nl ++ nl ++
  lit "Patrika.com, part of Patrika Digital, is one of India's " ++
  lit "fastest-growing online news sites, building a loyal audience " ++
  lit "on the web and mobile. Patrika Digital boasts over 135 million " ++
  lit "page views and engages more than 39.7 million unique visitors " ++
  lit "from across the world on various platforms, creating cutting-edge " ++
  lit "advertising solutions for client visibility.".

(** The predefined answer of the request/response endpoint (typographic quotes). *)
Definition rajasthan_patrika_message_post : pystr :=
  lit "Rajasthan Patrika has a readership of over 2.59 crore, positioning " ++
  lit "it 26th among the top 50 paid newspapers worldwide (WAN-IFRA). " ++
  lit "It is the 5th largest newspaper in India, according to AMIC " ++
  lit "UNESCO. Rajasthan Patrika is the only Hindi daily with a " ++
  lit "significant presence in southern India." ++ nl ++ nl ++
  lit "It is part of the Patrika Group, which reaches 50% of India's " ++
  lit "Hindi-speaking population and has extended its reach across " ++
  lit "8 states with 38 editions. In MPCG, the publication is released " ++
  lit "as " ++ [8220%N] ++ lit "Patrika" ++ [8221%N] ++ lit "." ++ nl ++
  nl ++ lit "Rajasthan Patrika is known as the " ++ dq ++
  lit "Newspaper with a Soul," ++ dq ++
  lit " committed to comprehensive coverage of national events, " ++
  lit "local stories, and daily issues, addressing every facet " ++
  lit "of society and community with unwavering dedication." ++ nl ++ nl ++
  lit "Notable associations and events include:" ++ nl ++
  lit "*   Amitabh Bachchan and Prakash Jha in a Satyagraha Patrika " ++
  lit "TVC." ++ nl ++ lit "*   Deepika Padukone TVC." ++ nl ++
  lit "*   Ranveer Singh (Catchnews TVC)." ++ nl ++
  lit "*   Priyanka Chopra." ++ nl ++
  lit "*   Dr. APJ Abdul Kalam's visit to the Rajasthan Patrika " ++
  lit "office." ++ nl ++
  lit "*   Parineeti Chopra's visit to Rajasthan Patrika." ++ nl ++
  lit "*   Mac Rajasthan Patrika." ++ nl ++ nl ++
  lit "Rajasthan Patrika initiates sharp and effective reactions " ++
  lit "through regular series of campaigns, taking up problems " ++
  lit "not noticed by the administration or raised by others, leading " ++
  lit "to responsive administrative action." ++ nl ++ nl ++
  lit "Patrika.com, part of Patrika Digital, is one of India's " ++
  lit "fastest-growing online news sites, building a loyal audience " ++
  lit "on the web and mobile. Patrika Digital boasts over 135 million " ++
  lit "page views and engages more than 39.7 million unique visitors " ++
  lit "from across the world on various platforms, creating cutting-edge " ++
  lit "advertising solutions for client visibility.".

Definition refund_message : pystr :=
  lit "To process a refund, please provide your booking details " ++
  lit "or contact our support team at support@rajasthanpatrika.com. " ++
  lit "Refunds are typically processed within 5-7 business days " ++
  lit "after verification.".

Definition ad_booking_message : pystr :=
  lit "To help you with ad booking, could you please let me know " ++
  lit "which category you want to book an ad for? (Customer, Agency)".

Definition not_found_message : pystr :=
  lit "I couldn't find relevant information to answer your question.".

Definition more_label : pystr :=
  lit "would you like to know more about?".

Definition ad_booking_label : pystr :=
  lit "For ad booking, please specify the category you are interested " ++
  lit "in:".

Definition customer_label : pystr :=
  lit "Would you like to know the ad booking flow for any other " ++
  lit "category like Agency, or want to know about Rajasthan Patrika " ++
  lit "or refund policy?".

Definition agency_label : pystr :=
  lit "Would you like to know the ad booking flow for any other " ++
  lit "category like Customer, or want to know about Rajasthan " ++
  lit "Patrika or refund policy?".

Definition other_label : pystr :=
  lit "Would you like to know the ad booking flow for any other " ++
  lit "category like Customer, Agency, or want to know about Rajasthan " ++
  lit "Patrika or refund policy?".

Definition more_menu : support_message :=
  {| label := more_label;
     options := [lit "Rajasthan Patrika"; lit "Refund Policies";
                 lit "Ad Booking"] |}.

Definition ad_booking_menu : support_message :=
  {| label := ad_booking_label; options := [lit "Customer"; lit "Agency"] |}.

Definition customer_menu : support_message :=
  {| label := customer_label;
     options := [lit "Agency"; lit "Rajasthan Patrika"; lit "Refund Policy"] |}.

Definition agency_menu : support_message :=
  {| label := agency_label;
     options := [lit "Customer"; lit "Rajasthan Patrika";
                 lit "Refund Policy"] |}.

Definition other_menu : support_message :=
  {| label := other_label;
     options := [lit "Customer"; lit "Agency"; lit "Rajasthan Patrika";
                 lit "Refund Policy"] |}.

End Msg.

Import Msg.

(* ===================================================================== *)
(** * The agents ([app/chatbot/agents.py]) *)
(* ===================================================================== *)

Module Agents.

(** [sep.join(items)]: every item has to be a [str]. *)
Fixpoint all_strs (items : list pyval) : outcome (list pystr) :=
  match items with
  | [] => Returned []
  | PyStr s :: rest => l <- all_strs rest ;; Returned (s :: l)
  | _ :: _ => Raised (Exc TypeError (lit "sequence item: expected str instance"))
  end.

Definition join_values (sep : pystr) (items : list pyval) : outcome pystr :=
  l <- all_strs items ;; Returned (join sep l).

Section Agents.

Variable generate : pystr -> pyfloat -> outcome (option pystr).
Variable generate_stream : pystr -> pyfloat -> list pystr * option exn.

(** The two long constants of [contexts.py]; they are only ever pasted
    into a prompt. *)
Variables customer_context agency_context : pystr.

Definition rag_prompt (query context : pystr) : pystr :=
  nl ++ lit "        Context:" ++ nl ++ lit "        " ++ context ++ nl ++
  nl ++ lit "        Question: " ++ query ++ nl ++ nl ++
  lit "        Based on the context provided above, answer the " ++
  lit "question directly and concisely." ++ nl ++
  lit "        If the answer cannot be found in the context, say " ++
  lit "so clearly." ++ nl ++
  lit "        Be direct and helpful. Do not include any preparation " ++
  lit "messages, greetings, or status updates." ++ nl ++
  lit "        Only provide the actual answer or explanation." ++ nl ++ nl ++
  lit "        NOTE: Start your response directly with the answer, " ++
  lit "no preparation text." ++ nl ++ lit "        ".

Definition customer_prompt (query : pystr) : pystr :=
  nl ++ lit "    query = " ++ query ++ nl ++ lit "    context = " ++
  customer_context ++ nl ++ nl ++
  lit "    Based on the context provided, answer the user's query " ++
  lit "directly and concisely." ++ nl ++
  lit "    If the query is not specific, explain how a customer " ++
  lit "can book an ad." ++ nl ++
  lit "    Be direct and helpful. Do not include any preparation " ++
  lit "messages, greetings, or status updates." ++ nl ++
  lit "    Only provide the actual answer or explanation." ++ nl ++ nl ++
  lit "    NOTE: Start your response directly with the answer, " ++
  lit "no preparation text." ++ nl ++ lit "    ".

Definition agency_prompt (query : pystr) : pystr :=
  nl ++ lit "    query = " ++ query ++ nl ++ lit "    context = " ++
  agency_context ++ nl ++ lit "    " ++ nl ++
  lit "    Based on the context provided, answer the user's query " ++
  lit "directly and concisely." ++ nl ++
  lit "    If the query is not specific, explain how an agency " ++
  lit "can book an ad." ++ nl ++
  lit "    Be direct and helpful. Do not include any preparation " ++
  lit "messages, greetings, or status updates." ++ nl ++
  lit "    Only provide the actual answer or explanation." ++ nl ++ nl ++
  lit "    NOTE: Start your response directly with the answer, " ++
  lit "no preparation text." ++ nl ++ lit "    ".

Definition other_prompt (query : pystr) : pystr :=
  nl ++ lit "    query = " ++ query ++ nl ++ lit "    " ++ nl ++
  lit "    Answer the user's query directly and concisely." ++ nl ++
  lit "    Be helpful and direct. Do not include any preparation " ++
  lit "messages, greetings, or status updates." ++ nl ++
  lit "    Only provide the actual answer or explanation." ++ nl ++ nl ++
  lit "    NOTE: Start your response directly with the answer, " ++
  lit "no preparation text." ++ nl ++ lit "    ".

Definition rag_agent (query : pystr) (context_texts : list pyval)
  : outcome pystr :=
  try_except
    (context <- join_values (nl ++ nl) context_texts ;;
     Returned (get_google_response generate (rag_prompt query context)
                 default_temperature))
    (fun llm_error =>
       Raised (Exc PlainException
                 (lit "Failed to generate LLM response: "
                  ++ exn_str llm_error))).

Definition customer_agent (query : pystr) : pystr :=
  get_google_response generate (customer_prompt query) low_temperature.

Definition agency_agent (query : pystr) : pystr :=
  get_google_response generate (agency_prompt query) low_temperature.

Definition other_agent (query : pystr) : pystr :=
  get_google_response generate (other_prompt query) low_temperature.

(** The streaming agents: the chunks each generator yields. *)
Definition rag_agent_stream (query : pystr) (context_texts : list pyval)
  : list pystr :=
  match join_values (nl ++ nl) context_texts with
  | Returned context =>
      get_google_response_stream generate_stream (rag_prompt query context)
        default_temperature
  | Raised llm_error =>
      [lit "Failed to generate LLM response: " ++ exn_str llm_error]
  end.

Definition customer_agent_stream (query : pystr) : list pystr :=
  get_google_response_stream generate_stream (customer_prompt query)
    low_temperature.

Definition agency_agent_stream (query : pystr) : list pystr :=
  get_google_response_stream generate_stream (agency_prompt query)
    low_temperature.

Definition other_agent_stream (query : pystr) : list pystr :=
  get_google_response_stream generate_stream (other_prompt query)
    low_temperature.

End Agents.

End Agents.

Import Agents.

(* ===================================================================== *)
(** * Retrieval ([PineconeVectorStore.query_by_text]) *)
(* ===================================================================== *)

Module Retrieval.

(** One match of an index query. *)
Record vmatch := { match_id : pyval; match_score : pyval; match_metadata : dict }.

Section Store.

(** [get_vector_store()]: the process-wide handle, or the exception its
    construction raises. *)
Variable get_vector_store : outcome unit.
(** The embedding service and the index; [index_query] gives the
    [matches] of the response. *)
Variable embed_text : pystr -> outcome (list pyfloat).
Variable index_query :
  list pyfloat -> nat -> option pyval -> outcome (list vmatch).

Definition query_by_text (text : pystr) (top_k : nat) (filter : option pyval)
  : outcome (list vmatch) :=
  embedding <- embed_text text ;;
  index_query embedding top_k filter.

(** The passages taken from the matches: those whose metadata has a
    [text] field. *)
Definition context_of (matches : list vmatch) : list pyval :=
  flat_map (fun m => match lookup (match_metadata m) (lit "text") with
                     | Some t => [t]
                     | None => []
                     end) matches.

End Store.

End Retrieval.

Import Retrieval.

(* ===================================================================== *)
(** * The request/response chatbot ([app/chatbot/utils.py], [views.chat]) *)
(* ===================================================================== *)

Module Chatbot.

Section Chatbot.

Variable generate : pystr -> pyfloat -> outcome (option pystr).
Variables customer_context agency_context : pystr.
Variable get_vector_store : outcome unit.
Variable embed_text : pystr -> outcome (list pyfloat).
Variable index_query :
  list pyfloat -> nat -> option pyval -> outcome (list vmatch).

(** The loop of [rag_response]; it prints the first hundred code points
    of every passage, which only a [str] supports. *)
Definition collect_step (context_texts : list pyval) (m : vmatch)
  : outcome (list pyval) :=
  match lookup (match_metadata m) (lit "text") with
  | Some (PyStr t) => Returned (context_texts ++ [PyStr t])
  | Some _ => Raised (Exc TypeError (lit "unsupported operand"))
  | None => Returned context_texts
  end.

(** [Chatbot.rag_response(query)]; [None] is [PyNone]. *)
Definition rag_response (query : pystr) : outcome pyval :=
  try_except
    (_ <- get_vector_store ;;
     results <- query_by_text embed_text index_query query 5 None ;;
     context_texts <- foldM collect_step [] results ;;
     match context_texts with
     | _ :: _ =>
         llm_response <- rag_agent generate query context_texts ;;
         Returned (PyStr llm_response)
     | [] => Returned PyNone
     end)
    (fun e =>
       Raised (HTTPException 500 (lit "Query failed: " ++ exn_str e))).

(** [Chatbot.ai_response(query, intent)] *)
Definition ai_response (query : pystr) (intent : pyval)
  : outcome (pyval * support_message) :=
  if eq_str intent (lit "refund") then
    Returned (PyStr refund_message, more_menu)
  else if eq_str intent (lit "rp") then
    response <- rag_response query ;;
    Returned (response, more_menu)
  else if eq_str intent (lit "ad_booking") then
    Returned (PyStr ad_booking_message, ad_booking_menu)
  else if eq_str intent (lit "customer") then
    Returned (PyStr (customer_agent generate customer_context query),
              customer_menu)
  else if eq_str intent (lit "agency") then
    Returned (PyStr (agency_agent generate agency_context query),
              agency_menu)
  else
    Returned (PyStr (other_agent generate query), other_menu).

(** The body of a successful answer of [POST /chat/]. *)
Record final_response := {
  statusCode : nat;
  status_message : pystr;
  data_message : pyval;
  data_supportMessage : support_message
}.

Definition ok_response (message : pyval) (menu : support_message)
  : final_response :=
  {| statusCode := 200;
     status_message := lit "LLM response generated successfully";
     data_message := message;
     data_supportMessage := menu |}.

Variable json_loads : pystr -> outcome pyval.
(** [str.lower] *)
Variable lower : pystr -> pystr.

(** [views.chat(query)] *)
Definition chat (query : pystr) : outcome final_response :=
  if str_eqb (lower query) (lit "rajasthan patrika") then
    Returned (ok_response (PyStr rajasthan_patrika_message_post) more_menu)
  else if str_eqb (lower query) (lit "refund policies") then
    Returned (ok_response (PyStr refund_message) more_menu)
  else if str_eqb (lower query) (lit "ad booking") then
    Returned (ok_response (PyStr ad_booking_message) ad_booking_menu)
  else
    intent <- get_intent json_loads generate query ;;
    r <- ai_response query intent ;;
    Returned (ok_response (fst r) (snd r)).

End Chatbot.

End Chatbot.

(* ===================================================================== *)
(** * The streaming chatbot ([app/chatbot/streaming_utils.py]) *)
(* ===================================================================== *)

Module Streaming.

(** A frame sent over the socket. *)
Inductive ws_frame :=
| WsStream (chunk : pystr) (is_final : bool)
| WsComplete (message : pystr) (supportMessage : support_message)
| WsError (message : pystr).

(** [StreamingChatbot.stream_text_response(text, websocket, chunk_size)]:
    the frames it sends, for a positive [chunk_size]. *)
Definition stream_text_response (text : pystr) (chunk_size : nat)
  : list ws_frame :=
  map (fun i => WsStream (slice text i (i + chunk_size))
                         (List.length text <=? i + chunk_size))
      (range0 (List.length text) chunk_size).

Section Streaming.

Variable generate : pystr -> pyfloat -> outcome (option pystr).
Variables customer_context agency_context : pystr.
Variable get_vector_store : outcome unit.
Variable embed_text : pystr -> outcome (list pyfloat).
Variable index_query :
  list pyfloat -> nat -> option pyval -> outcome (list vmatch).

(** [StreamingChatbot.stream_rag_response(query, websocket)]: the frames
    it sends and its result. *)
Definition stream_rag_response (query : pystr)
  : list ws_frame * outcome pystr :=
  let body :=
    _ <- get_vector_store ;;
    results <- query_by_text embed_text index_query query 5 None ;;
    match context_of results with
    | _ :: _ => rag_agent generate query (context_of results)
    | [] => Returned not_found_message
    end in
  match body with
  | Returned r => ([], Returned r)
  | Raised e =>
      ([WsError (lit "Error in RAG response: " ++ exn_str e)],
       Raised (Exc PlainException (lit "RAG query failed: " ++ exn_str e)))
  end.

(** [StreamingChatbot.stream_ai_response(query, intent, websocket)] *)
Definition stream_ai_response (query : pystr) (intent : pyval)
  : list ws_frame * outcome (pystr * support_message) :=
  if eq_str intent (lit "refund") then
    ([], Returned (refund_message, more_menu))
  else if eq_str intent (lit "rp") then
    let '(sent, r) := stream_rag_response query in
    (sent, response <- r ;; Returned (response, more_menu))
  else if eq_str intent (lit "ad_booking") then
    ([], Returned (ad_booking_message, ad_booking_menu))
  else if eq_str intent (lit "customer") then
    ([], Returned (customer_agent generate customer_context query,
                   customer_menu))
  else if eq_str intent (lit "agency") then
    ([], Returned (agency_agent generate agency_context query, agency_menu))
  else
    ([], Returned (other_agent generate query, other_menu)).

End Streaming.

End Streaming.

Import Streaming.

(* ===================================================================== *)
(** * The streaming endpoints ([app/chatbot/views.py])

    A function gives the frames an endpoint sends during one turn whose
    writes all succeed; a client that disconnects cuts the turn short and
    no terminal frame is sent. *)
(* ===================================================================== *)

Module Endpoints.

Inductive loop_status := Continue | Stop.

(** An event of the server-sent stream: a chunk, the final payload, an
    error payload, the done marker. *)
Inductive sse_event :=
| SseChunk (chunk : pystr)
| SseFinal (message : pystr) (supportMessage : support_message)
| SseError (error : pystr)
| SseDone.

(** The loop over a generator: empty chunks are skipped, the others are
    appended to [full_response] and sent. *)
Fixpoint stream_loop (chunks : list pystr) (full_response : pystr)
  : list sse_event * pystr :=
  match chunks with
  | [] => ([], full_response)
  | chunk :: rest =>
      if nonempty chunk then
        let '(events, full) := stream_loop rest (full_response ++ chunk) in
        (SseChunk chunk :: events, full)
      else stream_loop rest full_response
  end.

Definition stream_generator (chunks : list pystr) (menu : support_message)
  : list sse_event :=
  let '(events, full_response) := stream_loop chunks [] in
  events ++ [SseFinal full_response menu; SseDone].

(** The table of [Chatbot.intent_classification]. *)
Definition classes (pred_idx : Z) : outcome pyval :=
  match pred_idx with
  | 0%Z => Returned (PyStr (lit "ad_booking"))
  | 1%Z => Returned (PyStr (lit "agency"))
  | 2%Z => Returned (PyStr (lit "customer"))
  | 3%Z => Returned (PyStr (lit "other"))
  | 4%Z => Returned (PyStr (lit "rp"))
  | 5%Z => Returned (PyStr (lit "refund"))
  | _ => Raised (Exc ServiceError (lit "KeyError"))
  end.

Section Endpoints.

Variable json_loads : pystr -> outcome pyval.
Variable lower : pystr -> pystr.
Variable generate : pystr -> pyfloat -> outcome (option pystr).
Variable generate_stream : pystr -> pyfloat -> list pystr * option exn.
Variables customer_context agency_context : pystr.
Variable get_vector_store : outcome unit.
Variable embed_text : pystr -> outcome (list pyfloat).
Variable index_query :
  list pyfloat -> nat -> option pyval -> outcome (list vmatch).
(** The trained classifier: loading it, vectorising the cleaned query
    and predicting a class index. *)
Variable predict : pystr -> outcome Z.

Definition intent_classification (query : pystr) : outcome pyval :=
  pred_idx <- predict query ;; classes pred_idx.

Definition ws_fail (e : exn) : list ws_frame * loop_status :=
  ([WsError (lit "An error occurred: " ++ exn_str e)], Stop).

(** The tail shared by both socket endpoints: answer, stream the text,
    send the complete frame. *)
Definition ws_answer (query : pystr) (intent : pyval)
  : list ws_frame * loop_status :=
  let '(sent, r) :=
    stream_ai_response generate customer_context agency_context
      get_vector_store embed_text index_query query intent in
  match r with
  | Raised e => (sent ++ fst (ws_fail e), Stop)
  | Returned (response, support_message) =>
      (sent ++ stream_text_response response 50
            ++ [WsComplete response support_message],
       Continue)
  end.

(** What both socket endpoints do with a received message before they
    look at the query. *)
Definition ws_receive (data : pystr)
  (k : pystr -> list ws_frame * loop_status) : list ws_frame * loop_status :=
  match json_loads data with
  | Raised e => ws_fail e
  | Returned (PyDict message_data) =>
      let query := get_default message_data (lit "query") (PyStr []) in
      if negb (truthy query) then
        ([WsError (lit "No query provided")], Continue)
      else
        match query with
        | PyStr q => k q
        | _ => ws_fail (Exc AttributeError (lit "no attribute 'lower'"))
        end
  | Returned _ => ws_fail (Exc AttributeError (lit "no attribute 'get'"))
  end.

(** Whether the query is one of the three that are answered at once. *)
Definition predefined (query : pystr) : bool :=
  str_eqb (lower query) (lit "rajasthan patrika")
  || str_eqb (lower query) (lit "refund policies")
  || str_eqb (lower query) (lit "ad booking").

(** One turn of [/chat/ws], from the query on. *)
Definition ws_turn (query : pystr) : list ws_frame * loop_status :=
  if str_eqb (lower query) (lit "rajasthan patrika") then
    ([WsComplete rajasthan_patrika_message more_menu], Continue)
  else if str_eqb (lower query) (lit "refund policies") then
    ([WsComplete refund_message more_menu], Continue)
  else if str_eqb (lower query) (lit "ad booking") then
    ([WsComplete ad_booking_message ad_booking_menu], Continue)
  else
    match intent_classification query with
    | Raised e => ws_fail e
    | Returned intent => ws_answer query intent
    end.

(** One turn of [/chat/ws]. *)
Definition websocket_chat (data : pystr) : list ws_frame * loop_status :=
  ws_receive data ws_turn.

(** One turn of [/chat/ws2], from a query that is a string on: the
    intent is fixed. *)
Definition ws_turn2 (query : pystr) : list ws_frame * loop_status :=
  ws_answer query (PyStr (lit "rp")).

(** The generator chosen for the [rp] intent. *)
Definition rp_generator (query : pystr) : list pystr :=
  match (_ <- get_vector_store ;;
         query_by_text embed_text index_query query 5 None) with
  | Returned results =>
      match context_of results with
      | _ :: _ => rag_agent_stream generate_stream query (context_of results)
      | [] => other_agent_stream generate_stream query
      end
  | Raised _ => other_agent_stream generate_stream query
  end.

Definition sse_fail (e : exn) : list sse_event :=
  [SseError (lit "An error occurred: " ++ exn_str e); SseDone].

(** [event_stream()] of [/chat/stream]. *)
Definition event_stream (query : pystr) : list sse_event :=
  if str_eqb (lower query) (lit "rajasthan patrika") then
    [SseFinal rajasthan_patrika_message more_menu; SseDone]
  else if str_eqb (lower query) (lit "refund policies") then
    [SseFinal refund_message more_menu; SseDone]
  else if str_eqb (lower query) (lit "ad booking") then
    [SseFinal ad_booking_message ad_booking_menu; SseDone]
  else
    match get_intent json_loads generate query with
    | Raised e => sse_fail e
    | Returned intent =>
        if eq_str intent (lit "refund") then
          [SseChunk refund_message; SseFinal refund_message more_menu;
           SseDone]
        else if eq_str intent (lit "rp") then
          stream_generator (rp_generator query) more_menu
        else if eq_str intent (lit "ad_booking") then
          [SseChunk ad_booking_message;
           SseFinal ad_booking_message ad_booking_menu; SseDone]
        else if eq_str intent (lit "customer") then
          stream_generator
            (customer_agent_stream generate_stream customer_context query)
            customer_menu
        else if eq_str intent (lit "agency") then
          stream_generator
            (agency_agent_stream generate_stream agency_context query)
            agency_menu
        else
          stream_generator (other_agent_stream generate_stream query)
            other_menu
    end.

(** [event_stream()] of [/chat/stream2]: the intent is fixed. *)
Definition event_stream2 (query : pystr) : list sse_event :=
  stream_generator (rp_generator query) more_menu.

End Endpoints.

(** The chunk payloads of a run of frames, in emission order, and the
    messages of its complete frames. *)
Definition ws_chunks (frames : list ws_frame) : list pystr :=
  flat_map (fun f => match f with WsStream c _ => [c] | _ => [] end) frames.

Definition ws_completes (frames : list ws_frame) : list pystr :=
  flat_map (fun f => match f with WsComplete m _ => [m] | _ => [] end) frames.

Definition sse_chunks (events : list sse_event) : list pystr :=
  flat_map (fun e => match e with SseChunk c => [c] | _ => [] end) events.

Definition sse_finals (events : list sse_event) : list pystr :=
  flat_map (fun e => match e with SseFinal m _ => [m] | _ => [] end) events.

End Endpoints.

Import Endpoints.

(* ===================================================================== *)
(** * Ingestion: the vector store and [rag.upsert_texts] *)
(* ===================================================================== *)

Module Ingest.

(** What [index.upsert] is handed for one chunk. *)
Record vector := { vec_id : pystr; vec_values : list pyfloat; vec_metadata : dict }.

(** The part of the world ingestion touches: how often the clock has been
    read, and every batch handed to the index so far. *)
Record world := { ticks : nat; index_log : list (list vector) }.

Definition M (A : Type) : Type := world -> world * outcome A.

Definition ret {A} (a : A) : M A := fun w => (w, Returned a).
Definition raise {A} (e : exn) : M A := fun w => (w, Raised e).
Definition lift {A} (o : outcome A) : M A := fun w => (w, o).

Definition bindM {A B} (m : M A) (k : A -> M B) : M B :=
  fun w =>
    match m w with
    | (w', Returned a) => k a w'
    | (w', Raised e) => (w', Raised e)
    end.

(** [try: m except Exception as e: h e]; what [m] did to the world stays. *)
Definition catch {A} (m : M A) (h : exn -> M A) : M A :=
  fun w =>
    match m w with
    | (w', Returned a) => (w', Returned a)
    | (w', Raised e) => h e w'
    end.

Fixpoint forM {A S} (f : S -> A -> M S) (st : S) (l : list A) : M S :=
  match l with
  | [] => ret st
  | a :: l' => bindM (f st a) (fun st' => forM f st' l')
  end.

(** [enumerate(l)] *)
Definition enumerate {A} (l : list A) : list (nat * A) :=
  combine (seq 0 (List.length l)) l.

(** The preview kept in the metadata:
    [chunk[:500] + "..." if len(chunk) > 500 else chunk]. *)
Definition preview (chunk : pystr) : pystr :=
  if 500 <? List.length chunk then firstn 500 chunk ++ lit "..." else chunk.

(** [s or "unknown"] for an optional string. *)
Definition or_unknown (s : option pystr) : pystr :=
  match s with
  | Some (c :: r) => c :: r
  | _ => lit "unknown"
  end.

Section Store.

(** [int(time.time())] at the n-th reading of the clock. *)
Variable clock : nat -> Z.
(** [hashlib.md5(bytes).hexdigest()], as a function of the encoded text. *)
Variable md5_hexdigest : pystr -> pystr.
Variable get_vector_store : outcome unit.
(** [embed_texts] and [index.upsert]. *)
Variable embed_texts : list pystr -> outcome (list (list pyfloat)).
Variable index_upsert : list vector -> outcome unit.

Definition time_now : M Z :=
  fun w => ({| ticks := S (ticks w); index_log := index_log w |},
            Returned (clock (ticks w))).

Definition send_batch (batch : list vector) : M unit :=
  fun w => ({| ticks := ticks w; index_log := index_log w ++ [batch] |},
            index_upsert batch).

(** [hashlib.md5(chunk.encode()).hexdigest()[:8]] *)
Definition chunk_hash (chunk : pystr) : outcome pystr :=
  _ <- encoded_len chunk ;;
  Returned (firstn 8 (md5_hexdigest chunk)).

(** The vector built for one position of [(ids, texts, metadatas,
    vectors)]. *)
Definition upsert_vector (id text : pystr) (metadata : dict)
  (embedding : list pyfloat) : vector :=
  {| vec_id := id;
     vec_values := embedding;
     vec_metadata :=
       if has_key metadata (lit "text") then metadata
       else set metadata (lit "text") (PyStr text) |}.

Fixpoint zip4 (ids texts : list pystr) (metadatas : list dict)
  (vectors : list (list pyfloat)) : list vector :=
  match ids, texts, metadatas, vectors with
  | i :: ids', t :: texts', m :: metadatas', v :: vectors' =>
      upsert_vector i t m v :: zip4 ids' texts' metadatas' vectors'
  | _, _, _, _ => []
  end.

(** [PineconeVectorStore.upsert_texts(ids, texts, metadatas)], with its
    batches of one hundred. *)
Definition store_upsert_texts (ids texts : list pystr)
  (metadatas : list dict) : M unit :=
  if negb (List.length ids =? List.length texts) then
    raise (Exc ValueError (lit "ids and texts must be the same length."))
  else if match metadatas with [] => false | _ => true end
          && negb (List.length metadatas =? List.length texts) then
    raise (Exc ValueError
             (lit "metadatas, if provided, must match texts length."))
  else
    bindM (lift (embed_texts texts)) (fun vectors =>
    let metadatas' :=
      match metadatas with
      | [] => repeat [] (List.length texts)
      | _ => metadatas
      end in
    let upsert_vectors := zip4 ids texts metadatas' vectors in
    bindM
      (forM (fun (_ : unit) i =>
               send_batch (slice upsert_vectors i (i + 100)))
            tt (range0 (List.length upsert_vectors) 100))
      (fun _ => ret tt)).

(** The chunks [rag.upsert_texts] stores for a text it accepts. *)
Definition chunks_of_text (text : pystr) : outcome (list pystr) :=
  text_bytes <- encoded_len text ;;
  if (50000 <? Z.of_nat text_bytes)%Z then _chunk_text text 40000
  else Returned [text].

(** The identifier [rag.upsert_texts] gives chunk [i], the clock reading
    [now]. *)
Definition doc_vector_id (hash : pystr) (now : Z) (i : nat) : pystr :=
  lit "doc_" ++ hash ++ lit "_" ++ dec_int now ++ lit "_" ++ dec i.

Definition doc_metadata (filename file_type : option pystr)
  (chunk : pystr) (created_at : Z) (i total : nat) : dict :=
  [(lit "filename", PyStr (or_unknown filename));
   (lit "file_type", PyStr (or_unknown file_type));
   (lit "text", PyStr (preview chunk));
   (lit "created_at", PyInt created_at);
   (lit "chunk_index", PyInt (Z.of_nat i));
   (lit "total_chunks", PyInt (Z.of_nat total))].

(** One round of the loop over the chunks; an exception leaves
    [success_count] as it is. *)
Definition store_chunk (filename file_type : option pystr) (total : nat)
  (success_count : nat) (ic : nat * pystr) : M nat :=
  let '(i, chunk) := ic in
  catch
    (bindM (lift (chunk_hash chunk)) (fun hash =>
     bindM time_now (fun now =>
     let vector_id := doc_vector_id hash now i in
     bindM time_now (fun created_at =>
     let metadata := doc_metadata filename file_type chunk created_at i total in
     bindM (store_upsert_texts [vector_id] [chunk] [metadata]) (fun _ =>
     ret (S success_count))))))
    (fun _ => ret success_count).

(** [rag.upsert_texts(text, filename, file_type)] *)
Definition upsert_texts (text : pystr) (filename file_type : option pystr)
  : M bool :=
  catch
    (if negb (nonempty text) || negb (nonempty (strip text)) then ret false
     else
       bindM (lift get_vector_store) (fun _ =>
       bindM (lift (chunks_of_text text)) (fun chunks =>
       bindM (forM (store_chunk filename file_type (List.length chunks))
                   0 (enumerate chunks))
             (fun success_count => ret (0 <? success_count)))))
    (fun _ => ret false).

End Store.

Definition empty_world : world := {| ticks := 0; index_log := [] |}.

(** Every vector handed to the index, in order. *)
Definition stored (w : world) : list vector := List.concat (index_log w).

End Ingest.

Import Ingest.

(* ===================================================================== *)
(** * Bulk ingestion ([app/chatbot/jsonl_handler.py]) *)
(* ===================================================================== *)

Module Jsonl.

(** [bytes.decode('utf-8')], strict: [None] stands for
    [UnicodeDecodeError]. *)
Definition is_cont (b : N) : bool := ((128 <=? b) && (b <=? 191))%N.

Fixpoint utf8_decode (bs : list N) : option pystr :=
  match bs with
  | [] => Some []
  | b0 :: r0 =>
      if (b0 <? 128)%N then option_map (cons b0) (utf8_decode r0)
      else
        match r0 with
        | b1 :: r1 =>
            if ((194 <=? b0) && (b0 <=? 223) && is_cont b1)%N then
              option_map (cons ((b0 - 192) * 64 + (b1 - 128))%N)
                         (utf8_decode r1)
            else
              match r1 with
              | b2 :: r2 =>
                  let c3 := (((b0 - 224) * 64 + (b1 - 128)) * 64
                             + (b2 - 128))%N in
                  if ((224 <=? b0) && (b0 <=? 239) && is_cont b1 && is_cont b2
                      && (2048 <=? c3) && negb (is_surrogate c3))%N then
                    option_map (cons c3) (utf8_decode r2)
                  else
                    match r2 with
                    | b3 :: r3 =>
                        let c4 := ((((b0 - 240) * 64 + (b1 - 128)) * 64
                                    + (b2 - 128)) * 64 + (b3 - 128))%N in
                        if ((240 <=? b0) && (b0 <=? 244) && is_cont b1
                            && is_cont b2 && is_cont b3
                            && (65536 <=? c4) && (c4 <=? 1114111))%N then
                          option_map (cons c4) (utf8_decode r3)
                        else None
                    | [] => None
                    end
              | [] => None
              end
        | [] => None
        end
  end.

Definition text_fields : list pystr :=
  [lit "text"; lit "content"; lit "description"; lit "body"; lit "summary";
   lit "title"].

(** The first field of [text_fields] that is present and truthy. *)
Fixpoint first_text_field (d : dict) (fields : list pystr) : option pyval :=
  match fields with
  | [] => None
  | field :: rest =>
      match lookup d field with
      | Some v => if truthy v then Some v else first_text_field d rest
      | None => first_text_field d rest
      end
  end.

Definition bar : pystr := lit " | ".

(** [_extract_from_dict(obj)], for the value [obj] of a nested field. *)
Fixpoint _extract_from_dict (obj : pyval) : pystr :=
  match obj with
  | PyDict d =>
      join bar
        ((fix parts (items : list (pystr * pyval)) : list pystr :=
            match items with
            | [] => []
            | (key, value) :: rest =>
                match value with
                | PyStr v =>
                    if nonempty (strip v)
                    then (key ++ lit ": " ++ v) :: parts rest
                    else parts rest
                | PyDict _ =>
                    let nested := _extract_from_dict value in
                    if nonempty nested then nested :: parts rest
                    else parts rest
                | _ => parts rest
                end
            end) d)
  | _ => []
  end.

(** The fallback of [extract_text_content]: every string value and every
    nested object, each with its key. *)
Fixpoint text_parts (items : dict) : list pystr :=
  match items with
  | [] => []
  | (key, value) :: rest =>
      match value with
      | PyStr v =>
          if nonempty (strip v) then (key ++ lit ": " ++ v) :: text_parts rest
          else text_parts rest
      | PyDict _ =>
          let nested_text := _extract_from_dict value in
          if nonempty nested_text
          then (key ++ lit ": " ++ nested_text) :: text_parts rest
          else text_parts rest
      | _ => text_parts rest
      end
  end.

Record stats := {
  total_objects : nat;
  successful_stores : nat;
  failed_stores : nat;
  total_chunks : nat
}.

(** The three lists a batch is collected in. *)
Record batch := {
  batch_ids : list pystr;
  batch_texts : list pystr;
  batch_metadatas : list dict
}.

Definition empty_batch : batch :=
  {| batch_ids := []; batch_texts := []; batch_metadatas := [] |}.

Section Processor.

Variable json_loads : pystr -> outcome pyval.
(** [str(v)] for a list or a dict. *)
Variable repr_container : pyval -> pystr.
(** [urlparse(url).netloc], or the exception the call raises. *)
Variable urlparse_netloc : pyval -> outcome pystr.
Variable clock : nat -> Z.
Variable md5_hexdigest : pystr -> pystr.
Variable embed_texts : list pystr -> outcome (list (list pyfloat)).
Variable index_upsert : list vector -> outcome unit.

(** [str(v)] *)
Definition py_str (v : pyval) : pystr :=
  match v with
  | PyStr s => s
  | PyNone => lit "None"
  | PyBool true => lit "True"
  | PyBool false => lit "False"
  | PyInt z => dec_int z
  | PyFloat f => float_repr f
  | PyList _ | PyDict _ => repr_container v
  end.

(** The loop of [parse_jsonl_file] over the lines, numbered from
    [line_num]. *)
Fixpoint parse_lines (line_num : nat) (lines : list pystr)
  (json_objects : list pyval) : outcome (list pyval) :=
  match lines with
  | [] => Returned json_objects
  | line :: rest =>
      let line := strip line in
      if negb (nonempty line) then parse_lines (S line_num) rest json_objects
      else
        match json_loads line with
        | Returned json_obj =>
            parse_lines (S line_num) rest (json_objects ++ [json_obj])
        | Raised e =>
            if is_class JSONDecodeError e then
              Raised (HTTPException 400
                        (lit "Invalid JSON on line " ++ dec line_num
                         ++ lit ": " ++ exn_str e))
            else Raised e
        end
  end.

(** [JSONLProcessor.parse_jsonl_file(file_content)] *)
Definition parse_jsonl_file (file_content : list N) : outcome (list pyval) :=
  try_except
    (content <- match utf8_decode file_content with
                | Some content => Returned content
                | None => Raised (Exc UnicodeDecodeError
                                    (lit "invalid start byte"))
                end ;;
     json_objects <- parse_lines 1 (split (strip content) nl) [] ;;
     match json_objects with
     | [] => Raised (HTTPException 400
                       (lit "No valid JSON objects found in file"))
     | _ => Returned json_objects
     end)
    (fun e =>
       if is_class UnicodeDecodeError e then
         Raised (HTTPException 400 (lit "File must be UTF-8 encoded"))
       else
         Raised (HTTPException 500
                   (lit "Failed to parse JSONL file: " ++ exn_str e))).

(** [JSONLProcessor.extract_text_content(json_obj)] *)
Definition extract_text_content (json_obj : pyval) : outcome pystr :=
  match json_obj with
  | PyDict d =>
      match first_text_field d text_fields with
      | Some v => Returned (strip (py_str v))
      | None => Returned (join bar (text_parts d))
      end
  | PyStr s =>
      if existsb (contains s) text_fields
      then Raised (Exc TypeError (lit "string indices must be integers"))
      else Raised (Exc AttributeError (lit "no attribute 'items'"))
  | PyList l =>
      if existsb (fun field => existsb (fun x => eq_str x field) l)
           text_fields
      then Raised (Exc TypeError (lit "list indices must be integers"))
      else Raised (Exc AttributeError (lit "no attribute 'items'"))
  | _ => Raised (Exc TypeError (lit "argument is not iterable"))
  end.

(** The loop of [create_metadata] over the nested [metadata] object. *)
Fixpoint add_extra (metadata : dict) (items : dict) : dict :=
  match items with
  | [] => metadata
  | (key, value) :: rest =>
      match value with
      | PyNone => add_extra metadata rest
      | _ =>
          if is_basic value then add_extra (set metadata key value) rest
          else add_extra (set metadata key (PyStr (py_str value))) rest
      end
  end.

(** [{k: v for k, v in metadata.items() if v is not None}] *)
Definition drop_none (metadata : dict) : dict :=
  filter (fun kv => match snd kv with PyNone => false | _ => true end)
         metadata.

(** [json_obj.get(key)], or the empty string when that is falsy. *)
Definition get_or_empty (json_obj : dict) (key : pystr) : pyval :=
  py_or (get_default json_obj key PyNone) (PyStr []).

(** [JSONLProcessor.create_metadata(json_obj, filename, chunk_index)],
    the clock reading [created_at]. *)
Definition create_metadata (json_obj : dict) (filename : pystr)
  (chunk_index : nat) (created_at : Z) : dict :=
  let metadata : dict :=
    [(lit "source_type", PyStr (lit "jsonl"));
     (lit "filename", PyStr (or_unknown (Some filename)));
     (lit "chunk_index", PyInt (Z.of_nat chunk_index));
     (lit "created_at", PyInt created_at);
     (lit "id", get_or_empty json_obj (lit "id"));
     (lit "url", get_or_empty json_obj (lit "url"));
     (lit "title", get_or_empty json_obj (lit "title"));
     (lit "section", get_or_empty json_obj (lit "section"))] in
  let metadata :=
    match lookup json_obj (lit "metadata") with
    | Some (PyDict extra) => add_extra metadata extra
    | _ => metadata
    end in
  let metadata :=
    if truthy (get_default json_obj (lit "url") PyNone) then
      match urlparse_netloc (get_default json_obj (lit "url") PyNone) with
      | Returned netloc =>
          if nonempty netloc then set metadata (lit "site") (PyStr netloc)
          else metadata
      | Raised _ => metadata
      end
    else metadata in
  drop_none metadata.

(** The loop that makes the metadata valid for the index: a [None] is
    deleted, a value of another type becomes its [str]. *)
Fixpoint sanitize_items (metadata : dict) (items : dict) : dict :=
  match items with
  | [] => metadata
  | (key, value) :: rest =>
      match value with
      | PyNone => sanitize_items (del metadata key) rest
      | _ =>
          if is_basic value then sanitize_items metadata rest
          else sanitize_items (set metadata key (PyStr (py_str value))) rest
      end
  end.

Definition sanitize (metadata : dict) : dict :=
  sanitize_items metadata metadata.

(** The metadata of one chunk, as it is appended to the batch. *)
Definition chunk_metadata (json_obj : dict) (filename : pystr)
  (chunk_index : nat) (chunk_text : pystr) (total : nat) (created_at : Z)
  : dict :=
  let metadata := create_metadata json_obj filename chunk_index created_at in
  let metadata := set metadata (lit "text") (PyStr (preview chunk_text)) in
  let metadata := set metadata (lit "total_chunks") (PyInt (Z.of_nat total)) in
  sanitize metadata.

(** [f"{obj_id}_chunk_{chunk_index}_{chunk_hash}"] with
    [obj_id = json_obj.get("id", f"obj_{position}")]. *)
Definition jsonl_vector_id (json_obj : dict) (position chunk_index : nat)
  (hash : pystr) : pystr :=
  let obj_id :=
    get_default json_obj (lit "id") (PyStr (lit "obj_" ++ dec position)) in
  py_str obj_id ++ lit "_chunk_" ++ dec chunk_index ++ lit "_" ++ hash.

(** What the loop over the objects of one batch carries along. *)
Record progress := {
  collected : batch;
  failed : nat;
  chunks_seen : nat
}.

(** One round of the loop over the chunks of an object. *)
Definition add_chunk (json_obj : dict) (filename : pystr)
  (position total : nat) (b : batch) (ic : nat * pystr) : M batch :=
  let '(chunk_index, chunk_text) := ic in
  bindM (lift (chunk_hash md5_hexdigest chunk_text)) (fun hash =>
  let vector_id := jsonl_vector_id json_obj position chunk_index hash in
  bindM (time_now clock) (fun created_at =>
  let metadata :=
    chunk_metadata json_obj filename chunk_index chunk_text total created_at in
  ret {| batch_ids := batch_ids b ++ [vector_id];
         batch_texts := batch_texts b ++ [chunk_text];
         batch_metadatas := batch_metadatas b ++ [metadata] |})).

(** [forM] that also hands back the state reached when a round raises:
    what was appended to the batch lists before stays there. *)
Fixpoint forM_keep {A S} (f : S -> A -> M S) (st : S) (l : list A)
  : world -> world * (S * option exn) :=
  fun w =>
    match l with
    | [] => (w, (st, None))
    | a :: l' =>
        match f st a w with
        | (w', Returned st') => forM_keep f st' l' w'
        | (w', Raised e) => (w', (st, Some e))
        end
    end.

(** One round of the loop over the objects of a batch. *)
Definition add_object (filename : pystr) (batch_start : nat)
  (p : progress) (io : nat * pyval) : world -> world * progress :=
  fun w =>
    let '(obj_index, json_obj) := io in
    let fail p := {| collected := collected p; failed := S (failed p);
                     chunks_seen := chunks_seen p |} in
    match extract_text_content json_obj with
    | Raised _ => (w, fail p)
    | Returned text_content =>
        if negb (nonempty (strip text_content)) then (w, fail p)
        else
          match chunk_large_text text_content 40000 with
          | Raised _ => (w, fail p)
          | Returned text_chunks =>
              let p' := {| collected := collected p; failed := failed p;
                           chunks_seen :=
                             chunks_seen p + List.length text_chunks |} in
              match json_obj with
              | PyDict d =>
                  let '(w', (b, err)) :=
                    forM_keep
                      (add_chunk d filename (batch_start + obj_index)
                         (List.length text_chunks))
                      (collected p') (enumerate text_chunks) w in
                  let p'' := {| collected := b; failed := failed p';
                                chunks_seen := chunks_seen p' |} in
                  (w', match err with Some _ => fail p'' | None => p'' end)
              | _ => (w, fail p')
              end
          end
    end.

Fixpoint add_objects (filename : pystr) (batch_start : nat) (p : progress)
  (objs : list (nat * pyval)) : world -> world * progress :=
  fun w =>
    match objs with
    | [] => (w, p)
    | io :: rest =>
        let '(w', p') := add_object filename batch_start p io w in
        add_objects filename batch_start p' rest w'
    end.

(** One round of the loop over the batches. *)
Definition process_batch (json_objects : list pyval) (filename : pystr)
  (batch_size : nat) (st : stats) (batch_start : nat)
  : world -> world * stats :=
  fun w =>
    let batch_end := Nat.min (batch_start + batch_size) (total_objects st) in
    let objs := slice json_objects batch_start batch_end in
    let '(w1, p) :=
      add_objects filename batch_start
        {| collected := empty_batch; failed := 0; chunks_seen := 0 |}
        (enumerate objs) w in
    let b := collected p in
    let st1 := {| total_objects := total_objects st;
                  successful_stores := successful_stores st;
                  failed_stores := failed_stores st + failed p;
                  total_chunks := total_chunks st + chunks_seen p |} in
    match batch_ids b with
    | [] => (w1, st1)
    | _ =>
        match store_upsert_texts embed_texts index_upsert
                (batch_ids b) (batch_texts b) (batch_metadatas b) w1 with
        | (w2, Returned _) =>
            (w2, {| total_objects := total_objects st1;
                    successful_stores :=
                      successful_stores st1 + List.length (batch_ids b);
                    failed_stores := failed_stores st1;
                    total_chunks := total_chunks st1 |})
        | (w2, Raised _) =>
            (w2, {| total_objects := total_objects st1;
                    successful_stores := successful_stores st1;
                    failed_stores :=
                      failed_stores st1 + List.length (batch_ids b);
                    total_chunks := total_chunks st1 |})
        end
    end.

Fixpoint process_batches (json_objects : list pyval) (filename : pystr)
  (batch_size : nat) (st : stats) (starts : list nat)
  : world -> world * stats :=
  fun w =>
    match starts with
    | [] => (w, st)
    | batch_start :: rest =>
        let '(w', st') :=
          process_batch json_objects filename batch_size st batch_start w in
        process_batches json_objects filename batch_size st' rest w'
    end.

(** [JSONLProcessor.process_jsonl_batch(json_objects, filename,
    batch_size)]; the success rate, a float, is left out of the
    statistics. *)
Definition process_jsonl_batch (json_objects : list pyval)
  (filename : pystr) (batch_size : nat) : world -> world * stats :=
  process_batches json_objects filename batch_size
    {| total_objects := List.length json_objects; successful_stores := 0;
       failed_stores := 0; total_chunks := 0 |}
    (range0 (List.length json_objects) batch_size).

(** [JSONLProcessor.process_jsonl_file(file_content, filename)] *)
Definition process_jsonl_file (file_content : list N) (filename : pystr)
  : M stats :=
  fun w =>
    match parse_jsonl_file file_content with
    | Raised e => (w, Raised e)
    | Returned json_objects =>
        let '(w', st) := process_jsonl_batch json_objects filename 50 w in
        (w', Returned st)
    end.

End Processor.

End Jsonl.

Import Jsonl.

(* ===================================================================== *)
(** * Helpers of the chatbot ([app/chatbot/utils.py]) *)
(* ===================================================================== *)

Module Utils.

(** [s.replace(old, new)] for a non-empty [old]: the occurrences of [old]
    are found from left to right and do not overlap.  [skip] counts the
    code points of an occurrence still to be passed over. *)
Fixpoint replace_go (old new s : pystr) (skip : nat) : pystr :=
  match s with
  | [] => []
  | c :: s' =>
      match skip with
      | S k => replace_go old new s' k
      | O =>
          if startswith s old
          then new ++ replace_go old new s' (List.length old - 1)
          else c :: replace_go old new s' 0
      end
  end.

Definition replace (s old new : pystr) : pystr := replace_go old new s 0.

(** The two sequences [clean_text] looks for: a right single quotation
    mark and a left double quotation mark, each encoded as UTF-8 and
    decoded as Windows-1252 (U+00E2 U+20AC U+2122, U+00E2 U+20AC
    U+0153). *)
Definition garbled_apostrophe : pystr := [226%N; 8364%N; 8482%N].
Definition garbled_quote : pystr := [226%N; 8364%N; 339%N].

(** [Chatbot.clean_text(text)] *)
Definition clean_text (text : pystr) : pystr :=
  let text := replace text garbled_apostrophe (lit "'") in
  let text := replace text garbled_quote dq in
  let text := replace text garbled_apostrophe dq in
  let text := replace text (lit "I" ++ garbled_apostrophe ++ lit "m")
                (lit "I'm") in
  text.

(** An uploaded file as [_enforce_size_limit] sees it: its bytes and the
    position of the next read. *)
Record upload_file := { file_bytes : list N; position : nat }.

(** [file.file.read(n)]: the next [n] bytes, fewer when the file ends
    before. *)
Definition file_read (f : upload_file) (n : nat) : list N * upload_file :=
  let chunk := firstn n (skipn (position f) (file_bytes f)) in
  (chunk,
   {| file_bytes := file_bytes f;
      position := position f + List.length chunk |}).

(** [file.file.seek(0)] *)
Definition file_rewind (f : upload_file) : upload_file :=
  {| file_bytes := file_bytes f; position := 0 |}.

Definition too_large (max_bytes : Z) : exn :=
  HTTPException 413
    (lit "File too large (> " ++ dec_int (max_bytes / (1024 * 1024))
     ++ lit " MB).").

(** The loop of [_enforce_size_limit], at most [fuel] reads long. *)
Fixpoint read_loop (fuel chunk_size : nat) (max_bytes : Z) (f : upload_file)
  (buf : list N) (total : nat) : option (upload_file * outcome (list N)) :=
  match fuel with
  | O => None
  | S fuel' =>
      let '(chunk, f') := file_read f chunk_size in
      if negb (nonempty chunk) then Some (f', Returned buf)
      else
        let total := total + List.length chunk in
        if (max_bytes <? Z.of_nat total)%Z
        then Some (f', Raised (too_large max_bytes))
        else read_loop fuel' chunk_size max_bytes f' (buf ++ chunk) total
  end.

(** [_enforce_size_limit(file, max_bytes)]: the file after the call and
    the result.  A read that is not empty moves the position, so one read
    more than the file has bytes is enough. *)
Definition _enforce_size_limit (f : upload_file) (max_bytes : Z)
  : option (upload_file * outcome (list N)) :=
  match read_loop (S (List.length (file_bytes f))) (1024 * 1024) max_bytes
          f [] 0 with
  | Some (f', Returned content) => Some (file_rewind f', Returned content)
  | r => r
  end.

End Utils.

Import Utils.

(* ===================================================================== *)
(** * The upload endpoint ([views.upload_jsonl]) *)
(* ===================================================================== *)

Module Upload.

(** [s.endswith(suffix)] *)
Definition endswith (s suffix : pystr) : bool :=
  startswith (rev s) (rev suffix).

Record processing_details := {
  objects_processed : nat;
  vectors_created : nat;
  chunks_created : nat;
  errors : nat
}.

(** The body of a successful answer of [POST /chat/upload-jsonl]. *)
Record upload_response := {
  response_message : pystr;
  response_filename : pystr;
  file_size_bytes : nat;
  response_total_objects : nat;
  response_successful_stores : nat;
  response_failed_stores : nat;
  response_total_chunks : nat;
  success_rate : pystr;
  details : processing_details
}.

(** The largest upload accepted, in bytes. *)
Definition max_size : Z := 50 * 1024 * 1024.

Section Endpoint.

Variable json_loads : pystr -> outcome pyval.
Variable repr_container : pyval -> pystr.
Variable urlparse_netloc : pyval -> outcome pystr.
Variable clock : nat -> Z.
Variable md5_hexdigest : pystr -> pystr.
Variable embed_texts : list pystr -> outcome (list (list pyfloat)).
Variable index_upsert : list vector -> outcome unit.
Variable get_vector_store : outcome unit.
Variable lower : pystr -> pystr.
(** [await file.read()]: the whole content, or the exception the read
    raises. *)
Variable read : outcome (list N).
(** The success rate of a run with at least one stored or failed entry,
    written with two decimals: the format [.2f] of
    [successful / (successful + failed) * 100]. *)
Variable format_rate : nat -> nat -> pystr.

(** The [success_rate] of the answer; without any entry the rate is the
    integer [0]. *)
Definition rate_text (st : stats) : pystr :=
  (if 0 <? successful_stores st + failed_stores st
   then format_rate (successful_stores st) (failed_stores st)
   else lit "0.00") ++ lit "%".

Definition response_data (st : stats) (filename : pystr)
  (file_content : list N) : upload_response :=
  {| response_message := lit "JSONL file processed successfully";
     response_filename := filename;
     file_size_bytes := List.length file_content;
     response_total_objects := total_objects st;
     response_successful_stores := successful_stores st;
     response_failed_stores := failed_stores st;
     response_total_chunks := total_chunks st;
     success_rate := rate_text st;
     details :=
       {| objects_processed := total_objects st;
          vectors_created := successful_stores st;
          chunks_created := total_chunks st;
          errors := failed_stores st |} |}.

(** The first [try] of the endpoint: reading the file and checking its
    size.  Every exception raised in it, its own included, comes out as
    status 400. *)
Definition read_content : outcome (list N) :=
  try_except
    (content <- read ;;
     if negb (nonempty content)
     then Raised (HTTPException 400 (lit "Empty file provided."))
     else if (max_size <? Z.of_nat (List.length content))%Z
     then Raised (HTTPException 413
                    (lit "File too large. Maximum size allowed is "
                     ++ dec_int (max_size / (1024 * 1024)) ++ lit "MB"))
     else Returned content)
    (fun e =>
       Raised (HTTPException 400 (lit "Failed to read file: " ++ exn_str e))).

(** [except HTTPException: raise] followed by
    [except Exception as e: raise HTTPException(500, ...)]. *)
Definition reraise_as_500 (e : exn) : exn :=
  match e with
  | HTTPException _ _ => e
  | Exc _ _ =>
      HTTPException 500 (lit "Failed to process JSONL file: " ++ exn_str e)
  end.

(** [upload_jsonl(file)], for a file with the given [filename]. *)
Definition upload_jsonl (filename : option pystr) : M upload_response :=
  match filename with
  | None | Some [] => raise (HTTPException 400 (lit "No filename provided."))
  | Some filename =>
      if negb (endswith (lower filename) (lit ".jsonl")) then
        raise (HTTPException 415
                 (lit "Unsupported file type. Only .jsonl files are allowed."))
      else
        bindM (lift read_content) (fun content =>
        catch
          (bindM (lift get_vector_store) (fun _ =>
           bindM (process_jsonl_file json_loads repr_container
                    urlparse_netloc clock md5_hexdigest embed_texts
                    index_upsert content filename) (fun results =>
           ret (response_data results filename content))))
          (fun e => raise (reraise_as_500 e)))
  end.

End Endpoint.

End Upload.

Import Upload.

(* ===================================================================== *)
(** * The second socket endpoint ([/chat/ws2] in [views.py]) *)
(* ===================================================================== *)

Module Socket2.

(** [type(v).__name__] *)
Definition type_name (v : pyval) : pystr :=
  match v with
  | PyNone => lit "NoneType"
  | PyBool _ => lit "bool"
  | PyInt _ => lit "int"
  | PyFloat _ => lit "float"
  | PyStr _ => lit "str"
  | PyList _ => lit "list"
  | PyDict _ => lit "dict"
  end.

Section Endpoint.

Variable json_loads : pystr -> outcome pyval.
Variable repr_container : pyval -> pystr.
Variable generate : pystr -> pyfloat -> outcome (option pystr).
Variables customer_context agency_context : pystr.
Variable get_vector_store : outcome unit.
(** [embed_text] on whatever the message carries as its query. *)
Variable embed_value : pyval -> outcome (list pyfloat).
Variable index_query :
  list pyfloat -> nat -> option pyval -> outcome (list vmatch).

(** One turn of [/chat/ws2], from the message received on.  Nothing asks
    the query to be a string: a truthy query goes to the embedding
    service as it is and into the prompt as its [str]. *)
Definition websocket_chat2 (data : pystr) : list ws_frame * loop_status :=
  match json_loads data with
  | Raised e => ws_fail e
  | Returned (PyDict message_data) =>
      let query := get_default message_data (lit "query") (PyStr []) in
      if negb (truthy query) then
        ([WsError (lit "No query provided")], Continue)
      else
        ws_answer generate customer_context agency_context get_vector_store
          (fun _ => embed_value query) index_query
          (py_str repr_container query) (PyStr (lit "rp"))
  | Returned v =>
      ws_fail (Exc AttributeError
                 (lit "'" ++ type_name v
                  ++ lit "' object has no attribute 'get'"))
  end.

End Endpoint.

End Socket2.

Import Socket2.

(* ===================================================================== *)
(** * Reference instances of the library functions

    Used to run the model on concrete inputs: the decoder of [JsonRef],
    [str.lower] on ASCII text, services that always answer the same. *)
(* ===================================================================== *)

Module Ref.

Definition json_error : pystr :=
  lit "Expecting value: line 1 column 1 (char 0)".

(** [json.loads] on texts without float literals whose first error, if
    any, is at their first code point. *)
Definition json_loads : pystr -> outcome pyval :=
  JsonRef.loads (fun t => {| float_repr := t |}) (fun _ => json_error).

(** [str.lower] on ASCII text. *)
Definition lower (s : pystr) : pystr :=
  map (fun c => if ((65 <=? c) && (c <=? 90))%N then (c + 32)%N else c) s.

(** A model that answers every prompt with the same text. *)
Definition answer (text : pystr) : pystr -> pyfloat -> outcome (option pystr) :=
  fun _ _ => Returned (Some text).

Definition answer_stream (texts : list pystr)
  : pystr -> pyfloat -> list pystr * option exn :=
  fun _ _ => (texts, None).

(** An index without matches behind an embedding service that fails the
    way [embed_text] does, with an empty vector. *)
Definition no_embedding : pystr -> outcome (list pyfloat) :=
  fun _ => Returned [].

Definition no_matches
  : list pyfloat -> nat -> option pyval -> outcome (list vmatch) :=
  fun _ _ _ => Returned [].

(** A clock that stands still at [now]; the digest of the text [a]; an
    embedding service and an index that accept everything; a URL parser
    that finds one host; the [str] of the list [['x']]. *)
Definition clock_at (now : Z) : nat -> Z := fun _ => now.

Definition md5_of_a : pystr -> pystr :=
  fun _ => lit "0cc175b9c0f1b6a831c399e269772661".

Definition embed_all : list pystr -> outcome (list (list pyfloat)) :=
  fun texts => Returned (map (fun _ => []) texts).

Definition upsert_ok : list vector -> outcome unit := fun _ => Returned tt.

Definition netloc_example : pyval -> outcome pystr :=
  fun _ => Returned (lit "example.com").

Definition repr_x : pyval -> pystr := fun _ => lit "['x']".

(** An object of a bulk upload with a text, a [null] id and nested
    metadata. *)
Definition sample_object : pyval :=
  PyDict [(lit "text", PyStr (lit " a "));
          (lit "id", PyNone);
          (lit "metadata",
           PyDict [(lit "lang", PyNone);
                   (lit "tags", PyList [PyStr (lit "x")])])].

(** [{"key": "value"}] as JSON text. *)
Definition json_object1 (key value : pystr) : pystr :=
  lit "{" ++ dq ++ key ++ dq ++ lit ": " ++ dq ++ value ++ dq ++ lit "}".

End Ref.

(** ** Sample inputs *)

(** A two-line upload: an object, then a line that is not JSON. *)
Definition upload_with_bad_line : list N :=
  Ref.json_object1 (lit "text") (lit "a") ++ nl ++ lit "oops".

(** One sentence of four code points, each of two bytes (U+00E9). *)
Definition accented_sentence : pystr := repeat 233%N 4.

(** A short paragraph followed by one of twenty bytes. *)
Definition short_then_long : pystr :=
  lit "a" ++ nl ++ nl ++ repeat 98%N 20.

(** Two paragraphs of five bytes. *)
Definition two_paragraphs : pystr := lit "aaaaa" ++ nl ++ nl ++ lit "bbbbb".

(* ===================================================================== *)
(** * Vocabulary of the statements *)
(* ===================================================================== *)

Module Spec.

(** ** Streaming *)

(** The consecutive slices of a text, as one would cut them by hand: the
    first [n] code points, then the slices of what is left. *)
Fixpoint slices_fuel (fuel n : nat) (s : pystr) : list pystr :=
  match fuel with
  | O => []
  | S fuel' =>
      match s with
      | [] => []
      | _ :: _ => firstn n s :: slices_fuel fuel' n (skipn n s)
      end
  end.

Definition consecutive_slices (n : nat) (s : pystr) : list pystr :=
  slices_fuel (List.length s) n s.

(** Number of frames for a text of [len] code points. *)
Definition frame_count (len n : nat) : nat := (len + n - 1) / n.

(** ** Texts *)

Definition is_ascii (s : pystr) : Prop := Forall (fun c => (c < 128)%N) s.

Definition no_whitespace (s : pystr) : Prop :=
  Forall (fun c => isspace c = false) s.

Definition all_whitespace (s : pystr) : Prop :=
  Forall (fun c => isspace c = true) s.

(** The text can be encoded, in at most [size] bytes. *)
Definition fits (size : Z) (s : pystr) : Prop :=
  exists k, utf8_len s = Some k /\ (Z.of_nat k <= size)%Z.

Definition par_sep : pystr := nl ++ nl.

(** What the loop makes of the buffer when a paragraph fits. *)
Definition extend (current paragraph : pystr) : pystr :=
  if nonempty current then current ++ par_sep ++ paragraph else paragraph.

(** ** Metadata *)

Definition keys (d : dict) : list pystr := map fst d.

(** Every value is a [str], an [int], a [float] or a [bool]; in
    particular none is [None]. *)
Definition valid_metadata (d : dict) : Prop :=
  Forall (fun kv => is_basic (snd kv) = true) d.

Section Clean.

(** [str(v)] for a list or a dict. *)
Variable repr_container : pyval -> pystr.

(** What the loop that makes metadata valid does to one entry. *)
Definition clean_entry (kv : pystr * pyval) : dict :=
  match snd kv with
  | PyNone => []
  | v => if is_basic v then [kv] else [(fst kv, PyStr (py_str repr_container v))]
  end.

Definition clean (d : dict) : dict := flat_map clean_entry d.

End Clean.

(** Every vector handed to the index so far carries valid metadata. *)
Definition log_ok (w : world) : Prop :=
  Forall (fun v => valid_metadata (vec_metadata v)) (stored w).

(** The metadata collected so far is valid. *)
Definition batch_ok (b : batch) : Prop :=
  Forall valid_metadata (batch_metadatas b).

(** ** Lines of a bulk upload *)

(** A line the parser skips. *)
Definition blank (line : pystr) : bool := negb (nonempty (strip line)).

Section Lines.

Variable json_loads : pystr -> outcome pyval.

(** A line the parser passes: blank, or decoded. *)
Definition passes (line : pystr) : Prop :=
  blank line = true \/ exists v, json_loads (strip line) = Returned v.

(** The objects of the lines that are not blank. *)
Definition decoded (lines : list pystr) : list pyval :=
  flat_map (fun line =>
              if blank line then []
              else match json_loads (strip line) with
                   | Returned v => [v]
                   | Raised _ => []
                   end) lines.

End Lines.

End Spec.

Import Spec.

(* ===================================================================== *)
(** * Vocabulary of the further properties *)
(* ===================================================================== *)

Module Notions.

(** ** The store *)

(** The batches the store cuts a list of vectors into. *)
Definition batches_of {A} (V : list A) (starts : list nat) : list (list A) :=
  map (fun i => slice V i (i + 100)) starts.

(** ** Bulk statistics *)

(** The three lists of a batch have one length. *)
Definition aligned (b : batch) : Prop :=
  List.length (batch_texts b) = List.length (batch_ids b)
  /\ List.length (batch_metadatas b) = List.length (batch_ids b).

(** ** Identifiers *)

(** A text of decimal digits. *)
Definition digits (s : pystr) : Prop :=
  Forall (fun c => JsonRef.is_digit c = true) s.

(** ** Metadata *)

(** The fields [create_metadata] writes itself. *)
Definition base_fields : list pystr :=
  [lit "source_type"; lit "filename"; lit "chunk_index"; lit "created_at";
   lit "id"; lit "url"; lit "title"; lit "section"].

(** What the pipeline stores for a value of the nested metadata. *)
Definition stored_value (repr_container : pyval -> pystr) (v : pyval)
  : pyval :=
  if is_basic v then v else PyStr (py_str repr_container v).

(** ** Replacing in a text *)

(** No code point of [a] occurs in [b]. *)
Definition disjoint (a b : pystr) : Prop :=
  forall c, In c a -> ~ In c b.

(** ** Uploads *)

(** What is left to read of a file. *)
Definition remaining (f : upload_file) : list N :=
  skipn (position f) (file_bytes f).

(** The status codes with which the upload endpoint answers a failure. *)
Definition upload_failure (e : exn) : Prop :=
  exists detail,
    e = HTTPException 400 detail \/ e = HTTPException 415 detail
    \/ e = HTTPException 500 detail.

(** An exception that is not FastAPI's [HTTPException]. *)
Definition not_http {A} (o : outcome A) : Prop :=
  forall status_code detail, o <> Raised (HTTPException status_code detail).

(** ** Replies of the model *)

(** A text without a backtick. *)
Definition no_backtick (s : pystr) : Prop := Forall (fun c => c <> 96%N) s.

(** A language tag of a fence: ASCII letters only. *)
Definition letters (s : pystr) : Prop :=
  Forall (fun c => is_ascii_letter c = true) s.

(** The text does not begin with an ASCII letter. *)
Definition no_letter_first (s : pystr) : Prop :=
  match s with
  | [] => True
  | c :: _ => is_ascii_letter c = false
  end.

(** [body] inside a markdown fence with a language tag. *)
Definition fenced (lang body : pystr) : pystr := bt3 ++ lang ++ body ++ bt3.

(** The text the model functions put in place of an answer when the call
    to the model raises. *)
Definition model_error (e : exn) : pystr :=
  lit "Error while generating response: " ++ exn_str e.

(** ** Where the metadata comes from *)

(** The metadata is the one the pipeline builds for some chunk of one of
    the objects. *)
Definition chunk_metadata_of (repr_container : pyval -> pystr)
  (urlparse_netloc : pyval -> outcome pystr) (filename : pystr)
  (json_objects : list pyval) (metadata : dict) : Prop :=
  exists json_obj chunk_index chunk_text total created_at,
    In (PyDict json_obj) json_objects
    /\ metadata
       = chunk_metadata repr_container urlparse_netloc json_obj filename
           chunk_index chunk_text total created_at.

Section OriginTerms.

Variable repr_container : pyval -> pystr.
Variable urlparse_netloc : pyval -> outcome pystr.
Variable filename : pystr.
Variable json_objects : list pyval.

(** The batch collected so far: its lists have one length and its
    metadata come from the objects. *)
Definition batch_from (b : batch) : Prop :=
  aligned b
  /\ Forall (chunk_metadata_of repr_container urlparse_netloc filename
               json_objects)
       (batch_metadatas b).

(** Every vector handed to the index was in the log [old] before, or its
    metadata come from the objects. *)
Definition log_from (old : list vector) (w : world) : Prop :=
  Forall (fun v =>
            In v old
            \/ chunk_metadata_of repr_container urlparse_netloc filename
                 json_objects (vec_metadata v))
         (stored w).

End OriginTerms.

End Notions.

Import Notions.

(* ===================================================================== *)
(** * Strings and numerals: first checks *)
(* ===================================================================== *)

Lemma str_eqb_eq a b : str_eqb a b = true <-> a = b.
Proof.
  unfold str_eqb. destruct (list_eq_dec N.eq_dec a b); split; congruence.
Qed.

Lemma str_eqb_refl a : str_eqb a a = true.
Proof. now apply str_eqb_eq. Qed.
Example split_paragraphs :
  split (lit "a" ++ nl ++ nl ++ nl ++ lit "b") (nl ++ nl)
  = [lit "a"; nl ++ lit "b"].
Proof. reflexivity. Qed.

Example range0_120 : range0 120 50 = [0; 50; 100].
Proof. reflexivity. Qed.

Example dec_503 : dec 503 = lit "503".
Proof. reflexivity. Qed.

Example set_keeps_position :
  set [(lit "a", PyInt 1); (lit "b", PyNone)] (lit "a") (PyInt 2)
  = [(lit "a", PyInt 2); (lit "b", PyNone)].
Proof. reflexivity. Qed.

Example dec_int_time : dec_int 1700000001 = lit "1700000001".
Proof. reflexivity. Qed.

Example ref_loads_object :
  Ref.json_loads (Ref.json_object1 (lit "query") (lit "Ad Booking"))
  = Returned (PyDict [(lit "query", PyStr (lit "Ad Booking"))]).
Proof. reflexivity. Qed.

Example ref_lower : Ref.lower (lit "Ad Booking") = lit "ad booking".
Proof. reflexivity. Qed.

(* ===================================================================== *)
(** * Properties of the streaming functions *)
(* ===================================================================== *)

Module StreamingFacts.

Lemma frame_count_bounds len n :
  0 < n ->
  len <= frame_count len n * n /\ frame_count len n * n < len + n.
Proof.
  intros Hn. unfold frame_count.
  pose proof (Nat.div_mod_eq (len + n - 1) n) as E.
  pose proof (Nat.mod_upper_bound (len + n - 1) n ltac:(lia)) as U.
  rewrite (Nat.mul_comm _ n). lia.
Qed.

Lemma frame_count_nil n : 0 < n -> frame_count 0 n = 0.
Proof.
  intros Hn. unfold frame_count. apply Nat.div_small. lia.
Qed.

Lemma frame_count_step len n :
  0 < n -> 0 < len -> frame_count len n = S (frame_count (len - n) n).
Proof.
  intros Hn Hl.
  pose proof (frame_count_bounds len Hn) as [A B].
  pose proof (frame_count_bounds (len - n) Hn) as [C D].
  set (q1 := frame_count len n) in *.
  set (q2 := frame_count (len - n) n) in *.
  destruct (le_lt_dec n len) as [Hle|Hlt].
  - assert (L : q2 * n < q1 * n) by lia.
    assert (R : q1 * n < (q2 + 2) * n) by lia.
    apply Nat.mul_lt_mono_pos_r in L, R; lia.
  - assert (Z2 : q2 * n < 1 * n) by lia.
    assert (R : q1 * n < 2 * n) by lia.
    apply Nat.mul_lt_mono_pos_r in Z2, R; try lia.
    destruct q1; [simpl in A; lia | lia].
Qed.

Lemma slices_fuel_indexed n : 0 < n ->
  forall fuel s, List.length s <= fuel ->
    slices_fuel fuel n s
    = map (fun k => firstn n (skipn (k * n) s))
          (seq 0 (frame_count (List.length s) n)).
Proof.
  intros Hn. induction fuel as [|fuel IH]; intros s Hs.
  - destruct s; [|simpl in Hs; lia].
    simpl. now rewrite frame_count_nil.
  - destruct s as [|c s].
    + simpl. now rewrite frame_count_nil.
    + cbn [slices_fuel].
      rewrite (@frame_count_step (List.length (c :: s)) n Hn) by (simpl; lia).
      rewrite <- cons_seq, map_cons. f_equal.
      rewrite <- seq_shift, map_map.
      rewrite IH by (rewrite length_skipn; cbn [List.length] in *; lia).
      rewrite length_skipn. apply map_ext. intros k.
      now rewrite skipn_skipn, Nat.add_comm.
Qed.

Lemma ws_chunks_map (f : nat -> pystr) (g : nat -> bool) l :
  ws_chunks (map (fun i => WsStream (f i) (g i)) l) = map f l.
Proof.
  induction l as [|a l IH]; simpl; [reflexivity|]. now rewrite <- IH.
Qed.

Lemma stream_text_response_chunks text n :
  ws_chunks (stream_text_response text n)
  = map (fun k => firstn n (skipn (k * n) text))
        (seq 0 (frame_count (List.length text) n)).
Proof.
  unfold stream_text_response, range0.
  rewrite ws_chunks_map with
    (f := fun i => slice text i (i + n))
    (g := fun i => List.length text <=? i + n).
  rewrite map_map. apply map_ext. intros k. unfold slice.
  now replace (k * n + n - k * n) with n by lia.
Qed.

Lemma stream_text_response_length text n :
  List.length (stream_text_response text n) = frame_count (List.length text) n.
Proof.
  unfold stream_text_response, range0. now rewrite !length_map, length_seq.
Qed.

Lemma stream_text_response_nth text n k :
  k < frame_count (List.length text) n ->
  nth_error (stream_text_response text n) k
  = Some (WsStream (slice text (k * n) (k * n + n))
                   (List.length text <=? k * n + n)).
Proof.
  intros Hk. unfold stream_text_response, range0.
  rewrite map_map.
  rewrite nth_error_map, nth_error_seq.
  apply Nat.ltb_lt in Hk. unfold frame_count in Hk. now rewrite Hk.
Qed.

Lemma firstn_plus {A} (a b : nat) (s : list A) :
  firstn (a + b) s = firstn a s ++ firstn b (skipn a s).
Proof.
  revert s. induction a as [|a IH]; intros s; [reflexivity|].
  destruct s as [|x s]; simpl.
  - now rewrite firstn_nil.
  - now rewrite IH.
Qed.

(** Joining the slices gives the text back. *)
Lemma concat_indexed_slices n (s : pystr) m :
  List.concat (map (fun k => firstn n (skipn (k * n) s)) (seq 0 m))
  = firstn (m * n) s.
Proof.
  induction m as [|m IH].
  - reflexivity.
  - rewrite seq_S, map_app, concat_app, IH. simpl.
    rewrite app_nil_r.
    replace (n + m * n) with (m * n + n) by lia.
    now rewrite firstn_plus.
Qed.

Lemma concat_stream_chunks text n :
  0 < n -> List.concat (ws_chunks (stream_text_response text n)) = text.
Proof.
  intros Hn. rewrite stream_text_response_chunks, concat_indexed_slices.
  apply firstn_all2. now apply frame_count_bounds.
Qed.

Lemma ws_chunks_app a b : ws_chunks (a ++ b) = ws_chunks a ++ ws_chunks b.
Proof. unfold ws_chunks. now rewrite flat_map_app. Qed.

Lemma ws_completes_app a b :
  ws_completes (a ++ b) = ws_completes a ++ ws_completes b.
Proof. unfold ws_completes. now rewrite flat_map_app. Qed.

Lemma ws_completes_stream text n :
  ws_completes (stream_text_response text n) = [].
Proof.
  unfold stream_text_response.
  induction (range0 (List.length text) n); simpl; auto.
Qed.

End StreamingFacts.

Import StreamingFacts.

(** C10.  The frames [stream_text_response] sends for a text, fifty code
    points at a time: their chunks are exactly the consecutive slices of
    the text, in order; every frame is a stream frame whose [is_final] is
    set exactly on the last one sent, and that frame ends with the last
    code point of the text; for the empty text nothing is sent. *)
Theorem stream_text_response_spec (text : pystr) :
  ws_chunks (stream_text_response text 50) = consecutive_slices 50 text
  /\ (forall k frame,
        nth_error (stream_text_response text 50) k = Some frame ->
        exists chunk is_final,
          frame = WsStream chunk is_final
          /\ chunk = slice text (k * 50) (k * 50 + 50)
          /\ (is_final = true
              <-> S k = List.length (stream_text_response text 50))
          /\ (is_final = true -> skipn (k * 50) text = chunk /\ chunk <> []))
  /\ stream_text_response [] 50 = [].
Proof.
  split; [|split].
  - rewrite stream_text_response_chunks. unfold consecutive_slices.
    now rewrite slices_fuel_indexed by lia.
  - intros k frame Hk.
    assert (Hlt : k < frame_count (List.length text) 50).
    { rewrite <- stream_text_response_length. apply nth_error_Some. congruence. }
    rewrite stream_text_response_nth in Hk by assumption.
    injection Hk as <-.
    pose proof (@frame_count_bounds (List.length text) 50 ltac:(lia)) as [A B].
    eexists _, _. split; [reflexivity|]. split; [reflexivity|].
    rewrite stream_text_response_length, Nat.leb_le.
    split; [lia|]. intros Hfin. unfold slice.
    replace (k * 50 + 50 - k * 50) with 50 by lia.
    split.
    + symmetry. apply firstn_all2. rewrite length_skipn. lia.
    + intros E. apply (f_equal (@List.length _)) in E.
      rewrite length_firstn, length_skipn in E. cbn [List.length] in E. lia.
  - reflexivity.
Qed.

(* ===================================================================== *)
(** * Streaming: chunks against the final message *)
(* ===================================================================== *)

Module TurnFacts.

Lemma stream_loop_spec chunks :
  forall full_response,
    sse_chunks (fst (stream_loop chunks full_response))
    = filter nonempty chunks
    /\ sse_finals (fst (stream_loop chunks full_response)) = []
    /\ snd (stream_loop chunks full_response)
       = full_response
         ++ List.concat (sse_chunks (fst (stream_loop chunks full_response))).
Proof.
  induction chunks as [|chunk rest IH]; intros full; simpl.
  - now rewrite app_nil_r.
  - destruct (nonempty chunk) eqn:E.
    + specialize (IH (full ++ chunk)).
      destruct (stream_loop rest (full ++ chunk)) as [events full'].
      simpl in *. destruct IH as (A & B & C).
      rewrite A, B, C, A. now rewrite <- app_assoc.
    + apply IH.
Qed.

Lemma sse_chunks_app a b : sse_chunks (a ++ b) = sse_chunks a ++ sse_chunks b.
Proof. unfold sse_chunks. now rewrite flat_map_app. Qed.

Lemma sse_finals_app a b : sse_finals (a ++ b) = sse_finals a ++ sse_finals b.
Proof. unfold sse_finals. now rewrite flat_map_app. Qed.

(** The events of a streamed generator: the non-empty chunks, then one
    final payload that is their concatenation. *)
Lemma stream_generator_spec chunks menu :
  sse_chunks (stream_generator chunks menu) = filter nonempty chunks
  /\ sse_finals (stream_generator chunks menu)
     = [List.concat (filter nonempty chunks)].
Proof.
  unfold stream_generator.
  pose proof (stream_loop_spec chunks []) as (A & B & C).
  destruct (stream_loop chunks []) as [events full]. simpl in *.
  rewrite sse_chunks_app, sse_finals_app, A, B. simpl.
  rewrite app_nil_r. split; [reflexivity|]. now rewrite C, A.
Qed.

Lemma stream_generator_joined chunks menu message :
  In message (sse_finals (stream_generator chunks menu)) ->
  List.concat (sse_chunks (stream_generator chunks menu)) = message.
Proof.
  destruct (stream_generator_spec chunks menu) as [A B].
  rewrite A, B. simpl. intuition.
Qed.

Section Socket.

Variable generate : pystr -> pyfloat -> outcome (option pystr).
Variables customer_context agency_context : pystr.
Variable get_vector_store : outcome unit.
Variable embed_text : pystr -> outcome (list pyfloat).
Variable index_query :
  list pyfloat -> nat -> option pyval -> outcome (list vmatch).

(** An answer that is returned was not preceded by any frame. *)
Lemma stream_ai_response_returned query intent sent r :
  stream_ai_response generate customer_context agency_context
    get_vector_store embed_text index_query query intent
  = (sent, Returned r) ->
  sent = [].
Proof.
  unfold stream_ai_response, stream_rag_response.
  repeat match goal with
         | |- context [if ?c then _ else _] => destruct c
         end; try congruence.
  match goal with
  | |- context [match ?b with Returned _ => _ | Raised _ => _ end] =>
      destruct b
  end; simpl; congruence.
Qed.

Lemma ws_answer_joined query intent message :
  In message
     (ws_completes
        (fst (ws_answer generate customer_context agency_context
                get_vector_store embed_text index_query query intent))) ->
  List.concat
    (ws_chunks
       (fst (ws_answer generate customer_context agency_context
               get_vector_store embed_text index_query query intent)))
  = message.
Proof.
  unfold ws_answer.
  destruct (stream_ai_response _ _ _ _ _ _ _ _) as [sent [[response menu]|e]]
    eqn:E.
  - apply stream_ai_response_returned in E. subst sent. simpl.
    rewrite ws_chunks_app, ws_completes_app, ws_completes_stream. simpl.
    rewrite app_nil_r. intros [<-|[]].
    apply concat_stream_chunks. lia.
  - simpl. rewrite ws_completes_app. simpl. rewrite app_nil_r.
    unfold stream_ai_response, stream_rag_response in E.
    repeat match type of E with
           | context [if ?c then _ else _] => destruct c
           end; try congruence.
    match type of E with
    | context [match ?b with Returned _ => _ | Raised _ => _ end] =>
        destruct b
    end; simpl in E; injection E as <- _; simpl; intuition.
Qed.

End Socket.

End TurnFacts.

Import TurnFacts.

Section CompletedTurn.

Variable json_loads : pystr -> outcome pyval.
Variable lower : pystr -> pystr.
Variable generate : pystr -> pyfloat -> outcome (option pystr).
Variable generate_stream : pystr -> pyfloat -> list pystr * option exn.
Variables customer_context agency_context : pystr.
Variable get_vector_store : outcome unit.
Variable embed_text : pystr -> outcome (list pyfloat).
Variable index_query :
  list pyfloat -> nat -> option pyval -> outcome (list vmatch).
Variable predict : pystr -> outcome Z.

Local Abbreviation socket_turn :=
  (ws_turn lower generate customer_context agency_context get_vector_store
     embed_text index_query predict).
Local Abbreviation socket_turn2 :=
  (ws_turn2 generate customer_context agency_context get_vector_store
     embed_text index_query).
Local Abbreviation events :=
  (event_stream json_loads lower generate generate_stream customer_context
     agency_context get_vector_store embed_text index_query).
Local Abbreviation events2 :=
  (event_stream2 generate_stream get_vector_store embed_text index_query).

Lemma not_predefined query :
  predefined lower query = false ->
  str_eqb (lower query) (lit "rajasthan patrika") = false
  /\ str_eqb (lower query) (lit "refund policies") = false
  /\ str_eqb (lower query) (lit "ad booking") = false.
Proof.
  unfold predefined. intros H.
  apply orb_false_iff in H as [H C]. apply orb_false_iff in H as [A B].
  auto.
Qed.

Lemma event_stream_joined query message :
  predefined lower query = false ->
  In message (sse_finals (events query)) ->
  List.concat (sse_chunks (events query)) = message.
Proof.
  intros H. apply not_predefined in H as (A & B & C).
  unfold event_stream. rewrite A, B, C.
  destruct (get_intent json_loads generate query) as [intent|e];
    [|simpl; tauto].
  repeat match goal with
         | |- context [if ?c then _ else _] => destruct c
         end;
    try apply stream_generator_joined;
    simpl; rewrite ?app_nil_r; intuition.
Qed.

(** C4 (as amended).  On the socket and on the server-sent stream, when
    a turn is answered with a complete payload and the query is not one
    of the three predefined ones, the chunks sent before it, joined in
    the order of emission, are exactly its message; on the endpoints
    with a fixed intent this holds for every query.  A predefined query
    is answered with the complete payload alone, without any chunk. *)
Theorem completed_turn_chunks_join :
  (forall query message,
      predefined lower query = false ->
      In message (ws_completes (fst (socket_turn query))) ->
      List.concat (ws_chunks (fst (socket_turn query))) = message)
  /\ (forall query message,
        In message (ws_completes (fst (socket_turn2 query))) ->
        List.concat (ws_chunks (fst (socket_turn2 query))) = message)
  /\ (forall query message,
        predefined lower query = false ->
        In message (sse_finals (events query)) ->
        List.concat (sse_chunks (events query)) = message)
  /\ (forall query message,
        In message (sse_finals (events2 query)) ->
        List.concat (sse_chunks (events2 query)) = message)
  /\ (forall query,
        predefined lower query = true ->
        exists message menu,
          fst (socket_turn query) = [WsComplete message menu]
          /\ events query = [SseFinal message menu; SseDone])
  /\ (forall data k,
        (exists query, ws_receive json_loads data k = k query)
        \/ (ws_chunks (fst (ws_receive json_loads data k)) = []
            /\ ws_completes (fst (ws_receive json_loads data k)) = [])).
Proof.
  split; [|split; [|split; [|split; [|split]]]].
  - intros query message H. apply not_predefined in H as (A & B & C).
    unfold ws_turn. rewrite A, B, C.
    destruct (intent_classification predict query) as [intent|e].
    + apply ws_answer_joined.
    + simpl. tauto.
  - intros query message. unfold ws_turn2. apply ws_answer_joined.
  - apply event_stream_joined.
  - intros query message. unfold event_stream2.
    apply stream_generator_joined.
  - intros query H. unfold predefined in H. unfold ws_turn, event_stream.
    destruct (str_eqb (lower query) (lit "rajasthan patrika"));
      [eexists _, _; split; reflexivity|].
    destruct (str_eqb (lower query) (lit "refund policies"));
      [eexists _, _; split; reflexivity|].
    destruct (str_eqb (lower query) (lit "ad booking"));
      [eexists _, _; split; reflexivity|discriminate].
  - intros data k. unfold ws_receive.
    destruct (json_loads data) as [[| | | | |l|d]|e];
      try (right; split; reflexivity).
    destruct (negb (truthy (get_default d (lit "query") (PyStr []))));
      [right; split; reflexivity|].
    destruct (get_default d (lit "query") (PyStr []));
      try (right; split; reflexivity).
    left. eexists. reflexivity.
Qed.

End CompletedTurn.

(** C4, the claim as stated fails: the query [Ad Booking] on the socket
    and on the server-sent stream is answered with a complete payload
    that carries the fixed message, and no chunk was sent before it. *)
Lemma predefined_turn_has_no_chunks :
  fst (websocket_chat Ref.json_loads Ref.lower (Ref.answer (lit "x")) [] []
         (Returned tt) Ref.no_embedding Ref.no_matches
         (fun _ => Returned 3%Z)
         (Ref.json_object1 (lit "query") (lit "Ad Booking")))
  = [WsComplete ad_booking_message ad_booking_menu]
  /\ List.concat (ws_chunks [WsComplete ad_booking_message ad_booking_menu])
     <> ad_booking_message
  /\ event_stream Ref.json_loads Ref.lower (Ref.answer (lit "x"))
       (Ref.answer_stream [lit "x"]) [] [] (Returned tt) Ref.no_embedding
       Ref.no_matches (lit "Ad Booking")
     = [SseFinal ad_booking_message ad_booking_menu; SseDone]
  /\ List.concat
       (sse_chunks [SseFinal ad_booking_message ad_booking_menu; SseDone])
     <> ad_booking_message.
Proof.
  repeat split; try reflexivity; vm_compute; discriminate.
Qed.

(** An instance: a generated answer of 120 code points goes out in three
    frames that join to the message. *)
Lemma completed_turn_chunks_join_witness :
  predefined Ref.lower (lit "hello") = false
  /\ List.concat
       (ws_chunks
          (fst (ws_turn Ref.lower (Ref.answer (repeat 97%N 120)) [] []
                  (Returned tt) Ref.no_embedding Ref.no_matches
                  (fun _ => Returned 3%Z) (lit "hello"))))
     = repeat 97%N 120.
Proof.
  split; [reflexivity|].
  apply (completed_turn_chunks_join Ref.json_loads Ref.lower
           (Ref.answer (repeat 97%N 120)) (Ref.answer_stream []) [] []
           (Returned tt) Ref.no_embedding Ref.no_matches
           (fun _ => Returned 3%Z)).
  - reflexivity.
  - vm_compute. left. reflexivity.
Defined.

(* ===================================================================== *)
(** * Retrieval without context *)
(* ===================================================================== *)

Section NoContext.

Variable generate : pystr -> pyfloat -> outcome (option pystr).
Variables customer_context agency_context : pystr.
Variable embed_text : pystr -> outcome (list pyfloat).
Variable index_query :
  list pyfloat -> nat -> option pyval -> outcome (list vmatch).

Lemma collect_nothing results :
  context_of results = [] ->
  forall acc, foldM Chatbot.collect_step acc results = Returned acc.
Proof.
  induction results as [|m rest IH]; intros H acc; [reflexivity|].
  simpl in H. apply app_eq_nil in H as [Hm Hrest].
  simpl. unfold Chatbot.collect_step at 1.
  destruct (lookup (match_metadata m) (lit "text")); [discriminate|].
  simpl. now apply IH.
Qed.

(** C2.  What the code does when the index has nothing to offer (no
    match, or none with a [text]): the request/response path hands back
    [None] where the answer text should be, while the socket path hands
    back the fixed sentence that nothing relevant was found. *)
Theorem rag_response_without_context query results :
  query_by_text embed_text index_query query 5 None = Returned results ->
  context_of results = [] ->
  Chatbot.rag_response generate (Returned tt) embed_text index_query query
  = Returned PyNone
  /\ Chatbot.ai_response generate customer_context agency_context
       (Returned tt) embed_text index_query query (PyStr (lit "rp"))
     = Returned (PyNone, more_menu)
  /\ stream_rag_response generate (Returned tt) embed_text index_query query
     = ([], Returned not_found_message).
Proof.
  intros Hq Hc.
  assert (R : Chatbot.rag_response generate (Returned tt) embed_text
                index_query query = Returned PyNone).
  { unfold Chatbot.rag_response. simpl. rewrite Hq. simpl.
    now rewrite collect_nothing. }
  split; [exact R|]. split.
  - unfold Chatbot.ai_response.
    replace (eq_str (PyStr (lit "rp")) (lit "refund")) with false
      by reflexivity.
    replace (eq_str (PyStr (lit "rp")) (lit "rp")) with true by reflexivity.
    now rewrite R.
  - unfold stream_rag_response. simpl. rewrite Hq. simpl. now rewrite Hc.
Qed.

End NoContext.

(** The query [hello] against an index without matches. *)
Lemma rag_response_without_context_witness :
  Chatbot.rag_response (Ref.answer (lit "x")) (Returned tt) Ref.no_embedding
    Ref.no_matches (lit "hello")
  = Returned PyNone.
Proof.
  apply (@rag_response_without_context (Ref.answer (lit "x")) [] []
           Ref.no_embedding Ref.no_matches (lit "hello") []);
    reflexivity.
Defined.

(** The same turn seen from the client of [POST /chat/]: the classifier
    says [rp], the index has no match, and the message of the answer is
    [None]. *)
Example chat_answers_null :
  Chatbot.chat (Ref.answer (Ref.json_object1 (lit "intent") (lit "rp"))) [] []
    (Returned tt) Ref.no_embedding Ref.no_matches Ref.json_loads Ref.lower
    (lit "hello")
  = Returned (Chatbot.ok_response PyNone more_menu).
Proof. vm_compute. reflexivity. Qed.

(* ===================================================================== *)
(** * Replies inside a markdown fence *)
(* ===================================================================== *)

Module FenceFacts.

Lemma re_sub_fence_open rest b :
  re_sub_fence (bt3 ++ rest) 0 b = re_sub_fence rest 0 true.
Proof. destruct b, rest; reflexivity. Qed.

Lemma re_sub_fence_letters lang rest :
  letters lang ->
  re_sub_fence (lang ++ rest) 0 true = re_sub_fence rest 0 true.
Proof.
  induction 1 as [|c lang Hc _ IH]; [reflexivity|].
  cbn [app re_sub_fence]. now rewrite Hc.
Qed.

Lemma startswith_bt3_false c s : c <> 96%N -> startswith (c :: s) bt3 = false.
Proof.
  intros H. cbn [startswith bt3].
  replace (96 =? c)%N with false; [reflexivity|].
  symmetry. apply N.eqb_neq. congruence.
Qed.

(** Past the opening fence the text is copied up to the closing one. *)
Lemma re_sub_fence_body body :
  no_backtick body ->
  forall b,
    (b = true -> no_letter_first body) ->
    re_sub_fence (body ++ bt3) 0 b = body.
Proof.
  induction 1 as [|c body Hc _ IH]; intros b Hb.
  - destruct b; reflexivity.
  - cbn [app re_sub_fence].
    replace (b && is_ascii_letter c) with false.
    + rewrite startswith_bt3_false by assumption.
      f_equal. apply IH. discriminate.
    + destruct b; [|reflexivity]. cbn [andb]. symmetry. now apply Hb.
Qed.

Lemma re_sub_fence_plain s :
  no_backtick s -> re_sub_fence s 0 false = s.
Proof.
  induction 1 as [|c s Hc _ IH]; [reflexivity|].
  cbn [re_sub_fence andb]. rewrite startswith_bt3_false by assumption.
  now rewrite IH.
Qed.

Lemma remove_plain s : no_backtick s -> remove s bt3 = s.
Proof.
  unfold remove. induction 1 as [|c s Hc _ IH]; [reflexivity|].
  cbn [remove_go]. rewrite startswith_bt3_false by assumption.
  now rewrite IH.
Qed.

Lemma lstrip_keeps c s :
  isspace c = false -> In c s -> lstrip s <> [].
Proof.
  intros Hc. induction s as [|x s IH]; [contradiction|].
  intros [->|H]; cbn [lstrip].
  - now rewrite Hc.
  - destruct (isspace x); [auto|discriminate].
Qed.

Lemma lstrip_incl s c : In c (lstrip s) -> In c s.
Proof.
  induction s as [|x s IH]; [auto|]. cbn [lstrip].
  destruct (isspace x); [right; auto|auto].
Qed.

Lemma lstrip_in c s : isspace c = false -> In c s -> In c (lstrip s).
Proof.
  intros Hc. induction s as [|x s IH]; [auto|].
  intros [->|H]; cbn [lstrip].
  - rewrite Hc. now left.
  - destruct (isspace x); [auto|now right].
Qed.

(** A text with a code point that is not whitespace is not blank. *)
Lemma strip_keeps c s : isspace c = false -> In c s -> strip s <> [].
Proof.
  intros Hc Hin. unfold strip, rstrip. intros E.
  apply (f_equal (@rev _)) in E. rewrite rev_involutive in E. cbn in E.
  revert E. apply lstrip_keeps with c; [exact Hc|].
  apply in_rev. rewrite rev_involutive. now apply lstrip_in.
Qed.

Lemma strip_incl s c : In c (strip s) -> In c s.
Proof.
  unfold strip, rstrip. intros H. apply in_rev in H.
  apply lstrip_incl in H. apply in_rev in H. now apply lstrip_incl in H.
Qed.

Section Decoder.

Variable json_loads : pystr -> outcome pyval.

(** A reply whose fences are gone and that decodes. *)
Lemma extract_cleaned response v :
  strip response <> [] ->
  strip (remove (re_sub_fence response 0 false) bt3) <> [] ->
  json_loads (strip (remove (re_sub_fence response 0 false) bt3))
  = Returned v ->
  extract_json_from_string json_loads response = v.
Proof.
  intros Hr Hc Hv. unfold extract_json_from_string. cbv zeta.
  assert (R : negb (nonempty response) || str_eqb (strip response) []
              = false).
  { apply orb_false_iff. split.
    - destruct response; [now contradiction Hr|reflexivity].
    - destruct (str_eqb (strip response) []) eqn:B; [|reflexivity].
      apply str_eqb_eq in B. contradiction. }
  rewrite R.
  destruct (strip (remove (re_sub_fence response 0 false) bt3)) eqn:E;
    [contradiction|].
  cbn [nonempty negb]. now rewrite Hv.
Qed.

Lemma cleaned_fenced lang body :
  letters lang -> no_backtick body -> no_letter_first body ->
  remove (re_sub_fence (fenced lang body) 0 false) bt3 = body.
Proof.
  intros Hl Hb Hf. unfold fenced.
  rewrite re_sub_fence_open, re_sub_fence_letters by assumption.
  rewrite re_sub_fence_body by auto. now apply remove_plain.
Qed.

Lemma cleaned_plain body :
  no_backtick body -> remove (re_sub_fence body 0 false) bt3 = body.
Proof.
  intros Hb. rewrite re_sub_fence_plain by assumption.
  now apply remove_plain.
Qed.

Lemma fenced_not_blank lang body : strip (fenced lang body) <> [].
Proof.
  apply strip_keeps with 96%N; [reflexivity|]. unfold fenced. now left.
Qed.

End Decoder.

End FenceFacts.

Import FenceFacts.

(* ===================================================================== *)
(** * Replies that carry an object in other text *)
(* ===================================================================== *)

Module FragmentFacts.

Lemma startswith_nothing s : startswith s [] = true.
Proof. now destruct s. Qed.

Lemma startswith_tail c s k :
  startswith (c :: s) (repeat 96%N (S k)) = true ->
  c = 96%N /\ startswith s (repeat 96%N k) = true.
Proof.
  cbn [repeat startswith]. intros H. apply andb_true_iff in H as [H1 H2].
  apply N.eqb_eq in H1. auto.
Qed.

(** Deleting the fences keeps every code point that is neither a backtick
    nor a letter. *)
Lemma re_sub_fence_keeps c :
  c <> 96%N -> is_ascii_letter c = false ->
  forall s skip b,
    startswith s (repeat 96%N skip) = true ->
    In c s -> In c (re_sub_fence s skip b).
Proof.
  intros Hc Hl. induction s as [|x s IH]; intros skip b Hs Hin;
    [contradiction|].
  destruct skip as [|k].
  - cbn [re_sub_fence].
    destruct (b && is_ascii_letter x) eqn:L.
    + apply IH; [apply startswith_nothing|].
      destruct Hin as [->|Hin]; [|exact Hin].
      apply andb_true_iff in L as [_ L]. congruence.
    + destruct (startswith (x :: s) bt3) eqn:F.
      * apply (@startswith_tail x s 2) in F as [-> F].
        apply IH; [exact F|]. destruct Hin as [E|Hin]; [congruence|exact Hin].
      * destruct Hin as [->|Hin]; [now left|right].
        apply IH; [apply startswith_nothing|exact Hin].
  - cbn [re_sub_fence]. apply startswith_tail in Hs as [-> Hs].
    apply IH; [exact Hs|]. destruct Hin as [E|Hin]; [congruence|exact Hin].
Qed.

Lemma remove_fence_keeps c :
  c <> 96%N ->
  forall s skip,
    startswith s (repeat 96%N skip) = true ->
    In c s -> In c (remove_go bt3 s skip).
Proof.
  intros Hc. induction s as [|x s IH]; intros skip Hs Hin; [contradiction|].
  destruct skip as [|k].
  - cbn [remove_go].
    destruct (startswith (x :: s) bt3) eqn:F.
    + apply (@startswith_tail x s 2) in F as [-> F].
      apply IH; [exact F|]. destruct Hin as [E|Hin]; [congruence|exact Hin].
    + destruct Hin as [->|Hin]; [now left|right].
      apply IH; [apply startswith_nothing|exact Hin].
  - cbn [remove_go]. apply startswith_tail in Hs as [-> Hs].
    apply IH; [exact Hs|]. destruct Hin as [E|Hin]; [congruence|exact Hin].
Qed.

(** A reply with an opening brace is not blank once its fences are
    gone. *)
Lemma cleaned_keeps_brace response :
  In 123%N response ->
  strip response <> []
  /\ strip (remove (re_sub_fence response 0 false) bt3) <> [].
Proof.
  intros Hin. split; apply strip_keeps with 123%N; try reflexivity;
    [exact Hin|].
  unfold remove. apply remove_fence_keeps;
    [discriminate|apply startswith_nothing|].
  apply re_sub_fence_keeps;
    [discriminate|reflexivity|apply startswith_nothing|exact Hin].
Qed.

Lemma upto_close_found inner suffix :
  ~ In 125%N inner ->
  forall acc,
    upto_close (inner ++ 125%N :: suffix) acc = Some (rev acc ++ inner).
Proof.
  induction inner as [|c inner IH]; intros Hn acc.
  - cbn [app upto_close]. rewrite N.eqb_refl. now rewrite app_nil_r.
  - cbn [app upto_close].
    assert (E : (c =? 125)%N = false)
      by (apply N.eqb_neq; intros ->; apply Hn; now left).
    rewrite E, IH by (intros H; apply Hn; now right).
    cbn [rev]. now rewrite <- app_assoc.
Qed.

(** The search finds the first object that mentions ["intent"]. *)
Lemma re_search_intent_found prefix inner suffix :
  ~ In 123%N prefix ->
  ~ In 125%N inner ->
  contains inner quoted_intent = true ->
  re_search_intent (prefix ++ 123%N :: inner ++ 125%N :: suffix)
  = Some (123%N :: inner ++ [125%N]).
Proof.
  intros Hp Hi Hc. induction prefix as [|c prefix IH].
  - cbn [app re_search_intent]. rewrite N.eqb_refl.
    rewrite upto_close_found by assumption. cbn [rev app]. now rewrite Hc.
  - cbn [app re_search_intent].
    assert (E : (c =? 123)%N = false)
      by (apply N.eqb_neq; intros ->; apply Hp; now left).
    rewrite E. apply IH. intros H. apply Hp. now right.
Qed.

Section Decoder.

Variable json_loads : pystr -> outcome pyval.

(** A reply that does not decode, with a fragment that does. *)
Lemma extract_fragment response e fragment v :
  strip response <> [] ->
  strip (remove (re_sub_fence response 0 false) bt3) <> [] ->
  json_loads (strip (remove (re_sub_fence response 0 false) bt3))
  = Raised e ->
  is_class JSONDecodeError e = true ->
  re_search_intent response = Some fragment ->
  json_loads fragment = Returned v ->
  extract_json_from_string json_loads response = v.
Proof.
  intros Hr Hc He Hj Hs Hv. unfold extract_json_from_string. cbv zeta.
  assert (R : negb (nonempty response) || str_eqb (strip response) []
              = false).
  { apply orb_false_iff. split.
    - destruct response; [now contradiction Hr|reflexivity].
    - destruct (str_eqb (strip response) []) eqn:E; [|reflexivity].
      apply str_eqb_eq in E. contradiction. }
  rewrite R.
  destruct (strip (remove (re_sub_fence response 0 false) bt3)) eqn:E;
    [contradiction|].
  cbn [nonempty negb]. now rewrite He, Hj, Hs, Hv.
Qed.

End Decoder.

End FragmentFacts.

Import FragmentFacts.

(* ===================================================================== *)
(** * The classifier always answers with an intent *)
(* ===================================================================== *)

Lemma in_valid_intents_str x :
  in_valid_intents x = true -> exists s, x = PyStr s /\ In s valid_intents.
Proof.
  unfold in_valid_intents. intros H.
  apply existsb_exists in H as (s & Hin & Heq).
  destruct x; try discriminate. simpl in Heq.
  apply str_eqb_eq in Heq. subst. eauto.
Qed.

Lemma other_is_valid : In other valid_intents.
Proof. unfold valid_intents, other. simpl. tauto. Qed.

Section ClassifierFacts.

Variable json_loads : pystr -> outcome pyval.
Variable generate : pystr -> pyfloat -> outcome (option pystr).

Local Abbreviation upstream query :=
  (get_google_response generate (intent_prompt query) default_temperature).

(** The intent computed from an upstream output. *)
Lemma get_intent_unfold query :
  get_intent json_loads generate query
  = if negb (nonempty (upstream query))
       || str_eqb (strip (upstream query)) []
    then Returned (PyStr other)
    else
      match extract_json_from_string json_loads (upstream query) with
      | PyDict d =>
          if in_valid_intents (get_default d (lit "intent") (PyStr other))
          then Returned (get_default d (lit "intent") (PyStr other))
          else Returned (PyStr other)
      | _ => Returned (PyStr other)
      end.
Proof.
  unfold get_intent.
  destruct (negb (nonempty (upstream query))
            || str_eqb (strip (upstream query)) []); [reflexivity|].
  destruct (extract_json_from_string json_loads (upstream query));
    try reflexivity.
  simpl.
  destruct (in_valid_intents (get_default d (lit "intent") (PyStr other)));
    reflexivity.
Qed.

(** The classifier hands on the intent of the object it decodes. *)
Lemma get_intent_of_object query d s :
  let reply :=
    get_google_response generate (intent_prompt query) default_temperature in
  strip reply <> [] ->
  extract_json_from_string json_loads reply = PyDict d ->
  lookup d (lit "intent") = Some (PyStr s) ->
  In s valid_intents ->
  get_intent json_loads generate query = Returned (PyStr s).
Proof.
  intros reply Hr E Hd Hs. rewrite get_intent_unfold. fold reply.
  assert (R : negb (nonempty reply) || str_eqb (strip reply) [] = false).
  { apply orb_false_iff. split.
    - destruct reply; [now contradiction Hr|reflexivity].
    - destruct (str_eqb (strip reply) []) eqn:B; [|reflexivity].
      apply str_eqb_eq in B. contradiction. }
  rewrite R, E. unfold get_default. rewrite Hd.
  replace (in_valid_intents (PyStr s)) with true; [reflexivity|].
  symmetry. unfold in_valid_intents. apply existsb_exists.
  exists s. split; [exact Hs|]. cbn [eq_str]. apply str_eqb_refl.
Qed.

(** C3 (as amended).  For every query, whatever the model and the JSON
    decoder do, [get_intent] returns, and returns one of the six
    literals.  It returns [other] when the upstream output is empty or
    blank, when no JSON value can be decoded from it (neither from the
    output without its fences nor from an embedded fragment), when the
    decoded value is not an object, and when its [intent] is outside
    the enumeration.  Output that is not JSON as a whole is recovered,
    not mapped to [other]: when it carries an object that mentions
    ["intent"] (the text from its first opening brace to the next
    closing one) and that object decodes, and when it is a JSON object
    inside a markdown fence, [get_intent] returns the intent of that
    object. *)
Theorem get_intent_total query :
  (exists s, In s valid_intents
             /\ get_intent json_loads generate query = Returned (PyStr s))
  /\ (strip (upstream query) = [] ->
      get_intent json_loads generate query = Returned (PyStr other))
  /\ ((exists e,
         json_loads
           (strip (remove (re_sub_fence (upstream query) 0 false) bt3))
         = Raised e) ->
      (forall fragment,
          re_search_intent (upstream query) = Some fragment ->
          exists e, json_loads fragment = Raised e) ->
      get_intent json_loads generate query = Returned (PyStr other))
  /\ (forall v,
        extract_json_from_string json_loads (upstream query) = v ->
        (forall d, v = PyDict d ->
                   in_valid_intents
                     (get_default d (lit "intent") (PyStr other)) = false) ->
        get_intent json_loads generate query = Returned (PyStr other))
  /\ (forall prefix inner suffix msg d s,
        upstream query = prefix ++ lit "{" ++ inner ++ lit "}" ++ suffix ->
        ~ In 123%N prefix (* no opening brace before it *) ->
        ~ In 125%N inner (* no closing brace inside *) ->
        contains inner quoted_intent = true ->
        json_loads
          (strip (remove (re_sub_fence (upstream query) 0 false) bt3))
        = Raised (Exc JSONDecodeError msg) ->
        json_loads (lit "{" ++ inner ++ lit "}") = Returned (PyDict d) ->
        lookup d (lit "intent") = Some (PyStr s) ->
        In s valid_intents ->
        get_intent json_loads generate query = Returned (PyStr s))
  /\ (forall lang body d s,
        upstream query = fenced lang body ->
        letters lang ->
        no_backtick body ->
        no_letter_first body ->
        strip body <> [] ->
        json_loads (strip body) = Returned (PyDict d) ->
        lookup d (lit "intent") = Some (PyStr s) ->
        In s valid_intents ->
        get_intent json_loads generate query = Returned (PyStr s)).
Proof.
  split; [|split; [|split; [|split; [|split]]]].
  5: {
    intros prefix inner suffix msg d s Hu Hp Hi Hc He Hv Hd Hs.
    change (lit "{") with [123%N] in Hu, Hv.
    change (lit "}") with [125%N] in Hu, Hv. cbn [app] in Hu, Hv.
    assert (B : In 123%N (upstream query))
      by (rewrite Hu; apply in_or_app; right; now left).
    destruct (cleaned_keeps_brace _ B) as [Hr Hcl].
    apply get_intent_of_object with d; try assumption.
    apply extract_fragment
      with (e := Exc JSONDecodeError msg) (fragment := 123%N :: inner ++ [125%N]);
      try assumption; [reflexivity|].
    rewrite Hu. now apply re_search_intent_found. }
  5: {
    intros lang body d s Hu Hl Hb Hf Hne Hv Hd Hs.
    apply get_intent_of_object with d; try assumption.
    - rewrite Hu. apply fenced_not_blank.
    - rewrite Hu. apply extract_cleaned;
        [apply fenced_not_blank| |]; now rewrite cleaned_fenced. }
  all: rewrite get_intent_unfold.
  - destruct (negb (nonempty (upstream query))
              || str_eqb (strip (upstream query)) []);
      [exists other; split; [apply other_is_valid|reflexivity]|].
    destruct (extract_json_from_string json_loads (upstream query));
      try (exists other; split; [apply other_is_valid|reflexivity]).
    destruct (in_valid_intents (get_default d (lit "intent") (PyStr other)))
      eqn:E;
      [|exists other; split; [apply other_is_valid|reflexivity]].
    apply in_valid_intents_str in E as (s & -> & Hin). eauto.
  - intros ->. rewrite str_eqb_refl, orb_true_r. reflexivity.
  - intros [e1 H1] H2.
    destruct (negb (nonempty (upstream query))
              || str_eqb (strip (upstream query)) []); [reflexivity|].
    assert (E : extract_json_from_string json_loads (upstream query)
                = default_intent).
    { unfold extract_json_from_string. cbv zeta.
      destruct (negb (nonempty (upstream query))
                || str_eqb (strip (upstream query)) []); [reflexivity|].
      destruct (negb (nonempty (strip (remove (re_sub_fence
                   (upstream query) 0 false) bt3)))); [reflexivity|].
      rewrite H1. destruct (is_class JSONDecodeError e1); [|reflexivity].
      destruct (re_search_intent (upstream query)) as [fragment|] eqn:S;
        [|reflexivity].
      destruct (H2 fragment eq_refl) as [e2 ->]. reflexivity. }
    rewrite E. reflexivity.
  - intros v Hv Hout.
    destruct (negb (nonempty (upstream query))
              || str_eqb (strip (upstream query)) []); [reflexivity|].
    rewrite Hv. destruct v; try reflexivity.
    now rewrite (Hout d eq_refl).
Qed.

End ClassifierFacts.

(** C3, the claim as stated fails: an upstream output that is not JSON
    (the decoder rejects it) but carries an object with an [intent] is not
    mapped to [other]; the fragment is recovered. *)
Lemma malformed_output_is_recovered :
  Ref.json_loads
    (lit "Sure! " ++ Ref.json_object1 (lit "intent") (lit "refund"))
  = Raised (Exc JSONDecodeError Ref.json_error)
  /\ get_intent Ref.json_loads
       (Ref.answer
          (lit "Sure! " ++ Ref.json_object1 (lit "intent") (lit "refund")))
       (lit "where is my money")
     = Returned (PyStr (lit "refund"))
  /\ lit "refund" <> other.
Proof.
  split; [vm_compute; reflexivity|].
  split; [vm_compute; reflexivity|discriminate].
Qed.

(** An instance: a label outside the enumeration. *)
Lemma get_intent_total_witness :
  get_intent Ref.json_loads
    (Ref.answer (Ref.json_object1 (lit "intent") (lit "billing")))
    (lit "hi")
  = Returned (PyStr other).
Proof.
  apply (get_intent_total Ref.json_loads
           (Ref.answer (Ref.json_object1 (lit "intent") (lit "billing")))
           (lit "hi"))
    with (v := PyDict [(lit "intent", PyStr (lit "billing"))]).
  - vm_compute. reflexivity.
  - intros d E. injection E as <-. vm_compute. reflexivity.
Defined.

(* ===================================================================== *)
(** * Dictionaries: keys, lookups, updates *)
(* ===================================================================== *)

Module DictFacts.

Lemma str_eqb_neq a b : str_eqb a b = false <-> a <> b.
Proof.
  unfold str_eqb. destruct (list_eq_dec N.eq_dec a b); split;
    congruence.
Qed.

Lemma lookup_set_same d k v : lookup (set d k v) k = Some v.
Proof.
  induction d as [|[k0 v0] d IH]; simpl.
  - now rewrite str_eqb_refl.
  - destruct (str_eqb k0 k) eqn:E; simpl; rewrite E; auto.
Qed.

Lemma lookup_set_other d k v k' :
  k <> k' -> lookup (set d k v) k' = lookup d k'.
Proof.
  intros Hne. induction d as [|[k0 v0] d IH]; simpl.
  - apply str_eqb_neq in Hne. now rewrite Hne.
  - destruct (str_eqb k0 k) eqn:E; simpl.
    + apply str_eqb_eq in E. subst k0.
      apply str_eqb_neq in Hne. now rewrite Hne.
    + now rewrite IH.
Qed.

Lemma keys_set d k v :
  keys (set d k v) = if has_key d k then keys d else keys d ++ [k].
Proof.
  unfold has_key. induction d as [|[k0 v0] d IH]; simpl; [reflexivity|].
  destruct (str_eqb k0 k) eqn:E; simpl; [reflexivity|].
  rewrite IH. now destruct (lookup d k).
Qed.

Lemma lookup_none_keys d k : lookup d k = None -> ~ In k (keys d).
Proof.
  induction d as [|[k0 v0] d IH]; simpl; [tauto|].
  destruct (str_eqb k0 k) eqn:E; [discriminate|].
  apply str_eqb_neq in E. intros H [Hk|Hk]; [congruence|]. now apply IH.
Qed.

Lemma NoDup_keys_set d k v : NoDup (keys d) -> NoDup (keys (set d k v)).
Proof.
  intros H. rewrite keys_set. unfold has_key.
  destruct (lookup d k) eqn:E; [assumption|].
  apply lookup_none_keys in E.
  apply NoDup_app; [assumption|repeat constructor; simpl; tauto|].
  intros x Hx [<-|[]]. contradiction.
Qed.

Lemma NoDup_keys_filter (f : pystr * pyval -> bool) d :
  NoDup (keys d) -> NoDup (keys (filter f d)).
Proof.
  induction d as [|kv d IH]; simpl; intros H; [constructor|].
  inversion H as [|? ? Hnotin Hnd]; subst.
  destruct (f kv); simpl; [constructor|]; auto.
  intros Hin. apply Hnotin. unfold keys in *.
  apply in_map_iff in Hin as (x & Hx & Hf). apply filter_In in Hf as [Hf _].
  apply in_map_iff. eauto.
Qed.

Lemma set_app_fresh a k v b w :
  ~ In k (keys a) -> set (a ++ (k, v) :: b) k w = a ++ (k, w) :: b.
Proof.
  induction a as [|[k0 v0] a IH]; simpl; intros H.
  - now rewrite str_eqb_refl.
  - destruct (str_eqb k0 k) eqn:E.
    + apply str_eqb_eq in E. tauto.
    + rewrite IH by tauto. reflexivity.
Qed.

Lemma del_app_fresh a k v b :
  ~ In k (keys a) -> del (a ++ (k, v) :: b) k = a ++ b.
Proof.
  induction a as [|[k0 v0] a IH]; simpl; intros H.
  - now rewrite str_eqb_refl.
  - destruct (str_eqb k0 k) eqn:E.
    + apply str_eqb_eq in E. tauto.
    + rewrite IH by tauto. reflexivity.
Qed.

Lemma valid_metadata_set d k v :
  is_basic v = true -> valid_metadata d -> valid_metadata (set d k v).
Proof.
  intros Hv. unfold valid_metadata.
  induction d as [|[k0 v0] d IH]; simpl; intros H.
  - repeat constructor. assumption.
  - inversion H; subst.
    destruct (str_eqb k0 k); constructor; auto.
Qed.

Lemma valid_metadata_no_none d k :
  valid_metadata d -> lookup d k <> Some PyNone.
Proof.
  unfold valid_metadata. induction d as [|[k0 v0] d IH]; simpl; intros H.
  - discriminate.
  - inversion H; subst. simpl in *.
    destruct (str_eqb k0 k); [|auto].
    intros E. injection E as ->. discriminate.
Qed.

End DictFacts.

Import DictFacts.

(* ===================================================================== *)
(** * The metadata of a chunk *)
(* ===================================================================== *)

Section MetadataFacts.

Variable repr_container : pyval -> pystr.
Variable urlparse_netloc : pyval -> outcome pystr.

Local Abbreviation clean_entry := (Spec.clean_entry repr_container).
Local Abbreviation clean := (Spec.clean repr_container).

Lemma sanitize_items_clean items :
  forall done,
    NoDup (keys (done ++ items)) ->
    sanitize_items repr_container (done ++ items) items
    = done ++ clean items.
Proof.
  induction items as [|[k v] rest IH]; intros done Hnd; simpl.
  - reflexivity.
  - assert (Hfresh : ~ In k (keys done)).
    { unfold keys in *. rewrite map_app in Hnd. simpl in Hnd.
      apply NoDup_remove_2 in Hnd. rewrite in_app_iff in Hnd. tauto. }
    assert (Hrest : NoDup (keys (done ++ rest))).
    { unfold keys in *. rewrite map_app in *. simpl in Hnd.
      now apply NoDup_remove_1 in Hnd. }
    assert (Hkeep : forall w, NoDup (keys ((done ++ [(k, w)]) ++ rest))).
    { intros w. rewrite <- app_assoc. simpl. unfold keys in *.
      rewrite map_app in *. exact Hnd. }
    unfold Spec.clean_entry at 1. simpl.
    destruct v; simpl.
    + rewrite del_app_fresh by assumption. now apply IH.
    + specialize (IH (done ++ [(k, PyBool b)]) (Hkeep _)).
      rewrite <- app_assoc in IH. simpl in IH. now rewrite IH, <- app_assoc.
    + specialize (IH (done ++ [(k, PyInt z)]) (Hkeep _)).
      rewrite <- app_assoc in IH. simpl in IH. now rewrite IH, <- app_assoc.
    + specialize (IH (done ++ [(k, PyFloat f)]) (Hkeep _)).
      rewrite <- app_assoc in IH. simpl in IH. now rewrite IH, <- app_assoc.
    + specialize (IH (done ++ [(k, PyStr s)]) (Hkeep _)).
      rewrite <- app_assoc in IH. simpl in IH. now rewrite IH, <- app_assoc.
    + rewrite set_app_fresh by assumption.
      specialize (IH (done ++ [(k, PyStr (repr_container (PyList l)))])
                    (Hkeep _)).
      rewrite <- app_assoc in IH. simpl in IH. now rewrite IH, <- app_assoc.
    + rewrite set_app_fresh by assumption.
      specialize (IH (done ++ [(k, PyStr (repr_container (PyDict d)))])
                    (Hkeep _)).
      rewrite <- app_assoc in IH. simpl in IH. now rewrite IH, <- app_assoc.
Qed.

Lemma sanitize_clean d :
  NoDup (keys d) -> sanitize repr_container d = clean d.
Proof.
  intros H. unfold sanitize. apply (sanitize_items_clean d [] H).
Qed.

Lemma clean_valid d : valid_metadata (clean d).
Proof.
  unfold valid_metadata, Spec.clean. apply Forall_flat_map.
  apply Forall_forall. intros [k v] _. unfold Spec.clean_entry. simpl.
  destruct v; repeat constructor.
Qed.

Lemma lookup_clean_basic d k v :
  lookup d k = Some v -> is_basic v = true -> lookup (clean d) k = Some v.
Proof.
  induction d as [|[k0 v0] d IH]; simpl; [discriminate|].
  intros H Hv. unfold Spec.clean_entry at 1. simpl.
  destruct (str_eqb k0 k) eqn:E.
  - injection H as ->. destruct v; try discriminate; simpl; now rewrite E.
  - destruct v0; simpl; rewrite ?E; auto.
Qed.

Lemma lookup_clean_absent d k :
  ~ In k (keys d) -> lookup (clean d) k = None.
Proof.
  induction d as [|[k0 v0] d IH]; simpl; intros H; [reflexivity|].
  assert (E : str_eqb k0 k = false) by (apply str_eqb_neq; tauto).
  unfold Spec.clean_entry at 1. simpl.
  destruct v0; simpl; rewrite ?E; apply IH; tauto.
Qed.

(** A key that holds [None] is gone after the loop. *)
Lemma lookup_clean_none d k :
  NoDup (keys d) -> lookup d k = Some PyNone -> lookup (clean d) k = None.
Proof.
  induction d as [|[k0 v0] d IH]; simpl; intros Hnd H; [discriminate|].
  inversion Hnd as [|? ? Hnotin Hnd']; subst.
  unfold Spec.clean_entry at 1. simpl.
  destruct (str_eqb k0 k) eqn:E.
  - injection H as ->. apply str_eqb_eq in E. subst k0. simpl.
    now apply lookup_clean_absent.
  - destruct v0; simpl; rewrite ?E; now apply IH.
Qed.

Lemma NoDup_keys_add_extra extra :
  forall metadata,
    NoDup (keys metadata) ->
    NoDup (keys (add_extra repr_container metadata extra)).
Proof.
  induction extra as [|[k v] rest IH]; intros metadata H; simpl; auto.
  destruct v; simpl; auto using NoDup_keys_set.
Qed.

Lemma NoDup_keys_create_metadata json_obj filename chunk_index created_at :
  NoDup (keys (create_metadata repr_container urlparse_netloc json_obj
                 filename chunk_index created_at)).
Proof.
  unfold create_metadata. apply NoDup_keys_filter.
  assert (B : forall a b c d e f g h : pyval,
             NoDup (keys [(lit "source_type", a); (lit "filename", b);
                          (lit "chunk_index", c); (lit "created_at", d);
                          (lit "id", e); (lit "url", f); (lit "title", g);
                          (lit "section", h)])).
  { intros. unfold keys. simpl.
    repeat (constructor; [simpl; intuition discriminate|]). constructor. }
  match goal with
  | |- NoDup (keys (if _ then match _ with
                              | Returned _ => _
                              | Raised _ => ?m
                              end else _)) =>
      assert (M : NoDup (keys m))
  end.
  { destruct (lookup json_obj (lit "metadata")) as [[]|];
      try apply NoDup_keys_add_extra; apply B. }
  destruct (truthy _); [|exact M].
  destruct (urlparse_netloc _); [|exact M].
  destruct (nonempty a); [|exact M].
  now apply NoDup_keys_set.
Qed.

(** The metadata appended to a batch for a chunk holds
    no [None] and nothing but strings, integers, floats and booleans;
    its [text] is the preview of the chunk. *)
Lemma chunk_metadata_valid json_obj filename chunk_index chunk_text total
  created_at :
  valid_metadata
    (chunk_metadata repr_container urlparse_netloc json_obj filename
       chunk_index chunk_text total created_at)
  /\ lookup
       (chunk_metadata repr_container urlparse_netloc json_obj filename
          chunk_index chunk_text total created_at) (lit "text")
     = Some (PyStr (preview chunk_text)).
Proof.
  unfold chunk_metadata.
  rewrite sanitize_clean
    by (do 2 apply NoDup_keys_set; apply NoDup_keys_create_metadata).
  split; [apply clean_valid|].
  apply lookup_clean_basic; [|reflexivity].
  rewrite lookup_set_other by discriminate.
  apply lookup_set_same.
Qed.

End MetadataFacts.

(* ===================================================================== *)
(** * What the bulk pipeline hands to the index *)
(* ===================================================================== *)

Module BatchFacts.

Lemma Forall_firstn {A} (P : A -> Prop) n (l : list A) :
  Forall P l -> Forall P (firstn n l).
Proof.
  revert l. induction n; intros l H; [constructor|].
  destruct H; simpl; constructor; auto.
Qed.

Lemma Forall_skipn {A} (P : A -> Prop) n (l : list A) :
  Forall P l -> Forall P (skipn n l).
Proof.
  revert l. induction n; intros l H; [assumption|].
  destruct H; simpl; auto.
Qed.

Lemma Forall_slice {A} (P : A -> Prop) i j (l : list A) :
  Forall P l -> Forall P (slice l i j).
Proof. intros H. unfold slice. now apply Forall_firstn, Forall_skipn. Qed.

Lemma log_ok_empty : log_ok empty_world.
Proof. constructor. Qed.

Lemma log_ok_same_log w w' : index_log w' = index_log w -> log_ok w -> log_ok w'.
Proof. unfold log_ok, stored. now intros ->. Qed.

Lemma zip4_valid ids :
  forall texts metadatas vectors,
    Forall valid_metadata metadatas ->
    Forall (fun v => valid_metadata (vec_metadata v))
           (zip4 ids texts metadatas vectors).
Proof.
  induction ids as [|i ids IH]; intros texts metadatas vectors H;
    [constructor|].
  destruct texts as [|t texts]; [constructor|].
  destruct metadatas as [|m metadatas]; [constructor|].
  destruct vectors as [|v vectors]; [constructor|].
  inversion H; subst. simpl. constructor; [|now apply IH].
  simpl. destruct (has_key m (lit "text")); [assumption|].
  now apply valid_metadata_set.
Qed.

Section Store.

Variable embed_texts : list pystr -> outcome (list (list pyfloat)).
Variable index_upsert : list vector -> outcome unit.

Lemma send_batches_ok (V : list vector) starts :
  Forall (fun v => valid_metadata (vec_metadata v)) V ->
  forall w,
    log_ok w ->
    log_ok (fst (forM (fun (_ : unit) i =>
                         send_batch index_upsert (slice V i (i + 100)))
                      tt starts w)).
Proof.
  intros HV. induction starts as [|i rest IH]; intros w Hw; [exact Hw|].
  simpl. unfold bindM, send_batch at 1.
  assert (Hw' : log_ok {| ticks := ticks w;
                          index_log := index_log w ++ [slice V i (i + 100)] |}).
  { unfold log_ok, stored in *. simpl. rewrite concat_app. simpl.
    rewrite app_nil_r. apply Forall_app. split; [assumption|].
    now apply Forall_slice. }
  destruct (index_upsert (slice V i (i + 100))) as [[]|e].
  - now apply IH.
  - exact Hw'.
Qed.

Lemma store_upsert_texts_ok ids texts metadatas w :
  Forall valid_metadata metadatas ->
  log_ok w ->
  log_ok (fst (store_upsert_texts embed_texts index_upsert ids texts
                 metadatas w)).
Proof.
  intros Hm Hw. unfold store_upsert_texts.
  destruct (negb (List.length ids =? List.length texts)); [exact Hw|].
  match goal with
  | |- context [if ?c then _ else _] => destruct c; [exact Hw|]
  end.
  unfold bindM, lift. destruct (embed_texts texts) as [vectors|e];
    [|exact Hw].
  match goal with
  | |- log_ok (fst (match ?m with _ => _ end)) =>
      assert (H : log_ok (fst m));
        [|destruct m as [w' [[]|e]]; exact H]
  end.
  apply send_batches_ok; [|exact Hw].
  apply zip4_valid. destruct metadatas; [|assumption].
  apply Forall_forall. intros x Hx. apply repeat_spec in Hx. subst.
  constructor.
Qed.

End Store.

Section Collect.

Variable repr_container : pyval -> pystr.
Variable urlparse_netloc : pyval -> outcome pystr.
Variable clock : nat -> Z.
Variable md5_hexdigest : pystr -> pystr.

Lemma add_chunk_ok json_obj filename position total b ic w :
  batch_ok b ->
  index_log (fst (add_chunk repr_container urlparse_netloc clock
                    md5_hexdigest json_obj filename position total b ic w))
  = index_log w
  /\ forall b',
      snd (add_chunk repr_container urlparse_netloc clock md5_hexdigest
             json_obj filename position total b ic w) = Returned b' ->
      batch_ok b'.
Proof.
  intros Hb. destruct ic as [chunk_index chunk_text].
  unfold add_chunk, bindM, lift, time_now, ret.
  destruct (chunk_hash md5_hexdigest chunk_text) as [hash|e]; simpl.
  - split; [reflexivity|]. intros b' E. injection E as <-.
    unfold batch_ok in *. simpl. apply Forall_app. split; [assumption|].
    constructor; [|constructor]. apply chunk_metadata_valid.
  - split; [reflexivity|]. discriminate.
Qed.

Lemma forM_keep_ok json_obj filename position total ics :
  forall b w,
    batch_ok b ->
    index_log
      (fst (forM_keep (add_chunk repr_container urlparse_netloc clock
                         md5_hexdigest json_obj filename position total)
              b ics w))
    = index_log w
    /\ batch_ok
         (fst (snd (forM_keep
                      (add_chunk repr_container urlparse_netloc clock
                         md5_hexdigest json_obj filename position total)
                      b ics w))).
Proof.
  induction ics as [|ic rest IH]; intros b w Hb; simpl; [auto|].
  pose proof (@add_chunk_ok json_obj filename position total b ic w Hb)
    as [Hlog Hret].
  destruct (add_chunk _ _ _ _ _ _ _ _ _ _ w) as [w' [b'|e]]; simpl in *.
  - destruct (IH b' w' (Hret b' eq_refl)) as [A B].
    split; [congruence|assumption].
  - auto.
Qed.

Lemma add_object_ok filename batch_start p io w :
  batch_ok (collected p) ->
  index_log (fst (add_object repr_container urlparse_netloc clock
                    md5_hexdigest filename batch_start p io w))
  = index_log w
  /\ batch_ok
       (collected (snd (add_object repr_container urlparse_netloc clock
                          md5_hexdigest filename batch_start p io w))).
Proof.
  intros Hp. destruct io as [obj_index json_obj]. unfold add_object.
  destruct (extract_text_content repr_container json_obj) as [text|e];
    [|auto].
  destruct (negb (nonempty (strip text))); [auto|].
  destruct (chunk_large_text text 40000) as [text_chunks|e]; [|auto].
  destruct json_obj; auto.
  match goal with
  | |- context [forM_keep ?f ?b ?l ?w] =>
      pose proof (@forM_keep_ok d filename (batch_start + obj_index)
                    (List.length text_chunks) l b w Hp) as [A B];
        destruct (forM_keep f b l w) as [w' [b' err]]
  end.
  simpl in *. destruct err; auto.
Qed.

Lemma add_objects_ok filename batch_start objs :
  forall p w,
    batch_ok (collected p) ->
    index_log (fst (add_objects repr_container urlparse_netloc clock
                      md5_hexdigest filename batch_start p objs w))
    = index_log w
    /\ batch_ok
         (collected (snd (add_objects repr_container urlparse_netloc clock
                            md5_hexdigest filename batch_start p objs w))).
Proof.
  induction objs as [|io rest IH]; intros p w Hp; simpl; [auto|].
  pose proof (@add_object_ok filename batch_start p io w Hp) as [A B].
  destruct (add_object _ _ _ _ _ _ _ _ w) as [w' p']. simpl in *.
  destruct (IH p' w' B) as [C D]. split; [congruence|assumption].
Qed.

Variable embed_texts : list pystr -> outcome (list (list pyfloat)).
Variable index_upsert : list vector -> outcome unit.

Lemma process_batch_ok json_objects filename batch_size st batch_start w :
  log_ok w ->
  log_ok (fst (process_batch repr_container urlparse_netloc clock
                 md5_hexdigest embed_texts index_upsert json_objects filename
                 batch_size st batch_start w)).
Proof.
  intros Hw. unfold process_batch.
  match goal with
  | |- context [add_objects _ _ _ _ ?f ?s ?p ?objs w] =>
      pose proof (@add_objects_ok f s objs p w) as H;
        destruct (add_objects repr_container urlparse_netloc clock
                    md5_hexdigest f s p objs w) as [w1 p1]
  end.
  simpl in H. destruct H as [A B]; [constructor|].
  assert (Hw1 : log_ok w1) by (eapply log_ok_same_log; eassumption).
  destruct (batch_ids (collected p1)); [exact Hw1|].
  match goal with
  | |- context [store_upsert_texts _ _ ?i ?t ?m w1] =>
      pose proof (@store_upsert_texts_ok embed_texts index_upsert i t m w1
                    B Hw1) as H;
        destruct (store_upsert_texts embed_texts index_upsert i t m w1)
        as [w2 [[]|e]]
  end; exact H.
Qed.

Lemma process_batches_ok json_objects filename batch_size starts :
  forall st w,
    log_ok w ->
    log_ok (fst (process_batches repr_container urlparse_netloc clock
                   md5_hexdigest embed_texts index_upsert json_objects
                   filename batch_size st starts w)).
Proof.
  induction starts as [|s rest IH]; intros st w Hw; simpl; [exact Hw|].
  pose proof (@process_batch_ok json_objects filename batch_size st s w Hw)
    as H.
  destruct (process_batch _ _ _ _ _ _ _ _ _ _ _ w) as [w' st'].
  now apply IH.
Qed.

End Collect.

End BatchFacts.

Import BatchFacts.

(* ===================================================================== *)
(** * The fields of the metadata *)
(* ===================================================================== *)

Module FieldFacts.

Lemma lookup_set d k v key :
  lookup (set d k v) key = if str_eqb k key then Some v else lookup d key.
Proof.
  destruct (str_eqb k key) eqn:E.
  - apply str_eqb_eq in E. subst. apply lookup_set_same.
  - apply str_eqb_neq in E. now apply lookup_set_other.
Qed.

Lemma lookup_in_keys d key v : lookup d key = Some v -> In key (keys d).
Proof.
  induction d as [|[k0 v0] d IH]; simpl; [discriminate|].
  destruct (str_eqb k0 key) eqn:E; [|auto].
  apply str_eqb_eq in E. auto.
Qed.

Lemma lookup_drop_none d key v :
  lookup d key = Some v -> v <> PyNone -> lookup (drop_none d) key = Some v.
Proof.
  unfold drop_none. induction d as [|[k0 v0] d IH]; simpl; [discriminate|].
  intros H Hv. destruct (str_eqb k0 key) eqn:E.
  - injection H as ->. destruct v; try contradiction; simpl; now rewrite E.
  - destruct v0; simpl; rewrite ?E; auto.
Qed.

Lemma py_or_not_none x s : py_or x (PyStr s) <> PyNone.
Proof. unfold py_or. destruct x; simpl; try destruct (_ : bool); discriminate. Qed.

Lemma lookup_drop_none_absent d key :
  lookup d key = None -> lookup (drop_none d) key = None.
Proof.
  unfold drop_none. induction d as [|[k0 v0] d IH]; simpl; [reflexivity|].
  destruct (str_eqb k0 key) eqn:E; [discriminate|].
  intros H. destruct v0; simpl; rewrite ?E; auto.
Qed.

(** What [create_metadata] returns holds no [None]. *)
Lemma lookup_drop_none_value d key : lookup (drop_none d) key <> Some PyNone.
Proof.
  unfold drop_none. induction d as [|[k0 v0] d IH]; simpl; [discriminate|].
  destruct v0; simpl; try exact IH;
    (destruct (str_eqb k0 key); [discriminate|exact IH]).
Qed.

Lemma lookup_absent d key : ~ In key (keys d) -> lookup d key = None.
Proof.
  induction d as [|[k0 v0] d IH]; simpl; [reflexivity|].
  intros H. destruct (str_eqb k0 key) eqn:E.
  - apply str_eqb_eq in E. tauto.
  - apply IH. tauto.
Qed.

Section Fields.

Variable repr_container : pyval -> pystr.
Variable urlparse_netloc : pyval -> outcome pystr.

Local Abbreviation add_extra' := (add_extra repr_container).
Local Abbreviation stored_value' := (stored_value repr_container).

Lemma lookup_add_extra_absent extra key :
  ~ In key (keys extra) ->
  forall metadata,
    lookup (add_extra' metadata extra) key = lookup metadata key.
Proof.
  induction extra as [|[k v] rest IH]; intros H metadata; [reflexivity|].
  simpl in H.
  assert (Hk : str_eqb k key = false) by (apply str_eqb_neq; tauto).
  assert (Hrest : ~ In key (keys rest)) by tauto.
  destruct v; cbn [add_extra is_basic]; rewrite IH by assumption;
    rewrite ?lookup_set, ?Hk; reflexivity.
Qed.

(** A key of the nested metadata that does not hold [None] is written
    over whatever the metadata held for it. *)
Lemma lookup_add_extra extra key v :
  NoDup (keys extra) ->
  lookup extra key = Some v ->
  v <> PyNone ->
  forall metadata,
    lookup (add_extra' metadata extra) key = Some (stored_value' v).
Proof.
  induction extra as [|[k v0] rest IH]; intros Hnd H Hv metadata;
    [discriminate|].
  inversion Hnd as [|? ? Hnotin Hnd']; subst.
  cbn [lookup] in H. destruct (str_eqb k key) eqn:E.
  - injection H as ->. apply str_eqb_eq in E. subst k.
    destruct v; try contradiction; cbn [add_extra is_basic];
      rewrite lookup_add_extra_absent by assumption;
      now rewrite lookup_set_same.
  - destruct v0; cbn [add_extra is_basic]; now apply IH.
Qed.

(** The loop over the nested metadata keeps every key that is there and
    puts no [None] in. *)
Lemma add_extra_keeps extra :
  forall metadata key,
    (exists v, lookup metadata key = Some v /\ v <> PyNone) ->
    exists v, lookup (add_extra' metadata extra) key = Some v /\ v <> PyNone.
Proof.
  induction extra as [|[k v0] rest IH]; intros metadata key H; [exact H|].
  destruct v0; cbn [add_extra is_basic]; apply IH; try exact H;
    rewrite lookup_set;
    (destruct (str_eqb k key);
     [eexists; split; [reflexivity|discriminate]|exact H]).
Qed.

Lemma create_metadata_lookup json_obj filename chunk_index created_at extra
  key v :
  lookup json_obj (lit "metadata") = Some (PyDict extra) ->
  NoDup (keys extra) ->
  lookup extra key = Some v ->
  v <> PyNone ->
  key <> lit "site" ->
  lookup (create_metadata repr_container urlparse_netloc json_obj filename
            chunk_index created_at) key
  = Some (stored_value' v).
Proof.
  intros Hm Hnd Hk Hv Hsite. unfold create_metadata. rewrite Hm.
  assert (N : stored_value' v <> PyNone).
  { unfold stored_value. destruct v; try contradiction; discriminate. }
  apply lookup_drop_none; [|exact N].
  match goal with
  | |- lookup (if _ then match _ with
                         | Returned _ => _
                         | Raised _ => ?m
                         end else _) _ = _ =>
      assert (M : lookup m key = Some (stored_value' v))
        by now apply lookup_add_extra
  end.
  destruct (truthy _); [|exact M].
  destruct (urlparse_netloc _) as [netloc|e]; [|exact M].
  destruct (nonempty netloc); [|exact M].
  rewrite lookup_set_other by congruence. exact M.
Qed.

Lemma create_metadata_base json_obj filename chunk_index created_at key :
  In key base_fields ->
  exists v,
    lookup (create_metadata repr_container urlparse_netloc json_obj filename
              chunk_index created_at) key = Some v
    /\ v <> PyNone.
Proof.
  intros Hin. unfold create_metadata.
  match goal with
  | |- exists v, lookup (drop_none ?m) key = Some v /\ _ =>
      assert (M : exists v, lookup m key = Some v /\ v <> PyNone)
  end.
  { match goal with
    | |- exists v, lookup (if _ then match _ with
                                     | Returned _ => _
                                     | Raised _ => ?m
                                     end else _) _ = _ /\ _ =>
        assert (M : exists v, lookup m key = Some v /\ v <> PyNone)
    end.
    { assert (B : exists v,
                 lookup
                   [(lit "source_type", PyStr (lit "jsonl"));
                    (lit "filename", PyStr (or_unknown (Some filename)));
                    (lit "chunk_index", PyInt (Z.of_nat chunk_index));
                    (lit "created_at", PyInt created_at);
                    (lit "id", get_or_empty json_obj (lit "id"));
                    (lit "url", get_or_empty json_obj (lit "url"));
                    (lit "title", get_or_empty json_obj (lit "title"));
                    (lit "section", get_or_empty json_obj (lit "section"))]
                   key = Some v /\ v <> PyNone).
      { unfold base_fields in Hin. cbn [In] in Hin.
        repeat destruct Hin as [<-|Hin]; try contradiction;
          (eexists; split; [reflexivity|]);
          try discriminate; apply py_or_not_none. }
      destruct (lookup json_obj (lit "metadata")) as [[]|];
        try exact B. now apply add_extra_keeps. }
    destruct (truthy _); [|exact M].
    destruct (urlparse_netloc _) as [netloc|e]; [|exact M].
    destruct (nonempty netloc); [|exact M].
    rewrite lookup_set.
    destruct (str_eqb (lit "site") key);
      [eexists; split; [reflexivity|discriminate]|exact M]. }
  destruct M as (v & Hv & Hn). exists v. split; [|exact Hn].
  now apply lookup_drop_none.
Qed.

(** A key of the nested metadata that holds [None] is passed over. *)
Lemma lookup_add_extra_none extra key :
  NoDup (keys extra) ->
  lookup extra key = Some PyNone ->
  forall metadata,
    lookup (add_extra repr_container metadata extra) key
    = lookup metadata key.
Proof.
  induction extra as [|[k v0] rest IH]; intros Hnd H metadata;
    [discriminate|].
  inversion Hnd as [|? ? Hnotin Hnd']; subst.
  cbn [lookup] in H. destruct (str_eqb k key) eqn:E.
  - injection H as ->. apply str_eqb_eq in E. subst k.
    cbn [add_extra]. now apply lookup_add_extra_absent.
  - destruct v0; cbn [add_extra is_basic]; rewrite IH by assumption;
      rewrite ?lookup_set, ?E; reflexivity.
Qed.

Lemma create_metadata_nested_none json_obj filename chunk_index created_at
  extra key :
  lookup json_obj (lit "metadata") = Some (PyDict extra) ->
  NoDup (keys extra) ->
  lookup extra key = Some PyNone ->
  ~ In key base_fields ->
  key <> lit "site" ->
  lookup (create_metadata repr_container urlparse_netloc json_obj filename
            chunk_index created_at) key
  = None.
Proof.
  intros Hm Hnd Hk Hb Hsite. unfold create_metadata. rewrite Hm.
  apply lookup_drop_none_absent.
  match goal with
  | |- lookup (if _ then match _ with
                         | Returned _ => _
                         | Raised _ => ?m
                         end else _) _ = _ =>
      assert (M : lookup m key = None)
  end.
  { rewrite lookup_add_extra_none by assumption.
    apply lookup_absent. exact Hb. }
  destruct (truthy _); [|exact M].
  destruct (urlparse_netloc _) as [netloc|e]; [|exact M].
  destruct (nonempty netloc); [|exact M].
  rewrite lookup_set_other by congruence. exact M.
Qed.

Lemma create_metadata_empty_field json_obj filename chunk_index created_at
  key :
  In key [lit "id"; lit "url"; lit "title"; lit "section"] ->
  (forall extra,
      lookup json_obj (lit "metadata") = Some (PyDict extra) ->
      ~ In key (keys extra)) ->
  truthy (get_default json_obj key PyNone) = false ->
  lookup (create_metadata repr_container urlparse_netloc json_obj filename
            chunk_index created_at) key
  = Some (PyStr []).
Proof.
  intros Hin Hm Hf. unfold create_metadata.
  apply lookup_drop_none; [|discriminate].
  match goal with
  | |- lookup (if _ then match _ with
                         | Returned _ => _
                         | Raised _ => ?m
                         end else _) _ = _ =>
      assert (M : lookup m key = Some (PyStr []))
  end.
  { assert (B : lookup
                  [(lit "source_type", PyStr (lit "jsonl"));
                   (lit "filename", PyStr (or_unknown (Some filename)));
                   (lit "chunk_index", PyInt (Z.of_nat chunk_index));
                   (lit "created_at", PyInt created_at);
                   (lit "id", get_or_empty json_obj (lit "id"));
                   (lit "url", get_or_empty json_obj (lit "url"));
                   (lit "title", get_or_empty json_obj (lit "title"));
                   (lit "section", get_or_empty json_obj (lit "section"))]
                  key = Some (PyStr [])).
    { cbn [In] in Hin.
      repeat destruct Hin as [<-|Hin]; try contradiction;
        unfold get_or_empty, py_or; rewrite Hf; reflexivity. }
    destruct (lookup json_obj (lit "metadata")) as [[| | | | | |extra]|];
      try exact B.
    assert (Habs : ~ In key (keys extra)) by exact (Hm extra eq_refl).
    now rewrite lookup_add_extra_absent. }
  destruct (truthy (get_default json_obj (lit "url") PyNone)); [|exact M].
  destruct (urlparse_netloc _) as [netloc|e]; [|exact M].
  destruct (nonempty netloc); [|exact M].
  rewrite lookup_set_other; [exact M|].
  cbn [In] in Hin.
  repeat destruct Hin as [<-|Hin]; try contradiction; discriminate.
Qed.

(** The metadata of a chunk, looked up at a key the pipeline does not
    write after [create_metadata]. *)
Lemma chunk_metadata_absent json_obj filename chunk_index chunk_text total
  created_at key :
  key <> lit "text" -> key <> lit "total_chunks" ->
  lookup (create_metadata repr_container urlparse_netloc json_obj filename
            chunk_index created_at) key = None ->
  lookup (chunk_metadata repr_container urlparse_netloc json_obj filename
            chunk_index chunk_text total created_at) key = None.
Proof.
  intros Ht Hc H. unfold chunk_metadata.
  rewrite (sanitize_clean repr_container urlparse_netloc)
    by (do 2 apply NoDup_keys_set; apply NoDup_keys_create_metadata).
  apply (lookup_clean_absent repr_container urlparse_netloc).
  apply lookup_none_keys.
  now rewrite !lookup_set_other by congruence.
Qed.

Lemma chunk_metadata_basic json_obj filename chunk_index chunk_text total
  created_at key v :
  key <> lit "text" -> key <> lit "total_chunks" ->
  is_basic v = true ->
  lookup (create_metadata repr_container urlparse_netloc json_obj filename
            chunk_index created_at) key = Some v ->
  lookup (chunk_metadata repr_container urlparse_netloc json_obj filename
            chunk_index chunk_text total created_at) key = Some v.
Proof.
  intros Ht Hc Hb H. unfold chunk_metadata.
  rewrite (sanitize_clean repr_container urlparse_netloc)
    by (do 2 apply NoDup_keys_set; apply NoDup_keys_create_metadata).
  apply (lookup_clean_basic repr_container); [|exact Hb].
  now rewrite !lookup_set_other by congruence.
Qed.

(** The dictionary the last loop of the pipeline goes over holds no
    [None]: its branch that deletes a key is never taken. *)
Lemma unsanitized_has_no_none json_obj filename chunk_index chunk_text total
  created_at key :
  lookup
    (set (set (create_metadata repr_container urlparse_netloc json_obj
                 filename chunk_index created_at)
            (lit "text") (PyStr (preview chunk_text)))
       (lit "total_chunks") (PyInt (Z.of_nat total))) key
  <> Some PyNone.
Proof.
  rewrite !lookup_set.
  destruct (str_eqb (lit "total_chunks") key); [discriminate|].
  destruct (str_eqb (lit "text") key); [discriminate|].
  unfold create_metadata. apply lookup_drop_none_value.
Qed.

End Fields.

End FieldFacts.

Import FieldFacts.

(* ===================================================================== *)
(** * Where the metadata handed to the index comes from *)
(* ===================================================================== *)

Module OriginFacts.

Lemma in_slice {A} (l : list A) i j x : In x (slice l i j) -> In x l.
Proof.
  intros H.
  assert (F : Forall (fun y => In y l) (slice l i j))
    by (apply Forall_slice, Forall_forall; auto).
  rewrite Forall_forall in F. now apply F.
Qed.

Lemma in_enumerate {A} (l : list A) i x : In (i, x) (enumerate l) -> In x l.
Proof. unfold enumerate. apply in_combine_r. Qed.

(** The objects of a batch are objects of the upload. *)
Lemma in_batch_objects {A} (l : list A) i j (io : nat * A) :
  In io (enumerate (slice l i j)) -> In (snd io) l.
Proof.
  destruct io as [k x]. intros H. apply in_enumerate in H.
  now apply in_slice in H.
Qed.

Section Origin.

Variable repr_container : pyval -> pystr.
Variable urlparse_netloc : pyval -> outcome pystr.
Variable clock : nat -> Z.
Variable md5_hexdigest : pystr -> pystr.
Variable filename : pystr.
Variable json_objects : list pyval.

Local Abbreviation origin :=
  (chunk_metadata_of repr_container urlparse_netloc filename json_objects).
Local Abbreviation batch_from :=
  (batch_from repr_container urlparse_netloc filename json_objects).
Local Abbreviation log_from :=
  (log_from repr_container urlparse_netloc filename json_objects).

Lemma batch_from_empty : batch_from empty_batch.
Proof. repeat split. constructor. Qed.

Lemma add_chunk_from json_obj position total b ic w b' :
  In (PyDict json_obj) json_objects ->
  batch_from b ->
  snd (add_chunk repr_container urlparse_netloc clock md5_hexdigest
         json_obj filename position total b ic w) = Returned b' ->
  batch_from b'.
Proof.
  intros Hin [[A1 A2] Hb]. destruct ic as [chunk_index chunk_text].
  unfold add_chunk, bindM, lift, time_now, ret.
  destruct (chunk_hash md5_hexdigest chunk_text) as [hash|e]; simpl;
    [|discriminate].
  intros E. injection E as <-. repeat split; simpl.
  - rewrite !length_app. simpl. lia.
  - rewrite !length_app. simpl. lia.
  - apply Forall_app. split; [assumption|].
    constructor; [|constructor].
    now exists json_obj, chunk_index, chunk_text, total, (clock (ticks w)).
Qed.

Lemma forM_keep_from json_obj position total ics :
  In (PyDict json_obj) json_objects ->
  forall b w,
    batch_from b ->
    batch_from
      (fst (snd (forM_keep
                   (add_chunk repr_container urlparse_netloc clock
                      md5_hexdigest json_obj filename position total)
                   b ics w))).
Proof.
  intros Hin. induction ics as [|ic rest IH]; intros b w Hb; simpl; [auto|].
  pose proof (@add_chunk_from json_obj position total b ic w) as H.
  destruct (add_chunk _ _ _ _ _ _ _ _ _ _ w) as [w' [b'|e]]; simpl in *.
  - apply IH. now apply (H b').
  - exact Hb.
Qed.

Lemma add_object_from batch_start p io w :
  In (snd io) json_objects ->
  batch_from (collected p) ->
  batch_from
    (collected (snd (add_object repr_container urlparse_netloc clock
                       md5_hexdigest filename batch_start p io w))).
Proof.
  intros Hin Hp. destruct io as [obj_index json_obj]. unfold add_object.
  destruct (extract_text_content repr_container json_obj) as [text|e];
    [|auto].
  destruct (negb (nonempty (strip text))); [auto|].
  destruct (chunk_large_text text 40000) as [text_chunks|e]; [|auto].
  destruct json_obj; auto.
  match goal with
  | |- context [forM_keep ?f ?b ?l ?w] =>
      pose proof (@forM_keep_from d (batch_start + obj_index)
                    (List.length text_chunks) l Hin b w Hp) as B;
        destruct (forM_keep f b l w) as [w' [b' err]]
  end.
  simpl in *. destruct err; auto.
Qed.

Lemma add_objects_from batch_start objs :
  (forall io, In io objs -> In (snd io) json_objects) ->
  forall p w,
    batch_from (collected p) ->
    batch_from
      (collected (snd (add_objects repr_container urlparse_netloc clock
                         md5_hexdigest filename batch_start p objs w))).
Proof.
  induction objs as [|io rest IH]; intros Hin p w Hp; simpl; [auto|].
  pose proof (@add_object_from batch_start p io w
                (Hin io (or_introl eq_refl)) Hp) as B.
  destruct (add_object _ _ _ _ _ _ _ _ w) as [w' p']. simpl in *.
  apply IH; [|exact B]. intros io' H. apply Hin. now right.
Qed.

Lemma log_from_same_log old w w' :
  index_log w' = index_log w -> log_from old w -> log_from old w'.
Proof. unfold log_from, stored. now intros ->. Qed.

(** The store hands over the metadata it is given: each of them has a
    [text] already. *)
Lemma zip4_from old ids :
  forall texts metadatas vectors,
    Forall origin metadatas ->
    Forall (fun v => In v old \/ origin (vec_metadata v))
           (zip4 ids texts metadatas vectors).
Proof.
  induction ids as [|i ids IH]; intros texts metadatas vectors H;
    [constructor|].
  destruct texts as [|t texts]; [constructor|].
  destruct metadatas as [|m metadatas]; [constructor|].
  destruct vectors as [|v vectors]; [constructor|].
  inversion H as [|? ? Hm Hrest]; subst. simpl.
  constructor; [|now apply IH].
  right. unfold upsert_vector. cbn [vec_metadata].
  replace (has_key m (lit "text")) with true; [exact Hm|].
  destruct Hm as (d & ci & ct & total & created & _ & ->).
  unfold has_key.
  now rewrite (proj2 (chunk_metadata_valid repr_container urlparse_netloc
                        d filename ci ct total created)).
Qed.

Variable embed_texts : list pystr -> outcome (list (list pyfloat)).
Variable index_upsert : list vector -> outcome unit.

Lemma send_batches_from old (V : list vector) starts :
  Forall (fun v => In v old \/ origin (vec_metadata v)) V ->
  forall w,
    log_from old w ->
    log_from old
      (fst (forM (fun (_ : unit) i =>
                    send_batch index_upsert (slice V i (i + 100)))
                 tt starts w)).
Proof.
  intros HV. induction starts as [|i rest IH]; intros w Hw; [exact Hw|].
  simpl. unfold bindM, send_batch at 1.
  assert (Hw' : log_from old
                  {| ticks := ticks w;
                     index_log := index_log w ++ [slice V i (i + 100)] |}).
  { unfold log_from, stored in *. simpl. rewrite concat_app. simpl.
    rewrite app_nil_r. apply Forall_app. split; [assumption|].
    now apply Forall_slice. }
  destruct (index_upsert (slice V i (i + 100))) as [[]|e].
  - now apply IH.
  - exact Hw'.
Qed.

Lemma store_upsert_texts_from old ids texts metadatas w :
  metadatas <> [] ->
  Forall origin metadatas ->
  log_from old w ->
  log_from old
    (fst (store_upsert_texts embed_texts index_upsert ids texts metadatas
            w)).
Proof.
  intros Hne Hm Hw. unfold store_upsert_texts.
  destruct (negb (List.length ids =? List.length texts)); [exact Hw|].
  match goal with
  | |- context [if ?c then _ else _] => destruct c; [exact Hw|]
  end.
  unfold bindM, lift. destruct (embed_texts texts) as [vectors|e];
    [|exact Hw].
  match goal with
  | |- log_from old (fst (match ?m with _ => _ end)) =>
      assert (H : log_from old (fst m));
        [|destruct m as [w' [[]|e]]; exact H]
  end.
  apply send_batches_from; [|exact Hw].
  apply zip4_from. destruct metadatas; [contradiction|assumption].
Qed.

Lemma process_batch_from old batch_size st batch_start w :
  log_from old w ->
  log_from old
    (fst (process_batch repr_container urlparse_netloc clock md5_hexdigest
            embed_texts index_upsert json_objects filename batch_size st
            batch_start w)).
Proof.
  intros Hw. unfold process_batch.
  match goal with
  | |- context [add_objects _ _ _ _ ?f ?s ?p ?objs w] =>
      pose proof (@add_objects_ok repr_container urlparse_netloc clock
                    md5_hexdigest f s objs p w) as H;
      pose proof (@add_objects_from s objs) as G;
        specialize (G (fun io Hio => in_batch_objects _ _ _ io Hio) p w
                      batch_from_empty);
        destruct (add_objects repr_container urlparse_netloc clock
                    md5_hexdigest f s p objs w) as [w1 p1]
  end.
  simpl in H, G. destruct H as [A _]; [constructor|].
  assert (Hw1 : log_from old w1) by (eapply log_from_same_log; eassumption).
  destruct G as [[G1 G2] G3].
  destruct (batch_ids (collected p1)) as [|i ids] eqn:I; [exact Hw1|].
  assert (Hne : batch_metadatas (collected p1) <> []).
  { intros E. rewrite E in G2. discriminate. }
  match goal with
  | |- context [store_upsert_texts _ _ ?i ?t ?m w1] =>
      pose proof (@store_upsert_texts_from old i t m w1 Hne G3 Hw1) as H;
        destruct (store_upsert_texts embed_texts index_upsert i t m w1)
        as [w2 [[]|e]]
  end; exact H.
Qed.

Lemma process_batches_from old batch_size starts :
  forall st w,
    log_from old w ->
    log_from old
      (fst (process_batches repr_container urlparse_netloc clock
              md5_hexdigest embed_texts index_upsert json_objects filename
              batch_size st starts w)).
Proof.
  induction starts as [|s rest IH]; intros st w Hw; simpl; [exact Hw|].
  pose proof (@process_batch_from old batch_size st s w Hw) as H.
  destruct (process_batch _ _ _ _ _ _ _ _ _ _ _ w) as [w' st'].
  now apply IH.
Qed.

End Origin.

End OriginFacts.

Import OriginFacts.

(** C9 (as amended).  Whatever the JSON objects of a bulk upload are,
    every metadata dictionary the pipeline hands to the index holds no
    [None] and only strings, integers, floats and booleans: this holds of
    the metadata collected for a batch before the store is called, and of
    every vector that reaches [index.upsert].  Each of these dictionaries
    is the metadata the pipeline builds for a chunk of one of the
    objects.  The last loop of the pipeline deletes a key that holds
    [None], but the dictionary it goes over never holds one:
    [create_metadata] has left them out before.  A key of the nested
    [metadata] object that holds [null] is absent from the metadata of
    the chunk (unless the pipeline writes that key itself).  The keys
    [id], [url], [title] and [section] are never dropped: when the
    object gives [null], nothing or another falsy value for one of them,
    it is stored with the empty string. *)
Theorem jsonl_metadata_has_no_null
  (repr_container : pyval -> pystr)
  (urlparse_netloc : pyval -> outcome pystr)
  (clock : nat -> Z) (md5_hexdigest : pystr -> pystr)
  (embed_texts : list pystr -> outcome (list (list pyfloat)))
  (index_upsert : list vector -> outcome unit)
  (json_objects : list pyval) (filename : pystr) (batch_size : nat)
  (w : world) :
  log_ok w ->
  (forall v,
      In v (stored (fst (process_jsonl_batch repr_container urlparse_netloc
                           clock md5_hexdigest embed_texts index_upsert
                           json_objects filename batch_size w))) ->
      valid_metadata (vec_metadata v)
      /\ forall key, lookup (vec_metadata v) key <> Some PyNone)
  /\ (forall batch_start objs metadata,
        In metadata
           (batch_metadatas
              (collected
                 (snd (add_objects repr_container urlparse_netloc clock
                         md5_hexdigest filename batch_start
                         {| collected := empty_batch; failed := 0;
                            chunks_seen := 0 |}
                         objs w)))) ->
        valid_metadata metadata
        /\ forall key, lookup metadata key <> Some PyNone)
  /\ (forall v,
        In v (stored (fst (process_jsonl_batch repr_container
                             urlparse_netloc clock md5_hexdigest embed_texts
                             index_upsert json_objects filename batch_size
                             w))) ->
        In v (stored w)
        \/ chunk_metadata_of repr_container urlparse_netloc filename
             json_objects (vec_metadata v))
  /\ (forall batch_start objs metadata,
        In metadata
           (batch_metadatas
              (collected
                 (snd (add_objects repr_container urlparse_netloc clock
                         md5_hexdigest filename batch_start
                         {| collected := empty_batch; failed := 0;
                            chunks_seen := 0 |}
                         objs w)))) ->
        chunk_metadata_of repr_container urlparse_netloc filename
          (map snd objs) metadata)
  /\ (forall metadata key,
        NoDup (keys metadata) ->
        lookup metadata key = Some PyNone ->
        lookup (sanitize repr_container metadata) key = None)
  /\ (forall json_obj chunk_index chunk_text total created_at key,
        lookup
          (set (set (create_metadata repr_container urlparse_netloc json_obj
                       filename chunk_index created_at)
                  (lit "text") (PyStr (preview chunk_text)))
             (lit "total_chunks") (PyInt (Z.of_nat total))) key
        <> Some PyNone)
  /\ (forall json_obj extra chunk_index chunk_text total created_at key,
        lookup json_obj (lit "metadata") = Some (PyDict extra) ->
        NoDup (keys extra) ->
        lookup extra key = Some PyNone ->
        ~ In key base_fields ->
        key <> lit "site" -> key <> lit "text" ->
        key <> lit "total_chunks" ->
        lookup (chunk_metadata repr_container urlparse_netloc json_obj
                  filename chunk_index chunk_text total created_at) key
        = None)
  /\ (forall json_obj chunk_index chunk_text total created_at key,
        In key [lit "id"; lit "url"; lit "title"; lit "section"] ->
        (forall extra,
            lookup json_obj (lit "metadata") = Some (PyDict extra) ->
            ~ In key (keys extra)) ->
        truthy (get_default json_obj key PyNone) = false ->
        lookup (chunk_metadata repr_container urlparse_netloc json_obj
                  filename chunk_index chunk_text total created_at) key
        = Some (PyStr [])).
Proof.
  intros Hw. repeat apply conj.
  - intros v Hv.
    assert (H : log_ok (fst (process_jsonl_batch repr_container
                               urlparse_netloc clock md5_hexdigest
                               embed_texts index_upsert json_objects filename
                               batch_size w)))
      by (apply process_batches_ok; exact Hw).
    unfold log_ok in H. rewrite Forall_forall in H.
    split; [now apply H|]. intros key. apply valid_metadata_no_none.
    now apply H.
  - intros batch_start objs metadata Hin.
    pose proof (@add_objects_ok repr_container urlparse_netloc clock
                  md5_hexdigest filename batch_start objs
                  {| collected := empty_batch; failed := 0;
                     chunks_seen := 0 |} w) as H.
    destruct H as [_ H]; [constructor|].
    unfold batch_ok in H. rewrite Forall_forall in H.
    split; [now apply H|]. intros key. apply valid_metadata_no_none.
    now apply H.
  - intros v Hv.
    assert (H : log_from repr_container urlparse_netloc filename json_objects
                  (stored w)
                  (fst (process_jsonl_batch repr_container urlparse_netloc
                          clock md5_hexdigest embed_texts index_upsert
                          json_objects filename batch_size w))).
    { apply process_batches_from. unfold log_from.
      apply Forall_forall. auto. }
    unfold log_from in H. rewrite Forall_forall in H. now apply H.
  - intros batch_start objs metadata Hin.
    pose proof (@add_objects_from repr_container urlparse_netloc clock
                  md5_hexdigest filename (map snd objs) batch_start objs
                  (fun io Hio => in_map snd objs io Hio)
                  {| collected := empty_batch; failed := 0;
                     chunks_seen := 0 |} w
                  (batch_from_empty _ _ _ _)) as [_ H].
    rewrite Forall_forall in H. now apply H.
  - intros metadata key Hnd Hnone. rewrite sanitize_clean by assumption.
    now apply lookup_clean_none.
  - intros. apply unsanitized_has_no_none.
  - intros json_obj extra chunk_index chunk_text total created_at key
      Hm Hnd Hk Hb Hsite Htext Htotal.
    apply chunk_metadata_absent; try assumption.
    now apply create_metadata_nested_none with extra.
  - intros json_obj chunk_index chunk_text total created_at key Hin Hm Hf.
    apply chunk_metadata_basic; [| |reflexivity|].
    + cbn [In] in Hin.
      repeat destruct Hin as [<-|Hin]; try contradiction; discriminate.
    + cbn [In] in Hin.
      repeat destruct Hin as [<-|Hin]; try contradiction; discriminate.
    + now apply create_metadata_empty_field.
Qed.

(** C9, the claim as stated fails: the object gives [null] for its [id],
    and the key is not dropped: the metadata handed to the index holds
    [id] with the empty string. *)
Lemma null_id_is_stored_as_empty_string :
  Ref.sample_object
  = PyDict [(lit "text", PyStr (lit " a "));
            (lit "id", PyNone);
            (lit "metadata",
             PyDict [(lit "lang", PyNone);
                     (lit "tags", PyList [PyStr (lit "x")])])]
  /\ map (fun v => lookup (vec_metadata v) (lit "id"))
       (stored
          (fst (process_jsonl_batch Ref.repr_x Ref.netloc_example
                  (Ref.clock_at 1700000000) Ref.md5_of_a Ref.embed_all
                  Ref.upsert_ok [Ref.sample_object] (lit "f.jsonl") 50
                  empty_world)))
     = [Some (PyStr [])]
  /\ map (fun v => lookup (vec_metadata v) (lit "lang"))
       (stored
          (fst (process_jsonl_batch Ref.repr_x Ref.netloc_example
                  (Ref.clock_at 1700000000) Ref.md5_of_a Ref.embed_all
                  Ref.upsert_ok [Ref.sample_object] (lit "f.jsonl") 50
                  empty_world)))
     = [None].
Proof.
  repeat split; vm_compute; reflexivity.
Qed.

(** An instance: one object with [null] entries and a list, stored from
    an empty log. *)
Lemma jsonl_metadata_has_no_null_witness :
  log_ok empty_world
  /\ forall v,
      In v (stored
              (fst (process_jsonl_batch Ref.repr_x Ref.netloc_example
                      (Ref.clock_at 1700000000) Ref.md5_of_a Ref.embed_all
                      Ref.upsert_ok [Ref.sample_object] (lit "f.jsonl") 50
                      empty_world))) ->
      valid_metadata (vec_metadata v).
Proof.
  split; [apply log_ok_empty|]. intros v Hv.
  pose proof (jsonl_metadata_has_no_null Ref.repr_x Ref.netloc_example
                (Ref.clock_at 1700000000) Ref.md5_of_a Ref.embed_all
                Ref.upsert_ok [Ref.sample_object] (lit "f.jsonl") 50
                log_ok_empty) as [H _].
  exact (proj1 (H v Hv)).
Defined.

(** That run does store a vector: the [null] entries of the object are
    gone, the list has become its [str]. *)
Example jsonl_metadata_demo :
  map vec_metadata
    (stored
       (fst (process_jsonl_batch Ref.repr_x Ref.netloc_example
               (Ref.clock_at 1700000000) Ref.md5_of_a Ref.embed_all
               Ref.upsert_ok [Ref.sample_object] (lit "f.jsonl") 50
               empty_world)))
  = [[(lit "source_type", PyStr (lit "jsonl"));
      (lit "filename", PyStr (lit "f.jsonl"));
      (lit "chunk_index", PyInt 0);
      (lit "created_at", PyInt 1700000000);
      (lit "id", PyStr []);
      (lit "url", PyStr []);
      (lit "title", PyStr []);
      (lit "section", PyStr []);
      (lit "tags", PyStr (lit "['x']"));
      (lit "text", PyStr (lit "a"));
      (lit "total_chunks", PyInt 1)]].
Proof. vm_compute. reflexivity. Qed.

(* ===================================================================== *)
(** * The preview kept in the metadata *)
(* ===================================================================== *)




(* ===================================================================== *)
(** * Vector identifiers *)
(* ===================================================================== *)

Module IdFacts.

Lemma N_of_ascii_inj a b : N_of_ascii a = N_of_ascii b -> a = b.
Proof.
  intros H. apply (f_equal ascii_of_N) in H.
  now rewrite !ascii_N_embedding in H.
Qed.

Lemma map_N_of_ascii_inj l :
  forall l', map N_of_ascii l = map N_of_ascii l' -> l = l'.
Proof.
  induction l as [|a l IH]; intros [|b l'] H; try discriminate;
    [reflexivity|].
  simpl in H. injection H as Hab Hl.
  apply N_of_ascii_inj in Hab. apply IH in Hl. congruence.
Qed.

Lemma lit_inj a b : lit a = lit b -> a = b.
Proof.
  unfold lit. intros H. apply map_N_of_ascii_inj in H.
  rewrite <- (string_of_list_ascii_of_string a),
          <- (string_of_list_ascii_of_string b).
  now f_equal.
Qed.

Lemma to_int_not_nil z :
  Z.to_int z <> Decimal.Pos Decimal.Nil
  /\ Z.to_int z <> Decimal.Neg Decimal.Nil.
Proof.
  pose proof (DecimalZ.to_of (Z.to_int z)) as H.
  rewrite DecimalZ.of_to in H.
  split; intros E; rewrite E in H; discriminate.
Qed.

Lemma dec_int_inj z z' : dec_int z = dec_int z' -> z = z'.
Proof.
  unfold dec_int. intros H. apply lit_inj in H.
  apply (f_equal NilZero.int_of_string) in H.
  destruct (to_int_not_nil z), (to_int_not_nil z').
  rewrite !NilZero.isi in H by assumption.
  injection H as H. now apply DecimalZ.to_int_inj.
Qed.

Section Collect.

Variable repr_container : pyval -> pystr.
Variable md5_hexdigest : pystr -> pystr.
Variables urlparse_netloc urlparse_netloc' : pyval -> outcome pystr.
Variables clock clock' : nat -> Z.

Local Abbreviation run1 :=
  (add_chunk repr_container urlparse_netloc clock md5_hexdigest).
Local Abbreviation run2 :=
  (add_chunk repr_container urlparse_netloc' clock' md5_hexdigest).

(** Two runs go through the chunks of an object in step: they stop at the
    same chunk and have collected the same identifiers. *)
Lemma forM_keep_same_ids json_obj filename position total ics :
  forall b b' w w',
    batch_ids b = batch_ids b' ->
    batch_ids (fst (snd (forM_keep
                           (run1 json_obj filename position total) b ics w)))
    = batch_ids (fst (snd (forM_keep
                             (run2 json_obj filename position total)
                             b' ics w')))
    /\ snd (snd (forM_keep (run1 json_obj filename position total) b ics w))
       = snd (snd (forM_keep (run2 json_obj filename position total)
                     b' ics w')).
Proof.
  induction ics as [|[chunk_index chunk_text] rest IH]; intros b b' w w' Hb;
    simpl; [auto|].
  unfold add_chunk at 1 3. unfold bindM, lift, time_now, ret.
  destruct (chunk_hash md5_hexdigest chunk_text) as [hash|e]; simpl.
  - apply IH. simpl. now rewrite Hb.
  - auto.
Qed.

Lemma add_object_same_ids filename batch_start p p' io w w' :
  batch_ids (collected p) = batch_ids (collected p') ->
  batch_ids
    (collected (snd (add_object repr_container urlparse_netloc clock
                       md5_hexdigest filename batch_start p io w)))
  = batch_ids
      (collected (snd (add_object repr_container urlparse_netloc' clock'
                         md5_hexdigest filename batch_start p' io w'))).
Proof.
  intros Hp. destruct io as [obj_index json_obj]. unfold add_object.
  destruct (extract_text_content repr_container json_obj) as [text|e];
    [|exact Hp].
  destruct (negb (nonempty (strip text))); [exact Hp|].
  destruct (chunk_large_text text 40000) as [text_chunks|e]; [|exact Hp].
  destruct json_obj; try exact Hp.
  cbn [collected failed chunks_seen].
  match goal with
  | |- context [forM_keep (run1 ?d ?f ?pos ?tot) ?b ?l w] =>
      pose proof (@forM_keep_same_ids d f pos tot l b (collected p') w w' Hp)
        as [A B];
        destruct (forM_keep (run1 d f pos tot) b l w) as [w1 [b1 err1]];
        destruct (forM_keep (run2 d f pos tot) (collected p') l w')
        as [w2 [b2 err2]]
  end.
  simpl in *. subst err2. destruct err1; exact A.
Qed.

Lemma add_objects_same_ids filename batch_start objs :
  forall p p' w w',
    batch_ids (collected p) = batch_ids (collected p') ->
    batch_ids
      (collected (snd (add_objects repr_container urlparse_netloc clock
                         md5_hexdigest filename batch_start p objs w)))
    = batch_ids
        (collected (snd (add_objects repr_container urlparse_netloc' clock'
                           md5_hexdigest filename batch_start p' objs w'))).
Proof.
  induction objs as [|io rest IH]; intros p p' w w' Hp; simpl; [exact Hp|].
  pose proof (@add_object_same_ids filename batch_start p p' io w w' Hp) as H.
  destruct (add_object repr_container urlparse_netloc clock md5_hexdigest
              filename batch_start p io w) as [w1 p1].
  destruct (add_object repr_container urlparse_netloc' clock' md5_hexdigest
              filename batch_start p' io w') as [w2 p2].
  now apply IH.
Qed.

End Collect.

End IdFacts.

Import IdFacts.

(** C7 (as amended).  In the bulk pipeline the identifiers collected for a
    batch are the same in two runs over the same objects, whatever the
    clock, the state of the index and the URL parser do: each is made of
    the object's id (or its position), the chunk index and the content
    hash.  The identifier [rag.upsert_texts] gives a chunk also holds the
    clock reading: for the same hash and index it is the same in two runs
    exactly when the two readings agree. *)
Theorem vector_ids_across_runs
  (repr_container : pyval -> pystr) (md5_hexdigest : pystr -> pystr) :
  (forall urlparse_netloc urlparse_netloc' clock clock' filename batch_start
          objs w w',
      batch_ids
        (collected
           (snd (add_objects repr_container urlparse_netloc clock
                   md5_hexdigest filename batch_start
                   {| collected := empty_batch; failed := 0;
                      chunks_seen := 0 |} objs w)))
      = batch_ids
          (collected
             (snd (add_objects repr_container urlparse_netloc' clock'
                     md5_hexdigest filename batch_start
                     {| collected := empty_batch; failed := 0;
                        chunks_seen := 0 |} objs w'))))
  /\ (forall hash i now now',
        doc_vector_id hash now i = doc_vector_id hash now' i <-> now = now').
Proof.
  split.
  - intros. now apply add_objects_same_ids.
  - intros hash i now now'. split; [|now intros ->].
    unfold doc_vector_id. intros H.
    apply app_inv_head in H. apply app_inv_head in H.
    apply app_inv_head in H. apply app_inv_tail in H.
    now apply dec_int_inj.
Qed.

(** C7, the claim as stated fails: the same text stored by
    [rag.upsert_texts] a minute later gets another identifier. *)
Lemma upsert_ids_change_between_runs :
  map vec_id
    (stored
       (fst (upsert_texts (Ref.clock_at 1700000000) Ref.md5_of_a (Returned tt)
               Ref.embed_all Ref.upsert_ok (lit "a") None None empty_world)))
  = [lit "doc_0cc175b9_1700000000_0"]
  /\ map vec_id
       (stored
          (fst (upsert_texts (Ref.clock_at 1700000060) Ref.md5_of_a
                  (Returned tt) Ref.embed_all Ref.upsert_ok (lit "a") None
                  None empty_world)))
     = [lit "doc_0cc175b9_1700000060_0"]
  /\ lit "doc_0cc175b9_1700000000_0" <> lit "doc_0cc175b9_1700000060_0".
Proof.
  split; [vm_compute; reflexivity|].
  split; [vm_compute; reflexivity|]. vm_compute. discriminate.
Qed.

(* ===================================================================== *)
(** * Texts below the chunking threshold *)
(* ===================================================================== *)

Module SmallTextFacts.

Lemma utf8_len_app a b :
  utf8_len (a ++ b)
  = match utf8_len a, utf8_len b with
    | Some x, Some y => Some (x + y)
    | _, _ => None
    end.
Proof.
  induction a as [|c a IH]; simpl.
  - now destruct (utf8_len b).
  - rewrite IH. destruct (utf8_width c), (utf8_len a), (utf8_len b);
      try reflexivity.
    f_equal. lia.
Qed.

Lemma fits_app size a b : fits size (a ++ b) -> fits size a /\ fits size b.
Proof.
  intros (k & Hk & Hle). rewrite utf8_len_app in Hk.
  destruct (utf8_len a) as [x|] eqn:A, (utf8_len b) as [y|] eqn:B;
    try discriminate.
  injection Hk as <-. split; eexists; (split; [eassumption|lia]).
Qed.

Lemma fits_drop_middle size a b c :
  fits size (a ++ b ++ c) -> fits size (a ++ c).
Proof.
  intros (k & Hk & Hle). rewrite !utf8_len_app in Hk. unfold fits.
  rewrite utf8_len_app.
  destruct (utf8_len a) as [x|], (utf8_len b) as [y|],
    (utf8_len c) as [z|]; try discriminate.
  injection Hk as <-. eexists. split; [reflexivity|lia].
Qed.

Lemma fits_encoded_len size s :
  fits size s ->
  exists k, encoded_len s = Returned k /\ (size <? Z.of_nat k)%Z = false.
Proof.
  intros (k & Hk & Hle). exists k. unfold encoded_len. rewrite Hk.
  split; [reflexivity|]. now apply Z.ltb_ge.
Qed.

Lemma startswith_app pre :
  forall s, startswith s pre = true -> exists t, s = pre ++ t.
Proof.
  induction pre as [|p pre IH]; intros s H; [now exists s|].
  destruct s as [|x s]; [discriminate|].
  cbn [startswith] in H. apply andb_true_iff in H as [Hp Hs].
  apply N.eqb_eq in Hp. subst x.
  destruct (IH s Hs) as [t ->]. now exists t.
Qed.

Lemma split_go_skip sep pre :
  forall t cur, split_go sep (pre ++ t) (List.length pre) cur
                = split_go sep t 0 cur.
Proof. induction pre as [|x pre IH]; intros t cur; simpl; auto. Qed.

Lemma split_go_nonempty sep s :
  forall skip cur, split_go sep s skip cur <> [].
Proof.
  induction s as [|c s IH]; intros skip cur; cbn [split_go];
    [discriminate|].
  destruct skip; [|apply IH].
  destruct (startswith (c :: s) sep); [discriminate|apply IH].
Qed.

Lemma join_cons sep p rest :
  rest <> [] -> join sep (p :: rest) = p ++ sep ++ join sep rest.
Proof. destruct rest; [contradiction|reflexivity]. Qed.

(** Joining the pieces of a split with the separator gives the text. *)
Lemma join_split_go sep :
  sep <> [] ->
  forall n s cur,
    List.length s <= n -> join sep (split_go sep s 0 cur) = rev cur ++ s.
Proof.
  intros Hsep. induction n as [|n IH]; intros s cur Hn.
  - destruct s; [|simpl in Hn; lia]. simpl. now rewrite app_nil_r.
  - destruct s as [|c s]; [simpl; now rewrite app_nil_r|].
    cbn [split_go]. destruct (startswith (c :: s) sep) eqn:E.
    + destruct (startswith_app _ _ E) as [t Ht].
      destruct sep as [|p sep']; [contradiction|].
      injection Ht as -> ->.
      cbn [List.length]. rewrite Nat.sub_1_r. cbn [Nat.pred].
      rewrite split_go_skip, join_cons by apply split_go_nonempty.
      rewrite IH by (simpl in Hn; rewrite length_app in Hn; lia).
      reflexivity.
    + rewrite IH by (simpl in Hn; lia). simpl. now rewrite <- app_assoc.
Qed.

Lemma join_split s sep : sep <> [] -> join sep (split s sep) = s.
Proof. intros H. unfold split. now rewrite (@join_split_go sep H _ s [] (le_n _)). Qed.

Lemma join_as_concat sep p rest :
  join sep (p :: rest) = p ++ List.concat (map (fun q => sep ++ q) rest).
Proof.
  revert p. induction rest as [|q rest IH]; intros p.
  - simpl. now rewrite app_nil_r.
  - rewrite join_cons by discriminate. rewrite IH. simpl.
    now rewrite <- app_assoc.
Qed.

Lemma lstrip_whitespace w s : all_whitespace w -> lstrip (w ++ s) = lstrip s.
Proof. induction 1 as [|c w Hc _ IH]; simpl; [reflexivity|]. now rewrite Hc. Qed.

Lemma strip_whitespace w s : all_whitespace w -> strip (w ++ s) = strip s.
Proof. intros H. unfold strip. now rewrite lstrip_whitespace. Qed.

(** The buffer after paragraphs that all fit is the text read so far,
    without the separators that came before its first code point. *)
Lemma extend_all ps :
  forall current,
    exists w,
      all_whitespace w
      /\ current ++ List.concat (map (fun q => par_sep ++ q) ps)
         = w ++ fold_left extend ps current.
Proof.
  induction ps as [|p ps IH]; intros current.
  - exists []. split; [constructor|]. simpl. now rewrite app_nil_r.
  - cbn [fold_left map List.concat]. unfold extend at 2.
    destruct current as [|c current]; cbn [nonempty].
    + destruct (IH p) as (w & Hw & E). exists (par_sep ++ w).
      split.
      * apply Forall_app. split; [|assumption].
        repeat constructor.
      * rewrite app_nil_l, <- !app_assoc. f_equal. exact E.
    + destruct (IH ((c :: current) ++ par_sep ++ p)) as (w & Hw & E).
      exists w. split; [assumption|]. rewrite <- E.
      now rewrite <- !app_assoc.
Qed.

Section Loop.

Variable split_sentences : pystr -> list pystr.
Variable sentence_sep : pystr.
Variable chunk_size : Z.

Lemma paragraphs_fit ps :
  forall current,
    fits chunk_size
         (current ++ List.concat (map (fun q => par_sep ++ q) ps)) ->
    foldM (paragraph_step split_sentences sentence_sep chunk_size)
          {| chunks := []; current_chunk := current |} ps
    = Returned {| chunks := []; current_chunk := fold_left extend ps current |}.
Proof.
  induction ps as [|p ps IH]; intros current Hfit; [reflexivity|].
  cbn [foldM fold_left map List.concat] in *.
  assert (Hcp : fits chunk_size (current ++ p)).
  { rewrite <- app_assoc in Hfit.
    apply fits_drop_middle in Hfit. rewrite app_assoc in Hfit.
    now apply fits_app in Hfit. }
  destruct (fits_encoded_len Hcp) as (k & Hk & Hle).
  unfold paragraph_step at 1. cbn [current_chunk chunks].
  rewrite Hk. cbn [bind]. rewrite Hle. cbn [bind].
  apply IH. unfold extend.
  destruct current as [|c current]; cbn [nonempty].
  - cbn [app] in Hfit. rewrite <- app_assoc in Hfit.
    now apply fits_app in Hfit.
  - now rewrite <- !app_assoc in *.
Qed.

(** A text that fits the bound goes through the loop as one chunk, its
    trimmed form. *)
Lemma chunk_loop_small text :
  fits chunk_size text ->
  strip text <> [] ->
  chunk_loop split_sentences sentence_sep chunk_size text
  = Returned [strip text].
Proof.
  intros Hfit Hne. unfold chunk_loop.
  assert (J : join par_sep (split text par_sep) = text)
    by (apply join_split; discriminate).
  fold par_sep.
  destruct (split text par_sep) as [|p ps] eqn:S.
  { exfalso. revert S. apply split_go_nonempty. }
  rewrite join_as_concat in J.
  cbn [foldM]. unfold paragraph_step at 1. cbn [current_chunk chunks app].
  assert (Hp : fits chunk_size p) by (rewrite <- J in Hfit; now apply fits_app in Hfit).
  destruct (fits_encoded_len Hp) as (k & Hk & Hle).
  rewrite Hk. cbn [bind]. rewrite Hle. cbn [bind nonempty].
  rewrite paragraphs_fit by now rewrite J.
  cbn [bind]. unfold flush. cbn [current_chunk chunks].
  destruct (extend_all ps p) as (w & Hw & E).
  rewrite J in E.
  assert (Hs : strip text = strip (fold_left extend ps p))
    by (rewrite E; now apply strip_whitespace).
  destruct (fold_left extend ps p) as [|c r] eqn:F.
  - exfalso. apply Hne. rewrite Hs. reflexivity.
  - cbn [nonempty app]. now rewrite Hs.
Qed.

End Loop.

End SmallTextFacts.

Import SmallTextFacts.

(** [rag._chunk_text] on its own does trim: a text that fits the bound
    and is not blank comes back as one chunk, the trimmed text. *)
Lemma chunk_text_small_is_trimmed text n chunk_size :
  utf8_len text = Some n ->
  (Z.of_nat n <= chunk_size)%Z ->
  strip text <> [] ->
  _chunk_text text chunk_size = Returned [strip text].
Proof.
  intros Hn Hle Hne. unfold _chunk_text. apply chunk_loop_small.
  - exists n. now split.
  - exact Hne.
Qed.

Example chunk_text_small_example :
  _chunk_text (lit " a. b. c. ") 100 = Returned [lit "a. b. c."].
Proof.
  apply (@chunk_text_small_is_trimmed (lit " a. b. c. ") 10 100);
    [reflexivity|lia|vm_compute; discriminate].
Qed.

(** C6 (as amended).  A text whose encoding does not exceed the threshold
    gives exactly one chunk, and that chunk is the text as it reaches the
    chunking step, unchanged: [rag.upsert_texts] stores its argument
    untrimmed, [chunk_large_text] returns its argument, and the bulk
    pipeline has trimmed a text taken from a text field before; a text
    that is blank is rejected by [rag.upsert_texts] and nothing is
    stored.  Only [_chunk_text], which ingestion does not call below the
    threshold, returns the trimmed text.  For [a. b. c.] the chunk is the
    trimmed input. *)
Theorem small_text_is_one_chunk (text : pystr) (n : nat) :
  utf8_len text = Some n ->
  ((Z.of_nat n <= 50000)%Z -> chunks_of_text text = Returned [text])
  /\ (forall max_chunk_size,
        (Z.of_nat n <= max_chunk_size)%Z ->
        chunk_large_text text max_chunk_size = Returned [text])
  /\ (forall repr_container d s,
        first_text_field d text_fields = Some (PyStr s) ->
        extract_text_content repr_container (PyDict d) = Returned (strip s))
  /\ (strip text = [] ->
      forall clock md5_hexdigest get_vector_store embed_texts index_upsert
             filename file_type w,
        upsert_texts clock md5_hexdigest get_vector_store embed_texts
          index_upsert text filename file_type w
        = (w, Returned false))
  /\ (forall chunk_size,
        (Z.of_nat n <= chunk_size)%Z ->
        strip text <> [] ->
        _chunk_text text chunk_size = Returned [strip text])
  /\ chunks_of_text (lit "a. b. c.") = Returned [strip (lit "a. b. c.")].
Proof.
  intros Hn.
  assert (E : encoded_len text = Returned n)
    by (unfold encoded_len; now rewrite Hn).
  split; [|split; [|split; [|split; [|split]]]].
  - intros H. unfold chunks_of_text. rewrite E. simpl.
    apply Z.ltb_ge in H. now rewrite H.
  - intros max_chunk_size H. unfold chunk_large_text. rewrite E. simpl.
    apply Z.leb_le in H. now rewrite H.
  - intros repr_container d s H. unfold extract_text_content. now rewrite H.
  - intros Hs. intros. unfold upsert_texts, catch. rewrite Hs. simpl.
    rewrite orb_true_r. reflexivity.
  - intros chunk_size Hle Hne. now apply chunk_text_small_is_trimmed with n.
  - vm_compute. reflexivity.
Qed.

(** C6, the claim as stated fails: a text with a blank at either end is
    one chunk, but not the trimmed text. *)
Lemma small_text_is_not_trimmed :
  chunks_of_text (lit " a ") = Returned [lit " a "]
  /\ chunk_large_text (lit " a ") 40000 = Returned [lit " a "]
  /\ map vec_metadata
       (stored
          (fst (upsert_texts (Ref.clock_at 1700000000) Ref.md5_of_a
                  (Returned tt) Ref.embed_all Ref.upsert_ok (lit " a ")
                  (Some (lit "f.txt")) (Some (lit "txt")) empty_world)))
     = [[(lit "filename", PyStr (lit "f.txt"));
         (lit "file_type", PyStr (lit "txt"));
         (lit "text", PyStr (lit " a "));
         (lit "created_at", PyInt 1700000000);
         (lit "chunk_index", PyInt 0);
         (lit "total_chunks", PyInt 1)]]
  /\ strip (lit " a ") = lit "a"
  /\ lit " a " <> strip (lit " a ").
Proof.
  repeat split; try (vm_compute; reflexivity). vm_compute. discriminate.
Qed.

(** An instance: three bytes, far below the threshold. *)
Lemma small_text_is_one_chunk_witness :
  utf8_len (lit " a ") = Some 3
  /\ chunks_of_text (lit " a ") = Returned [lit " a "].
Proof.
  split; [reflexivity|].
  apply (@small_text_is_one_chunk (lit " a ") 3); [reflexivity|].
  vm_compute. discriminate.
Defined.

(* ===================================================================== *)
(** * Parsing a bulk upload *)
(* ===================================================================== *)

Section ParseFacts.

Variable json_loads : pystr -> outcome pyval.

Local Abbreviation passes := (Spec.passes json_loads).
Local Abbreviation decoded := (Spec.decoded json_loads).

Lemma parse_lines_pass lines :
  Forall passes lines ->
  forall line_num acc,
    parse_lines json_loads line_num lines acc
    = Returned (acc ++ decoded lines).
Proof.
  induction 1 as [|line rest Hline _ IH]; intros line_num acc; simpl.
  - now rewrite app_nil_r.
  - unfold Spec.passes, blank in *.
    destruct (negb (nonempty (strip line))) eqn:B.
    + apply IH.
    + destruct Hline as [Hb|[v Hv]]; [discriminate|].
      rewrite Hv, IH. simpl. now rewrite <- app_assoc.
Qed.

Lemma parse_lines_first_error pre line post msg :
  Forall passes pre ->
  blank line = false ->
  json_loads (strip line) = Raised (Exc JSONDecodeError msg) ->
  forall line_num acc,
    parse_lines json_loads line_num (pre ++ line :: post) acc
    = Raised (HTTPException 400
                (lit "Invalid JSON on line "
                 ++ dec (line_num + List.length pre) ++ lit ": " ++ msg)).
Proof.
  intros Hpre Hb Hl.
  induction Hpre as [|l rest Hline _ IH]; intros line_num acc; simpl.
  - unfold blank in Hb. rewrite Hb, Hl. simpl. now rewrite Nat.add_0_r.
  - replace (line_num + S (List.length rest))
      with (S line_num + List.length rest) by lia.
    unfold Spec.passes, blank in Hline.
    destruct (negb (nonempty (strip l))) eqn:B.
    + apply IH.
    + destruct Hline as [Hx|[v Hv]]; [discriminate|].
      rewrite Hv. apply IH.
Qed.

Variable repr_container : pyval -> pystr.
Variable urlparse_netloc : pyval -> outcome pystr.
Variable clock : nat -> Z.
Variable md5_hexdigest : pystr -> pystr.
Variable embed_texts : list pystr -> outcome (list (list pyfloat)).
Variable index_upsert : list vector -> outcome unit.

(** C5 (as amended).  For a bulk upload that decodes as UTF-8: when some
    line that is not blank is not JSON, the whole file is rejected with an
    error that names the 1-based number of the first such line (counted in
    the trimmed content), and no object is processed, whatever the other
    lines are; when every line passes, the objects of all lines that are
    not blank are returned in order, and the file is rejected when there
    is none.  Only later, when the parsed objects are processed, does a
    failure stay with its item: a parsed value the extraction of the text
    raises on (a JSON value that is not an object) is counted as failed,
    and so is an object no text can be taken from.  The extraction
    returns for every object, and when the text it returns is blank the
    object is counted as failed, nothing is collected for it, and the
    loop goes on with the objects that follow. *)
Theorem parse_jsonl_file_all_or_nothing (file_content : list N)
  (content : pystr) :
  utf8_decode file_content = Some content ->
  (forall pre line post msg,
      split (strip content) nl = pre ++ line :: post ->
      Forall passes pre ->
      blank line = false ->
      json_loads (strip line) = Raised (Exc JSONDecodeError msg) ->
      parse_jsonl_file json_loads file_content
      = Raised (HTTPException 500
                  (lit "Failed to parse JSONL file: 400: "
                   ++ lit "Invalid JSON on line "
                   ++ dec (S (List.length pre)) ++ lit ": " ++ msg))
      /\ forall filename w,
          process_jsonl_file json_loads repr_container urlparse_netloc clock
            md5_hexdigest embed_texts index_upsert file_content filename w
          = (w, Raised (HTTPException 500
                          (lit "Failed to parse JSONL file: 400: "
                           ++ lit "Invalid JSON on line "
                           ++ dec (S (List.length pre)) ++ lit ": " ++ msg))))
  /\ (Forall passes (split (strip content) nl) ->
      decoded (split (strip content) nl) <> [] ->
      parse_jsonl_file json_loads file_content
      = Returned (decoded (split (strip content) nl)))
  /\ (Forall passes (split (strip content) nl) ->
      decoded (split (strip content) nl) = [] ->
      parse_jsonl_file json_loads file_content
      = Raised (HTTPException 500
                  (lit "Failed to parse JSONL file: 400: "
                   ++ lit "No valid JSON objects found in file")))
  /\ (forall filename batch_start p obj_index json_obj e w,
        extract_text_content repr_container json_obj = Raised e ->
        add_object repr_container urlparse_netloc clock md5_hexdigest
          filename batch_start p (obj_index, json_obj) w
        = (w, {| collected := collected p; failed := S (failed p);
                 chunks_seen := chunks_seen p |}))
  /\ (forall filename batch_start p obj_index d rest w,
        exists text_content,
          extract_text_content repr_container (PyDict d)
          = Returned text_content
          /\ (strip text_content = [] ->
              add_object repr_container urlparse_netloc clock md5_hexdigest
                filename batch_start p (obj_index, PyDict d) w
              = (w, {| collected := collected p; failed := S (failed p);
                       chunks_seen := chunks_seen p |})
              /\ add_objects repr_container urlparse_netloc clock
                   md5_hexdigest filename batch_start p
                   ((obj_index, PyDict d) :: rest) w
                 = add_objects repr_container urlparse_netloc clock
                     md5_hexdigest filename batch_start
                     {| collected := collected p; failed := S (failed p);
                        chunks_seen := chunks_seen p |}
                     rest w)).
Proof.
  intros Hdec. split; [|split; [|split; [|split]]].
  - intros pre line post msg Hsplit Hpre Hb Hl.
    assert (P : parse_jsonl_file json_loads file_content
                = Raised (HTTPException 500
                            (lit "Failed to parse JSONL file: 400: "
                             ++ lit "Invalid JSON on line "
                             ++ dec (S (List.length pre)) ++ lit ": " ++ msg))).
    { unfold parse_jsonl_file. rewrite Hdec. simpl. rewrite Hsplit.
      rewrite (@parse_lines_first_error pre line post msg Hpre Hb Hl).
      reflexivity. }
    split; [exact P|]. intros filename w.
    unfold process_jsonl_file. now rewrite P.
  - intros Hall Hne. unfold parse_jsonl_file. rewrite Hdec. simpl.
    rewrite (@parse_lines_pass _ Hall). simpl.
    destruct (decoded (split (strip content) nl)); [contradiction|].
    reflexivity.
  - intros Hall He. unfold parse_jsonl_file. rewrite Hdec. simpl.
    rewrite (@parse_lines_pass _ Hall). simpl. rewrite He. reflexivity.
  - intros filename batch_start p obj_index json_obj e w He.
    unfold add_object. now rewrite He.
  - intros filename batch_start p obj_index d rest w.
    assert (T : exists text_content,
               extract_text_content repr_container (PyDict d)
               = Returned text_content).
    { unfold extract_text_content.
      destruct (first_text_field d text_fields); eauto. }
    destruct T as [text_content T]. exists text_content.
    split; [exact T|]. intros Hblank.
    assert (A : add_object repr_container urlparse_netloc clock
                  md5_hexdigest filename batch_start p (obj_index, PyDict d)
                  w
                = (w, {| collected := collected p; failed := S (failed p);
                         chunks_seen := chunks_seen p |})).
    { unfold add_object. now rewrite T, Hblank. }
    split; [exact A|]. cbn [add_objects]. now rewrite A.
Qed.

End ParseFacts.

(** C5, the claim as stated fails: the first line of the upload is valid,
    the second is not, and the whole file is rejected; nothing reaches
    the index. *)
Lemma bad_line_rejects_the_batch :
  Ref.json_loads (Ref.json_object1 (lit "text") (lit "a"))
  = Returned (PyDict [(lit "text", PyStr (lit "a"))])
  /\ parse_jsonl_file Ref.json_loads upload_with_bad_line
     = Raised (HTTPException 500
                 (lit "Failed to parse JSONL file: 400: Invalid JSON on line 2: "
                  ++ Ref.json_error))
  /\ process_jsonl_file Ref.json_loads Ref.repr_x Ref.netloc_example
       (Ref.clock_at 1700000000) Ref.md5_of_a Ref.embed_all Ref.upsert_ok
       upload_with_bad_line (lit "f.jsonl") empty_world
     = (empty_world,
        Raised (HTTPException 500
                  (lit "Failed to parse JSONL file: 400: Invalid JSON on line 2: "
                   ++ Ref.json_error))).
Proof.
  repeat split; vm_compute; reflexivity.
Qed.

(** An instance: the two-line upload, rejected for its second line. *)
Lemma parse_jsonl_file_all_or_nothing_witness :
  parse_jsonl_file Ref.json_loads upload_with_bad_line
  = Raised (HTTPException 500
              (lit "Failed to parse JSONL file: 400: "
               ++ lit "Invalid JSON on line "
               ++ dec 2 ++ lit ": " ++ Ref.json_error)).
Proof.
  pose proof (@parse_jsonl_file_all_or_nothing Ref.json_loads Ref.repr_x
                Ref.netloc_example (Ref.clock_at 1700000000) Ref.md5_of_a
                Ref.embed_all Ref.upsert_ok upload_with_bad_line
                upload_with_bad_line eq_refl) as [H _].
  apply (H [Ref.json_object1 (lit "text") (lit "a")] (lit "oops") []
           Ref.json_error).
  - vm_compute. reflexivity.
  - constructor; [|constructor]. right. eexists. vm_compute. reflexivity.
  - reflexivity.
  - vm_compute. reflexivity.
Defined.

(** Three parsed objects, the second with a blank text: it is counted as
    failed, and the objects before and after it are collected. *)
Example object_without_text_is_counted_failed :
  let p :=
    snd (add_objects Ref.repr_x Ref.netloc_example (Ref.clock_at 1700000000)
           Ref.md5_of_a (lit "f.jsonl") 0
           {| collected := empty_batch; failed := 0; chunks_seen := 0 |}
           [(0, PyDict [(lit "text", PyStr (lit "a"))]);
            (1, PyDict [(lit "text", PyStr (lit " "))]);
            (2, PyDict [(lit "text", PyStr (lit "b"))])]
           empty_world) in
  failed p = 1 /\ batch_texts (collected p) = [lit "a"; lit "b"].
Proof. vm_compute. split; reflexivity. Qed.

(* ===================================================================== *)
(** * Chunks and the byte bound *)
(* ===================================================================== *)

Module ChunkerFacts.

Lemma utf8_len_ascii s : is_ascii s -> utf8_len s = Some (List.length s).
Proof.
  induction 1 as [|c s Hc _ IH]; [reflexivity|].
  simpl. unfold utf8_width. apply N.ltb_lt in Hc. now rewrite Hc, IH.
Qed.

Lemma is_ascii_firstn n s : is_ascii s -> is_ascii (firstn n s).
Proof. apply Forall_firstn. Qed.

(** A text in which the separator does not occur is one piece. *)
Lemma split_go_without sep s :
  forall cur, contains s sep = false -> split_go sep s 0 cur = [rev cur ++ s].
Proof.
  induction s as [|c s IH]; intros cur H.
  - simpl. now rewrite app_nil_r.
  - cbn [contains] in H. apply orb_false_iff in H as [Hs Hc].
    cbn [split_go]. rewrite Hs, IH by assumption.
    simpl. now rewrite <- app_assoc.
Qed.

Lemma split_without s sep : contains s sep = false -> split s sep = [s].
Proof. intros H. unfold split. now rewrite split_go_without. Qed.

Lemma startswith_incl pre :
  forall s, startswith s pre = true -> forall c, In c pre -> In c s.
Proof.
  induction pre as [|p pre IH]; intros s H c Hc; [contradiction|].
  destruct s as [|x s]; [discriminate|].
  cbn [startswith] in H. apply andb_true_iff in H as [Hp Hs].
  apply N.eqb_eq in Hp. subst x.
  destruct Hc as [<-|Hc]; [now left|right; eauto].
Qed.

Lemma contains_incl s sep :
  contains s sep = true -> forall c, In c sep -> In c s.
Proof.
  induction s as [|x s IH]; cbn [contains]; intros H c Hc.
  - rewrite orb_false_r in H. eapply startswith_incl; eassumption.
  - apply orb_true_iff in H as [H|H].
    + eapply startswith_incl; eassumption.
    + right. now apply IH.
Qed.

(** A separator with a whitespace code point does not occur in a text
    without whitespace. *)
Lemma no_whitespace_no_separator s sep c :
  no_whitespace s -> In c sep -> isspace c = true -> contains s sep = false.
Proof.
  intros Hs Hc Hsp. destruct (contains s sep) eqn:E; [|reflexivity].
  pose proof (contains_incl _ _ E c Hc) as Hin.
  unfold no_whitespace in Hs. rewrite Forall_forall in Hs.
  apply Hs in Hin. congruence.
Qed.

Lemma re_split_no_whitespace s :
  no_whitespace s ->
  forall after_punct in_match cur,
    re_split_go s after_punct in_match cur = [rev cur ++ s].
Proof.
  induction 1 as [|x s Hx _ IH]; intros a b cur; simpl.
  - now rewrite app_nil_r.
  - rewrite Hx, IH. simpl. now rewrite <- app_assoc.
Qed.

Section Loop.

Variable split_sentences : pystr -> list pystr.
Variable sentence_sep : pystr.

(** One paragraph that is one sentence, in ASCII and twice as long as the
    bound: the loop emits its first half, and nothing else. *)
Lemma single_sentence_is_cut text max :
  0 < max ->
  is_ascii text ->
  List.length text = 2 * max ->
  split text (nl ++ nl) = [text] ->
  split_sentences text = [text] ->
  chunk_loop split_sentences sentence_sep (Z.of_nat max) text
  = Returned [firstn max text]
  /\ utf8_len (firstn max text) = Some max.
Proof.
  intros Hmax Hascii Hlen Hpar Hsent.
  assert (E : encoded_len text = Returned (2 * max)).
  { unfold encoded_len. now rewrite utf8_len_ascii, Hlen. }
  assert (B : (Z.of_nat max <? Z.of_nat (2 * max))%Z = true)
    by (apply Z.ltb_lt; lia).
  split.
  - unfold chunk_loop. rewrite Hpar. cbn [foldM].
    unfold paragraph_step at 1. cbn [current_chunk chunks app nonempty].
    rewrite E. cbn [bind]. rewrite B, Hsent. cbn [foldM].
    unfold sentence_step at 1. cbn [current_chunk chunks app nonempty].
    rewrite E. cbn [bind]. rewrite B. cbn [bind].
    unfold flush. cbn [current_chunk chunks nonempty]. unfold slice_to.
    replace (0 <=? Z.of_nat max)%Z with true
      by (symmetry; apply Z.leb_le; lia).
    now rewrite Nat2Z.id.
  - rewrite utf8_len_ascii by now apply is_ascii_firstn.
    rewrite length_firstn. f_equal. lia.
Qed.

End Loop.

End ChunkerFacts.

Import ChunkerFacts.

(** The part of the boundary case that holds: a single ASCII sentence of
    [2 * max_bytes] bytes, here one without whitespace, gives one chunk of
    exactly [max_bytes] bytes with either chunker. *)
Lemma ascii_sentence_is_cut_to_max text max :
  0 < max ->
  is_ascii text ->
  List.length text = 2 * max ->
  no_whitespace text ->
  (chunk_large_text text (Z.of_nat max) = Returned [firstn max text]
   /\ _chunk_text text (Z.of_nat max) = Returned [firstn max text])
  /\ utf8_len (firstn max text) = Some max.
Proof.
  intros Hmax Hascii Hlen Hns.
  assert (Hpar : split text (nl ++ nl) = [text]).
  { apply split_without.
    apply (@no_whitespace_no_separator text (nl ++ nl) 10%N Hns);
      [now left|reflexivity]. }
  assert (Hdot : split text (lit ". ") = [text]).
  { apply split_without.
    apply (@no_whitespace_no_separator text (lit ". ") 32%N Hns);
      [right; now left|reflexivity]. }
  destruct (@single_sentence_is_cut (fun p => split p (lit ". ")) (lit ". ")
              text max Hmax Hascii Hlen Hpar Hdot) as [A B].
  destruct (@single_sentence_is_cut re_split_sentences (lit " ") text max
              Hmax Hascii Hlen Hpar) as [C _].
  { unfold re_split_sentences. now rewrite re_split_no_whitespace. }
  split; [split|exact B].
  - unfold chunk_large_text, encoded_len.
    rewrite utf8_len_ascii, Hlen by assumption. cbn [bind].
    replace (Z.of_nat (2 * max) <=? Z.of_nat max)%Z with false
      by (symmetry; apply Z.leb_gt; lia).
    exact A.
  - exact C.
Qed.

Example ascii_sentence_is_cut_to_max_example :
  chunk_large_text (repeat 97%N 8) 4 = Returned [repeat 97%N 4].
Proof.
  apply (@ascii_sentence_is_cut_to_max (repeat 97%N 8) 4); try lia;
    try reflexivity; repeat constructor.
Qed.

(** C1.  Where the chunkers leave the byte bound.  A single sentence of
    [2 * max_bytes] bytes that is not ASCII is cut to [max_bytes] code
    points, not bytes: with [max_bytes = 4] the eight bytes all stay.  A
    paragraph larger than the bound that follows a non-empty buffer
    becomes a chunk as it is.  The separator put between two paragraphs
    is not counted: two paragraphs of five bytes make a chunk of twelve
    under a bound of ten. *)
Theorem chunks_beyond_max_bytes :
  (utf8_len accented_sentence = Some (2 * 4)
   /\ chunk_large_text accented_sentence 4 = Returned [accented_sentence]
   /\ _chunk_text accented_sentence 4 = Returned [accented_sentence])
  /\ (chunk_large_text short_then_long 10
      = Returned [lit "a"; repeat 98%N 20]
      /\ _chunk_text short_then_long 10 = Returned [lit "a"; repeat 98%N 20]
      /\ utf8_len (repeat 98%N 20) = Some 20)
  /\ (chunk_large_text two_paragraphs 10 = Returned [two_paragraphs]
      /\ _chunk_text two_paragraphs 10 = Returned [two_paragraphs]
      /\ utf8_len two_paragraphs = Some 12).
Proof.
  repeat split; vm_compute; reflexivity.
Qed.

(* ===================================================================== *)
(** * The store: batches handed to the index *)
(* ===================================================================== *)

Module StoreFacts.

Lemma firstn_plus_any {A} (a b : nat) (s : list A) :
  firstn (a + b) s = firstn a s ++ firstn b (skipn a s).
Proof.
  revert s. induction a as [|a IH]; intros s; [reflexivity|].
  destruct s as [|x s]; simpl.
  - now rewrite firstn_nil.
  - now rewrite IH.
Qed.

Lemma concat_slices_upto {A} n (s : list A) m :
  List.concat (map (fun i => slice s i (i + n)) (map (fun k => k * n) (seq 0 m)))
  = firstn (m * n) s.
Proof.
  induction m as [|m IH]; [reflexivity|].
  rewrite seq_S, !map_app, concat_app, IH. simpl. rewrite app_nil_r.
  unfold slice. replace (m * n + n - m * n) with n by lia.
  replace (n + m * n) with (m * n + n) by lia.
  now rewrite firstn_plus_any.
Qed.

(** Cutting a list into consecutive slices loses nothing and keeps the
    order. *)
Lemma concat_batches {A} (V : list A) :
  List.concat (batches_of V (range0 (List.length V) 100)) = V.
Proof.
  unfold batches_of, range0. rewrite concat_slices_upto.
  apply firstn_all2.
  apply (@frame_count_bounds (List.length V) 100). lia.
Qed.

Lemma batches_sizes {A} (V : list A) :
  Forall (fun b => 1 <= List.length b <= 100)
         (batches_of V (range0 (List.length V) 100)).
Proof.
  unfold batches_of, range0. rewrite map_map. apply Forall_forall.
  intros b Hb. apply in_map_iff in Hb as (k & <- & Hk).
  apply in_seq in Hk. unfold slice.
  rewrite length_firstn, length_skipn.
  pose proof (@frame_count_bounds (List.length V) 100 ltac:(lia)) as [_ B].
  unfold frame_count in B. lia.
Qed.

Lemma zip4_length ids :
  forall texts (metadatas : list dict) (vectors : list (list pyfloat)),
    List.length texts = List.length ids ->
    List.length metadatas = List.length ids ->
    List.length vectors = List.length ids ->
    List.length (zip4 ids texts metadatas vectors) = List.length ids.
Proof.
  induction ids as [|i ids IH]; intros [|t texts] [|m metadatas] [|v vectors];
    simpl; intros; try lia.
  f_equal. apply IH; lia.
Qed.

Lemma zip4_ids ids :
  forall texts (metadatas : list dict) (vectors : list (list pyfloat)),
    List.length texts = List.length ids ->
    List.length metadatas = List.length ids ->
    List.length vectors = List.length ids ->
    map vec_id (zip4 ids texts metadatas vectors) = ids.
Proof.
  induction ids as [|i ids IH]; intros [|t texts] [|m metadatas] [|v vectors];
    simpl; intros; try lia; try reflexivity.
  f_equal. apply IH; lia.
Qed.

Section Store.

Variable embed_texts : list pystr -> outcome (list (list pyfloat)).
Variable index_upsert : list vector -> outcome unit.

(** The loop over the batches when the index accepts all of them. *)
Lemma send_batches_all (V : list vector) starts :
  Forall (fun i => index_upsert (slice V i (i + 100)) = Returned tt) starts ->
  forall w,
    forM (fun (_ : unit) i => send_batch index_upsert (slice V i (i + 100)))
         tt starts w
    = ({| ticks := ticks w;
          index_log := index_log w ++ batches_of V starts |},
       Returned tt).
Proof.
  induction 1 as [|i rest Hi _ IH]; intros w.
  - simpl. unfold ret. rewrite app_nil_r. now destruct w.
  - cbn [forM]. unfold bindM, send_batch at 1. rewrite Hi.
    rewrite IH. cbn [ticks index_log batches_of map].
    now rewrite <- app_assoc.
Qed.

(** The loop over the batches when the index rejects one: the batches
    before it and the rejected one were handed over, none after it. *)
Lemma send_batches_stop (V : list vector) pre i post e :
  Forall (fun j => index_upsert (slice V j (j + 100)) = Returned tt) pre ->
  index_upsert (slice V i (i + 100)) = Raised e ->
  forall w,
    forM (fun (_ : unit) j => send_batch index_upsert (slice V j (j + 100)))
         tt (pre ++ i :: post) w
    = ({| ticks := ticks w;
          index_log := index_log w ++ batches_of V (pre ++ [i]) |},
       Raised e).
Proof.
  intros Hpre Hi. induction Hpre as [|j rest Hj _ IH]; intros w.
  - cbn [app forM]. unfold bindM, send_batch at 1. now rewrite Hi.
  - cbn [app forM]. unfold bindM, send_batch at 1. rewrite Hj.
    rewrite IH. cbn [ticks index_log batches_of map app].
    now rewrite <- app_assoc.
Qed.

(** The store past its two length checks. *)
Lemma store_upsert_texts_checked ids texts metadatas w :
  List.length ids = List.length texts ->
  metadatas = [] \/ List.length metadatas = List.length texts ->
  store_upsert_texts embed_texts index_upsert ids texts metadatas w
  = match embed_texts texts with
    | Raised e => (w, Raised e)
    | Returned vectors =>
        let V := zip4 ids texts
                   (match metadatas with
                    | [] => repeat [] (List.length texts)
                    | _ => metadatas
                    end) vectors in
        match forM (fun (_ : unit) i =>
                      send_batch index_upsert (slice V i (i + 100)))
                   tt (range0 (List.length V) 100) w with
        | (w', Returned _) => (w', Returned tt)
        | (w', Raised e) => (w', Raised e)
        end
    end.
Proof.
  intros Hlen Hm. unfold store_upsert_texts.
  apply Nat.eqb_eq in Hlen. rewrite Hlen. cbn [negb].
  assert (C : (match metadatas with [] => false | _ => true end
               && negb (List.length metadatas =? List.length texts)) = false).
  { destruct Hm as [->|Hm]; [reflexivity|].
    apply Nat.eqb_eq in Hm. rewrite Hm. apply andb_false_r. }
  rewrite C. unfold bindM, lift.
  destruct (embed_texts texts) as [vectors|e]; reflexivity.
Qed.

End Store.

End StoreFacts.

Import StoreFacts.

(** X1.  [PineconeVectorStore.upsert_texts] when nothing fails: every
    position of [(ids, texts, metadatas, vectors)] is handed to the index
    exactly once, in order, in batches of at least one and at most a
    hundred vectors; the call returns and reads no clock. *)
Theorem store_upsert_texts_sends_everything
  (embed_texts : list pystr -> outcome (list (list pyfloat)))
  (index_upsert : list vector -> outcome unit)
  (ids texts : list pystr) (metadatas : list dict)
  (vectors : list (list pyfloat)) (w : world) :
  List.length ids = List.length texts ->
  metadatas = [] \/ List.length metadatas = List.length texts ->
  embed_texts texts = Returned vectors ->
  (forall batch, index_upsert batch = Returned tt) ->
  exists batches,
    store_upsert_texts embed_texts index_upsert ids texts metadatas w
    = ({| ticks := ticks w; index_log := index_log w ++ batches |},
       Returned tt)
    /\ List.concat batches
       = zip4 ids texts
           (match metadatas with
            | [] => repeat [] (List.length texts)
            | _ => metadatas
            end) vectors
    /\ Forall (fun batch => 1 <= List.length batch <= 100) batches.
Proof.
  intros Hlen Hm He Hok.
  rewrite store_upsert_texts_checked by assumption. rewrite He. cbv zeta.
  set (V := zip4 ids texts _ vectors).
  exists (batches_of V (range0 (List.length V) 100)).
  rewrite send_batches_all
    by (apply Forall_forall; intros i _; apply Hok).
  split; [reflexivity|]. split; [apply concat_batches|apply batches_sizes].
Qed.

(** An instance: three texts without metadata. *)
Lemma store_upsert_texts_sends_everything_witness :
  exists batches,
    store_upsert_texts Ref.embed_all Ref.upsert_ok
      [lit "a"; lit "b"; lit "c"] [lit "x"; lit "y"; lit "z"] [] empty_world
    = ({| ticks := 0; index_log := batches |}, Returned tt)
    /\ List.concat batches
       = zip4 [lit "a"; lit "b"; lit "c"] [lit "x"; lit "y"; lit "z"]
           (repeat [] 3) [[]; []; []]
    /\ Forall (fun batch => 1 <= List.length batch <= 100) batches.
Proof.
  apply (@store_upsert_texts_sends_everything Ref.embed_all Ref.upsert_ok
           [lit "a"; lit "b"; lit "c"] [lit "x"; lit "y"; lit "z"] []
           [[]; []; []] empty_world);
    [reflexivity|left; reflexivity|reflexivity|reflexivity].
Defined.

(** X2.  [PineconeVectorStore.upsert_texts] when something fails.  Lists
    of different lengths are refused before the embedding service or the
    index is called.  When the embedding service raises, nothing is
    handed to the index.  When the index raises on a batch, the batches
    before it and that batch have been handed over and none of the later
    ones is. *)
Theorem store_upsert_texts_stops_at_first_failure
  (embed_texts : list pystr -> outcome (list (list pyfloat)))
  (index_upsert : list vector -> outcome unit)
  (ids texts : list pystr) (metadatas : list dict) (w : world) :
  (List.length ids <> List.length texts ->
   store_upsert_texts embed_texts index_upsert ids texts metadatas w
   = (w, Raised (Exc ValueError
                   (lit "ids and texts must be the same length."))))
  /\ (List.length ids = List.length texts ->
      metadatas <> [] ->
      List.length metadatas <> List.length texts ->
      store_upsert_texts embed_texts index_upsert ids texts metadatas w
      = (w, Raised (Exc ValueError
                      (lit "metadatas, if provided, must match texts length."))))
  /\ (List.length ids = List.length texts ->
      metadatas = [] \/ List.length metadatas = List.length texts ->
      (forall e,
          embed_texts texts = Raised e ->
          exists e',
            store_upsert_texts embed_texts index_upsert ids texts metadatas w
            = (w, Raised e'))
      /\ (forall vectors pre i post e,
            embed_texts texts = Returned vectors ->
            let V := zip4 ids texts
                       (match metadatas with
                        | [] => repeat [] (List.length texts)
                        | _ => metadatas
                        end) vectors in
            range0 (List.length V) 100 = pre ++ i :: post ->
            (forall j, In j pre ->
                       index_upsert (slice V j (j + 100)) = Returned tt) ->
            index_upsert (slice V i (i + 100)) = Raised e ->
            exists e',
              store_upsert_texts embed_texts index_upsert ids texts metadatas w
              = ({| ticks := ticks w;
                    index_log :=
                      index_log w
                      ++ map (fun j => slice V j (j + 100)) (pre ++ [i]) |},
                 Raised e'))).
Proof.
  split; [|split].
  - intros H. unfold store_upsert_texts.
    apply Nat.eqb_neq in H. now rewrite H.
  - intros Hlen Hne Hm. unfold store_upsert_texts.
    apply Nat.eqb_eq in Hlen. rewrite Hlen. cbn [negb].
    apply Nat.eqb_neq in Hm. rewrite Hm.
    destruct metadatas; [contradiction|reflexivity].
  - intros Hlen Hm. split.
    + intros e He. exists e.
      rewrite store_upsert_texts_checked by assumption. now rewrite He.
    + intros vectors pre i post e He V Hstarts Hpre Hi. exists e.
      rewrite store_upsert_texts_checked by assumption. rewrite He.
      cbv zeta. fold V. rewrite Hstarts.
      rewrite (@send_batches_stop index_upsert V pre i post e);
        [reflexivity| |exact Hi].
      apply Forall_forall. exact Hpre.
Qed.

(** An instance: the index is down when the only batch arrives. *)
Lemma store_upsert_texts_stops_at_first_failure_witness :
  exists e',
    store_upsert_texts Ref.embed_all
      (fun _ => Raised (Exc ServiceError (lit "down")))
      [lit "a"] [lit "x"] [] empty_world
    = ({| ticks := 0;
          index_log := [[upsert_vector (lit "a") (lit "x") [] []]] |},
       Raised e').
Proof.
  refine (proj2 (proj2 (proj2
            (@store_upsert_texts_stops_at_first_failure Ref.embed_all
               (fun _ => Raised (Exc ServiceError (lit "down")))
               [lit "a"] [lit "x"] [] empty_world))
            eq_refl (or_introl eq_refl))
            [[]] [] 0 [] (Exc ServiceError (lit "down"))
            eq_refl eq_refl _ eq_refl).
  intros j [].
Defined.

(* ===================================================================== *)
(** * The statistics of a bulk upload *)
(* ===================================================================== *)

Module StatsFacts.

Section Collect.

Variable repr_container : pyval -> pystr.
Variable urlparse_netloc : pyval -> outcome pystr.
Variable clock : nat -> Z.
Variable md5_hexdigest : pystr -> pystr.

Local Abbreviation add_chunk' :=
  (add_chunk repr_container urlparse_netloc clock md5_hexdigest).
Local Abbreviation add_object' :=
  (add_object repr_container urlparse_netloc clock md5_hexdigest).
Local Abbreviation add_objects' :=
  (add_objects repr_container urlparse_netloc clock md5_hexdigest).

Lemma add_chunk_counts json_obj filename position total b ic w b' :
  aligned b ->
  snd (add_chunk' json_obj filename position total b ic w) = Returned b' ->
  aligned b' /\ List.length (batch_ids b') = S (List.length (batch_ids b)).
Proof.
  intros [H1 H2]. destruct ic as [chunk_index chunk_text].
  unfold add_chunk, bindM, lift, time_now, ret.
  destruct (chunk_hash md5_hexdigest chunk_text) as [hash|e];
    cbn [snd]; [|discriminate].
  intros E. injection E as <-. unfold aligned.
  cbn [batch_ids batch_texts batch_metadatas].
  rewrite !length_app. cbn [List.length]. lia.
Qed.

(** The loop over the chunks of an object appends to the three lists in
    step, one entry for each chunk it gets through. *)
Lemma forM_keep_counts json_obj filename position total ics :
  forall b w,
    aligned b ->
    let b' := fst (snd (forM_keep
                          (add_chunk' json_obj filename position total)
                          b ics w)) in
    aligned b'
    /\ List.length (batch_ids b) <= List.length (batch_ids b')
    /\ List.length (batch_ids b')
       <= List.length (batch_ids b) + List.length ics.
Proof.
  induction ics as [|ic rest IH]; intros b w Hb; cbn [forM_keep].
  - cbn [fst snd List.length]. split; [assumption|lia].
  - pose proof (@add_chunk_counts json_obj filename position total b ic w)
      as H.
    destruct (add_chunk' json_obj filename position total b ic w)
      as [w1 [b1|e]]; cbn [snd] in H.
    + destruct (H b1 Hb eq_refl) as [A1 L1].
      specialize (IH b1 w1 A1). cbv zeta in IH. destruct IH as (A & B & C).
      cbv zeta. cbn [List.length]. split; [exact A|lia].
    + cbn [fst snd List.length]. split; [assumption|lia].
Qed.

(** What one object does to the progress of its batch. *)
Lemma add_object_counts filename batch_start p io w :
  aligned (collected p) ->
  let p' := snd (add_object' filename batch_start p io w) in
  aligned (collected p')
  /\ List.length (batch_ids (collected p')) + chunks_seen p
     <= List.length (batch_ids (collected p)) + chunks_seen p'
  /\ List.length (batch_ids (collected p))
     <= List.length (batch_ids (collected p'))
  /\ failed p <= failed p' <= S (failed p).
Proof.
  intros Hp. destruct io as [obj_index json_obj]. unfold add_object.
  destruct (extract_text_content repr_container json_obj) as [text|e];
    [|cbn; auto with arith].
  destruct (negb (nonempty (strip text))); [cbn; auto with arith|].
  destruct (chunk_large_text text 40000) as [text_chunks|e];
    [|cbn; auto with arith].
  destruct json_obj; try (cbn; split; [assumption|lia]).
  cbn [collected failed chunks_seen].
  match goal with
  | |- context [forM_keep ?f ?b ?l w] =>
      pose proof (@forM_keep_counts d filename (batch_start + obj_index)
                    (List.length text_chunks) l b w Hp) as H;
        destruct (forM_keep f b l w) as [w' [b' err]]
  end.
  cbv zeta in H. cbn [fst snd] in H. destruct H as (A & B & C).
  unfold enumerate in C. rewrite length_combine, length_seq, Nat.min_id in C.
  destruct err; cbn; (split; [assumption|lia]).
Qed.

Lemma add_objects_counts filename batch_start objs :
  forall p w,
    aligned (collected p) ->
    let p' := snd (add_objects' filename batch_start p objs w) in
    aligned (collected p')
    /\ List.length (batch_ids (collected p')) + chunks_seen p
       <= List.length (batch_ids (collected p)) + chunks_seen p'
    /\ List.length (batch_ids (collected p))
       <= List.length (batch_ids (collected p'))
    /\ failed p <= failed p' <= failed p + List.length objs.
Proof.
  induction objs as [|io rest IH]; intros p w Hp; cbn [add_objects].
  - cbn. split; [assumption|lia].
  - pose proof (@add_object_counts filename batch_start p io w Hp) as H.
    destruct (add_object' filename batch_start p io w) as [w1 p1].
    cbv zeta in H. cbn [snd] in H. destruct H as (A & B & C & D).
    specialize (IH p1 w1 A). cbv zeta in IH.
    destruct IH as (A' & B' & C' & D').
    cbv zeta. cbn [List.length]. split; [assumption|lia].
Qed.

End Collect.

Lemma slice_to_min {A} (l : list A) i n :
  slice l i (Nat.min (i + n) (List.length l)) = slice l i (i + n).
Proof.
  unfold slice.
  destruct (le_lt_dec (i + n) (List.length l)) as [H|H].
  - now rewrite Nat.min_l by lia.
  - rewrite Nat.min_r by lia.
    rewrite !firstn_all2; auto; rewrite length_skipn; lia.
Qed.


Lemma length_slices {A} (l : list A) n :
  0 < n ->
  List.length
    (List.concat (map (fun i => slice l i (i + n)) (range0 (List.length l) n)))
  = List.length l.
Proof.
  intros Hn. unfold range0. rewrite concat_slices_upto.
  rewrite firstn_all2; [reflexivity|].
  now apply (@frame_count_bounds (List.length l) n).
Qed.

Section Batches.

Variable repr_container : pyval -> pystr.
Variable urlparse_netloc : pyval -> outcome pystr.
Variable clock : nat -> Z.
Variable md5_hexdigest : pystr -> pystr.
Variable embed_texts : list pystr -> outcome (list (list pyfloat)).
Variable index_upsert : list vector -> outcome unit.

Local Abbreviation process_batch' :=
  (process_batch repr_container urlparse_netloc clock md5_hexdigest
     embed_texts index_upsert).
Local Abbreviation process_batches' :=
  (process_batches repr_container urlparse_netloc clock md5_hexdigest
     embed_texts index_upsert).

(** The objects of the batch that starts at [batch_start]. *)
Local Abbreviation objects_at json_objects batch_size batch_start :=
  (slice (A := pyval) json_objects batch_start (batch_start + batch_size)).

Lemma process_batch_counts json_objects filename batch_size st batch_start w :
  total_objects st = List.length json_objects ->
  let st' := snd (process_batch' json_objects filename batch_size st
                    batch_start w) in
  total_objects st' = total_objects st
  /\ successful_stores st' + total_chunks st
     <= successful_stores st + total_chunks st'
  /\ successful_stores st' + failed_stores st' + total_chunks st
     <= successful_stores st + failed_stores st + total_chunks st'
        + List.length (objects_at json_objects batch_size batch_start).
Proof.
  intros Htot. unfold process_batch. rewrite Htot, slice_to_min.
  match goal with
  | |- context [add_objects _ _ _ _ ?f ?s ?p ?objs w] =>
      pose proof (@add_objects_counts repr_container urlparse_netloc clock
                    md5_hexdigest f s objs p w) as H;
        destruct (add_objects repr_container urlparse_netloc clock
                    md5_hexdigest f s p objs w) as [w1 p1]
  end.
  cbv zeta in H. cbn [snd collected failed chunks_seen empty_batch batch_ids
                        batch_texts batch_metadatas] in H.
  destruct H as (A & B & C & D); [split; reflexivity|].
  unfold enumerate in D. rewrite length_combine, length_seq, Nat.min_id in D.
  cbn [List.length] in *.
  destruct (batch_ids (collected p1)) as [|i ids] eqn:E.
  - cbv zeta. cbn [snd total_objects successful_stores failed_stores
                     total_chunks]. lia.
  - destruct (store_upsert_texts _ _ _ _ _ w1) as [w2 [[]|e]];
      cbv zeta;
      cbn [snd total_objects successful_stores failed_stores total_chunks
             List.length] in *; lia.
Qed.

Lemma process_batches_counts json_objects filename batch_size starts :
  forall st w,
    total_objects st = List.length json_objects ->
    let st' := snd (process_batches' json_objects filename batch_size st
                      starts w) in
    total_objects st' = total_objects st
    /\ successful_stores st' + total_chunks st
       <= successful_stores st + total_chunks st'
    /\ successful_stores st' + failed_stores st' + total_chunks st
       <= successful_stores st + failed_stores st + total_chunks st'
          + List.length
              (List.concat
                 (map (fun s => objects_at json_objects batch_size s) starts)).
Proof.
  induction starts as [|s rest IH]; intros st w Htot; cbn [process_batches].
  - cbn. lia.
  - pose proof (@process_batch_counts json_objects filename batch_size st s w
                  Htot) as H.
    destruct (process_batch' json_objects filename batch_size st s w)
      as [w1 st1].
    cbv zeta in H. cbn [snd] in H. destruct H as (A & B & C).
    specialize (IH st1 w1 ltac:(congruence)). cbv zeta in IH.
    destruct IH as (A' & B' & C').
    cbv zeta. cbn [map List.concat]. rewrite length_app. lia.
Qed.

End Batches.

End StatsFacts.

Import StatsFacts.

(** X3.  The statistics [process_jsonl_batch] returns: [total_objects] is
    the number of objects it was given; no more vectors are counted as
    stored than chunks were produced; the stored and the failed together
    are at most the objects plus the chunks (an object is counted as
    failed at most once, a chunk at most once). *)
Theorem jsonl_statistics_bounds
  (repr_container : pyval -> pystr)
  (urlparse_netloc : pyval -> outcome pystr)
  (clock : nat -> Z) (md5_hexdigest : pystr -> pystr)
  (embed_texts : list pystr -> outcome (list (list pyfloat)))
  (index_upsert : list vector -> outcome unit)
  (json_objects : list pyval) (filename : pystr) (batch_size : nat)
  (w : world) :
  0 < batch_size ->
  let st := snd (process_jsonl_batch repr_container urlparse_netloc clock
                   md5_hexdigest embed_texts index_upsert json_objects
                   filename batch_size w) in
  total_objects st = List.length json_objects
  /\ successful_stores st <= total_chunks st
  /\ successful_stores st + failed_stores st
     <= total_objects st + total_chunks st.
Proof.
  intros Hbs. unfold process_jsonl_batch.
  match goal with
  | |- context [process_batches _ _ _ _ _ _ _ _ _ ?st0 ?starts w] =>
      pose proof (@process_batches_counts repr_container urlparse_netloc
                    clock md5_hexdigest embed_texts index_upsert json_objects
                    filename batch_size starts st0 w eq_refl) as H
  end.
  cbv zeta in H.
  cbn [total_objects successful_stores failed_stores total_chunks] in H.
  destruct H as (A & B & C). rewrite length_slices in C by assumption.
  cbv zeta. rewrite A. lia.
Qed.

(** An instance: one object, batches of fifty. *)
Lemma jsonl_statistics_bounds_witness :
  let st := snd (process_jsonl_batch Ref.repr_x Ref.netloc_example
                   (Ref.clock_at 1700000000) Ref.md5_of_a Ref.embed_all
                   Ref.upsert_ok [Ref.sample_object] (lit "f.jsonl") 50
                   empty_world) in
  total_objects st = 1
  /\ successful_stores st <= total_chunks st
  /\ successful_stores st + failed_stores st
     <= total_objects st + total_chunks st.
Proof.
  apply (@jsonl_statistics_bounds Ref.repr_x Ref.netloc_example
           (Ref.clock_at 1700000000) Ref.md5_of_a Ref.embed_all
           Ref.upsert_ok [Ref.sample_object] (lit "f.jsonl") 50 empty_world).
  lia.
Defined.

Module ReliableFacts.

Section Reliable.

Variable repr_container : pyval -> pystr.
Variable urlparse_netloc : pyval -> outcome pystr.
Variable clock : nat -> Z.
Variable md5_hexdigest : pystr -> pystr.
Variable embed_texts : list pystr -> outcome (list (list pyfloat)).
Variable index_upsert : list vector -> outcome unit.

Hypothesis embed_all :
  forall texts, exists vectors,
    embed_texts texts = Returned vectors
    /\ List.length vectors = List.length texts.
Hypothesis upsert_all : forall batch, index_upsert batch = Returned tt.

Lemma store_upsert_texts_reliable ids texts metadatas w :
  metadatas <> [] ->
  List.length texts = List.length ids ->
  List.length metadatas = List.length ids ->
  exists w',
    store_upsert_texts embed_texts index_upsert ids texts metadatas w
    = (w', Returned tt)
    /\ List.length (stored w') = List.length (stored w) + List.length ids
    /\ map vec_id (stored w') = map vec_id (stored w) ++ ids.
Proof.
  intros Hne Ht Hm.
  rewrite store_upsert_texts_checked by (try right; congruence).
  destruct (embed_all texts) as (vectors & -> & Hv). cbv zeta.
  destruct metadatas as [|m0 ms] eqn:E; [contradiction|]. rewrite <- E in *.
  set (V := zip4 ids texts metadatas vectors).
  rewrite send_batches_all
    by (apply Forall_forall; intros i _; apply upsert_all).
  eexists. split; [reflexivity|].
  unfold stored. cbn [index_log]. rewrite concat_app, concat_batches.
  rewrite length_app, map_app. unfold V.
  rewrite zip4_length, zip4_ids by congruence. auto.
Qed.

Local Abbreviation process_batch' :=
  (process_batch repr_container urlparse_netloc clock md5_hexdigest
     embed_texts index_upsert).
Local Abbreviation process_batches' :=
  (process_batches repr_container urlparse_netloc clock md5_hexdigest
     embed_texts index_upsert).

Lemma process_batch_reliable json_objects filename batch_size st batch_start w :
  total_objects st = List.length json_objects ->
  let r := process_batch' json_objects filename batch_size st batch_start w in
  total_objects (snd r) = total_objects st
  /\ List.length (stored (fst r)) + successful_stores st
     = List.length (stored w) + successful_stores (snd r)
  /\ failed_stores (snd r)
     <= failed_stores st
        + List.length (slice json_objects batch_start
                         (batch_start + batch_size)).
Proof.
  intros Htot. unfold process_batch. rewrite Htot, slice_to_min.
  match goal with
  | |- context [add_objects _ _ _ _ ?f ?s ?p ?objs w] =>
      pose proof (@add_objects_counts repr_container urlparse_netloc clock
                    md5_hexdigest f s objs p w) as H;
        pose proof (@add_objects_ok repr_container urlparse_netloc clock
                      md5_hexdigest f s objs p w) as L;
        destruct (add_objects repr_container urlparse_netloc clock
                    md5_hexdigest f s p objs w) as [w1 p1]
  end.
  cbv zeta in H. cbn [fst snd collected failed chunks_seen empty_batch
                        batch_ids batch_texts batch_metadatas] in H, L.
  destruct H as ([A1 A2] & B & C & D); [split; reflexivity|].
  destruct L as [L _]; [constructor|].
  unfold enumerate in D. rewrite length_combine, length_seq, Nat.min_id in D.
  assert (S1 : stored w1 = stored w) by (unfold stored; now rewrite L).
  destruct (batch_ids (collected p1)) as [|i ids] eqn:E.
  - cbv zeta. cbn [fst snd total_objects successful_stores failed_stores
                     total_chunks]. rewrite S1. lia.
  - rewrite <- E in *.
    destruct (@store_upsert_texts_reliable (batch_ids (collected p1))
                (batch_texts (collected p1)) (batch_metadatas (collected p1))
                w1) as (w2 & -> & Hlen & _); try assumption.
    { intros N. rewrite N, E in A2. discriminate. }
    cbv zeta. cbn [fst snd total_objects successful_stores failed_stores
                     total_chunks]. rewrite S1 in Hlen. lia.
Qed.

Lemma process_batches_reliable json_objects filename batch_size starts :
  forall st w,
    total_objects st = List.length json_objects ->
    let r := process_batches' json_objects filename batch_size st starts w in
    total_objects (snd r) = total_objects st
    /\ List.length (stored (fst r)) + successful_stores st
       = List.length (stored w) + successful_stores (snd r)
    /\ failed_stores (snd r)
       <= failed_stores st
          + List.length
              (List.concat
                 (map (fun s => slice json_objects s (s + batch_size))
                      starts)).
Proof.
  induction starts as [|s rest IH]; intros st w Htot; cbn [process_batches].
  - cbn. lia.
  - pose proof (@process_batch_reliable json_objects filename batch_size st s
                  w Htot) as H.
    destruct (process_batch' json_objects filename batch_size st s w)
      as [w1 st1].
    cbv zeta in H. cbn [fst snd] in H. destruct H as (A & B & C).
    specialize (IH st1 w1 ltac:(congruence)). cbv zeta in IH.
    destruct IH as (A' & B' & C').
    cbv zeta. cbn [map List.concat]. rewrite length_app. lia.
Qed.

End Reliable.

End ReliableFacts.

Import ReliableFacts.

(** X4.  When the embedding service answers with one vector for each text
    and the index accepts every batch, the statistics of
    [process_jsonl_batch] are exact: [successful_stores] is the number of
    vectors handed to the index during the call, and [failed_stores]
    counts objects only, so it is at most [total_objects]. *)
Theorem jsonl_statistics_with_reliable_services
  (repr_container : pyval -> pystr)
  (urlparse_netloc : pyval -> outcome pystr)
  (clock : nat -> Z) (md5_hexdigest : pystr -> pystr)
  (embed_texts : list pystr -> outcome (list (list pyfloat)))
  (index_upsert : list vector -> outcome unit)
  (json_objects : list pyval) (filename : pystr) (batch_size : nat)
  (w : world) :
  0 < batch_size ->
  (forall texts, exists vectors,
      embed_texts texts = Returned vectors
      /\ List.length vectors = List.length texts) ->
  (forall batch, index_upsert batch = Returned tt) ->
  let r := process_jsonl_batch repr_container urlparse_netloc clock
             md5_hexdigest embed_texts index_upsert json_objects filename
             batch_size w in
  List.length (stored (fst r))
  = List.length (stored w) + successful_stores (snd r)
  /\ failed_stores (snd r) <= total_objects (snd r)
  /\ total_objects (snd r) = List.length json_objects.
Proof.
  intros Hbs He Hu. unfold process_jsonl_batch.
  match goal with
  | |- context [process_batches _ _ _ _ _ _ _ _ _ ?st0 ?starts w] =>
      pose proof (@process_batches_reliable repr_container urlparse_netloc
                    clock md5_hexdigest embed_texts index_upsert He Hu
                    json_objects filename batch_size starts st0 w eq_refl)
        as H
  end.
  cbv zeta in H.
  cbn [total_objects successful_stores failed_stores total_chunks] in H.
  destruct H as (A & B & C). rewrite length_slices in C by assumption.
  cbv zeta. rewrite A. lia.
Qed.

(** An instance: one object stored from an empty log. *)
Lemma jsonl_statistics_with_reliable_services_witness :
  let r := process_jsonl_batch Ref.repr_x Ref.netloc_example
             (Ref.clock_at 1700000000) Ref.md5_of_a Ref.embed_all
             Ref.upsert_ok [Ref.sample_object] (lit "f.jsonl") 50
             empty_world in
  List.length (stored (fst r)) = 0 + successful_stores (snd r)
  /\ failed_stores (snd r) <= total_objects (snd r)
  /\ total_objects (snd r) = 1.
Proof.
  apply (@jsonl_statistics_with_reliable_services Ref.repr_x
           Ref.netloc_example (Ref.clock_at 1700000000) Ref.md5_of_a
           Ref.embed_all Ref.upsert_ok [Ref.sample_object] (lit "f.jsonl") 50
           empty_world).
  - lia.
  - intros texts. exists (map (fun _ => []) texts).
    split; [reflexivity|apply length_map].
  - reflexivity.
Defined.

(* ===================================================================== *)
(** * A sentence larger than the bound *)
(* ===================================================================== *)

Module TruncationFacts.

Section Loop.

Variable split_sentences : pystr -> list pystr.
Variable sentence_sep : pystr.

(** One paragraph that is one sentence and does not fit: the loop emits
    its first [chunk_size] code points and drops the rest. *)
Lemma oversized_sentence_is_cut text n chunk_size :
  utf8_len text = Some n ->
  (0 <= chunk_size < Z.of_nat n)%Z ->
  split text (nl ++ nl) = [text] ->
  split_sentences text = [text] ->
  chunk_loop split_sentences sentence_sep chunk_size text
  = Returned [firstn (Z.to_nat chunk_size) text].
Proof.
  intros Hn [H0 Hlt] Hpar Hsent.
  assert (E : encoded_len text = Returned n)
    by (unfold encoded_len; now rewrite Hn).
  assert (B : (chunk_size <? Z.of_nat n)%Z = true) by now apply Z.ltb_lt.
  unfold chunk_loop. rewrite Hpar. cbn [foldM].
  unfold paragraph_step at 1. cbn [current_chunk chunks app nonempty].
  rewrite E. cbn [bind]. rewrite B, Hsent. cbn [foldM].
  unfold sentence_step at 1. cbn [current_chunk chunks app nonempty].
  rewrite E. cbn [bind]. rewrite B. cbn [bind].
  unfold flush. cbn [current_chunk chunks nonempty]. unfold slice_to.
  apply Z.leb_le in H0. now rewrite H0.
Qed.

End Loop.

End TruncationFacts.

Import TruncationFacts.

(** X5.  A text without whitespace whose encoding is larger than the bound
    is one sentence of one paragraph for both chunkers, and each of them
    returns a single chunk, the first [chunk_size] code points of the
    text: what follows them is in no chunk.  For an ASCII text, where a
    code point is a byte, that chunk is shorter than the text. *)
Theorem oversized_text_is_truncated (text : pystr) (n : nat) (chunk_size : Z) :
  utf8_len text = Some n ->
  (0 <= chunk_size < Z.of_nat n)%Z ->
  no_whitespace text ->
  chunk_large_text text chunk_size
  = Returned [firstn (Z.to_nat chunk_size) text]
  /\ _chunk_text text chunk_size
     = Returned [firstn (Z.to_nat chunk_size) text]
  /\ (is_ascii text ->
      List.length (firstn (Z.to_nat chunk_size) text) = Z.to_nat chunk_size
      /\ Z.to_nat chunk_size < List.length text).
Proof.
  intros Hn Hb Hns.
  assert (Hpar : split text (nl ++ nl) = [text]).
  { apply split_without.
    apply (@no_whitespace_no_separator text (nl ++ nl) 10%N Hns);
      [now left|reflexivity]. }
  assert (Hdot : split text (lit ". ") = [text]).
  { apply split_without.
    apply (@no_whitespace_no_separator text (lit ". ") 32%N Hns);
      [right; now left|reflexivity]. }
  split; [|split].
  - unfold chunk_large_text, encoded_len. rewrite Hn. cbn [bind].
    replace (Z.of_nat n <=? chunk_size)%Z with false
      by (symmetry; apply Z.leb_gt; lia).
    now apply oversized_sentence_is_cut with n.
  - unfold _chunk_text. apply oversized_sentence_is_cut with n; auto.
    unfold re_split_sentences. now rewrite re_split_no_whitespace.
  - intros Ha. rewrite (utf8_len_ascii Ha) in Hn. injection Hn as <-.
    rewrite length_firstn. lia.
Qed.

(** An instance: ten letters under a bound of four bytes. *)
Lemma oversized_text_is_truncated_witness :
  chunk_large_text (lit "abcdefghij") 4 = Returned [lit "abcd"]
  /\ _chunk_text (lit "abcdefghij") 4 = Returned [lit "abcd"].
Proof.
  pose proof (@oversized_text_is_truncated (lit "abcdefghij") 10 4 eq_refl
                ltac:(lia) ltac:(repeat constructor)) as (A & B & _).
  split; [exact A|exact B].
Defined.

(* ===================================================================== *)
(** * The shape of an answer on each transport *)
(* ===================================================================== *)

Module ShapeFacts.

Lemma stream_loop_eq chunks :
  forall full_response,
    stream_loop chunks full_response
    = (map SseChunk (filter nonempty chunks),
       full_response ++ List.concat (filter nonempty chunks)).
Proof.
  induction chunks as [|chunk rest IH]; intros full; simpl.
  - now rewrite app_nil_r.
  - destruct (nonempty chunk); rewrite IH; [|reflexivity].
    simpl. now rewrite <- app_assoc.
Qed.

Lemma stream_generator_eq chunks menu :
  stream_generator chunks menu
  = map SseChunk (filter nonempty chunks)
    ++ [SseFinal (List.concat (filter nonempty chunks)) menu; SseDone].
Proof. unfold stream_generator. now rewrite stream_loop_eq. Qed.

Lemma filter_nonempty chunks :
  Forall (fun chunk : pystr => chunk <> []) (filter nonempty chunks).
Proof.
  apply Forall_forall. intros c Hc. apply filter_In in Hc as [_ Hc].
  now destruct c.
Qed.

Section Classifier.

Variable json_loads : pystr -> outcome pyval.
Variable generate : pystr -> pyfloat -> outcome (option pystr).

(** The classifier returns, and returns a string. *)
Lemma get_intent_returns query :
  exists s, get_intent json_loads generate query = Returned (PyStr s).
Proof.
  rewrite get_intent_unfold.
  destruct (_ || _); [eauto|].
  destruct (extract_json_from_string _ _); eauto.
  destruct (in_valid_intents _) eqn:E; [|eauto].
  apply in_valid_intents_str in E as (s & -> & _). eauto.
Qed.

End Classifier.

Section Answer.

Variable generate : pystr -> pyfloat -> outcome (option pystr).
Variables customer_context agency_context : pystr.
Variable get_vector_store : outcome unit.
Variable embed_text : pystr -> outcome (list pyfloat).
Variable index_query :
  list pyfloat -> nat -> option pyval -> outcome (list vmatch).

Local Abbreviation stream_ai :=
  (stream_ai_response generate customer_context agency_context
     get_vector_store embed_text index_query).

(** What [stream_ai_response] can do: return without having sent
    anything, or raise after one error frame. *)
Lemma stream_ai_response_cases query intent :
  (exists response menu,
      stream_ai query intent = ([], Returned (response, menu)))
  \/ (exists reason,
        stream_ai query intent
        = ([WsError (lit "Error in RAG response: " ++ reason)],
           Raised (Exc PlainException (lit "RAG query failed: " ++ reason)))).
Proof.
  unfold stream_ai_response, stream_rag_response.
  repeat match goal with
         | |- context [if ?c then _ else _] => destruct c
         end; try (left; eexists _, _; reflexivity).
  match goal with
  | |- context [match ?b with Returned _ => _ | Raised _ => _ end] =>
      destruct b as [r|e]
  end.
  - left. eexists _, _. reflexivity.
  - right. exists (exn_str e). reflexivity.
Qed.

Lemma ws_answer_cases query intent :
  let r := ws_answer generate customer_context agency_context
             get_vector_store embed_text index_query query intent in
  (snd r = Continue
   /\ exists message menu,
       fst r = stream_text_response message 50 ++ [WsComplete message menu])
  \/ (snd r = Stop
      /\ exists reason,
          fst r
          = [WsError (lit "Error in RAG response: " ++ reason);
             WsError (lit "An error occurred: RAG query failed: " ++ reason)]).
Proof.
  cbv zeta. unfold ws_answer.
  destruct (stream_ai_response_cases query intent)
    as [(response & menu & ->)|(reason & ->)].
  - left. split; [reflexivity|]. now exists response, menu.
  - right. split; [reflexivity|]. exists reason. reflexivity.
Qed.

(** The same for the fixed intent [rp]; the menu is known. *)
Lemma ws_answer_rp_cases query :
  let r := ws_answer generate customer_context agency_context
             get_vector_store embed_text index_query query
             (PyStr (lit "rp")) in
  (snd r = Continue
   /\ exists message,
       fst r = stream_text_response message 50
               ++ [WsComplete message more_menu])
  \/ (snd r = Stop
      /\ exists reason,
          fst r
          = [WsError (lit "Error in RAG response: " ++ reason);
             WsError (lit "An error occurred: RAG query failed: " ++ reason)]).
Proof.
  cbv zeta. unfold ws_answer, stream_ai_response.
  replace (eq_str (PyStr (lit "rp")) (lit "refund")) with false
    by reflexivity.
  replace (eq_str (PyStr (lit "rp")) (lit "rp")) with true by reflexivity.
  unfold stream_rag_response.
  match goal with
  | |- context [match ?b with Returned _ => _ | Raised _ => _ end] =>
      destruct b as [r|e]
  end.
  - left. split; [reflexivity|]. now exists r.
  - right. split; [reflexivity|]. now exists (exn_str e).
Qed.

Variable lower : pystr -> pystr.
Variable predict : pystr -> outcome Z.

Lemma ws_turn_cases query :
  let r := ws_turn lower generate customer_context agency_context
             get_vector_store embed_text index_query predict query in
  (snd r = Continue
   /\ exists message menu,
       fst r = [WsComplete message menu]
       \/ fst r = stream_text_response message 50
                  ++ [WsComplete message menu])
  \/ (snd r = Stop
      /\ exists reason,
          fst r = [WsError (lit "An error occurred: " ++ reason)]
          \/ fst r
             = [WsError (lit "Error in RAG response: " ++ reason);
                WsError (lit "An error occurred: RAG query failed: "
                         ++ reason)]).
Proof.
  cbv zeta. unfold ws_turn.
  destruct (str_eqb (lower query) (lit "rajasthan patrika"));
    [left; split; [reflexivity|eexists _, _; left; reflexivity]|].
  destruct (str_eqb (lower query) (lit "refund policies"));
    [left; split; [reflexivity|eexists _, _; left; reflexivity]|].
  destruct (str_eqb (lower query) (lit "ad booking"));
    [left; split; [reflexivity|eexists _, _; left; reflexivity]|].
  destruct (intent_classification predict query) as [intent|e].
  - destruct (ws_answer_cases query intent)
      as [[S (m & menu & E)]|[S (reason & E)]].
    + left. split; [exact S|]. exists m, menu. now right.
    + right. split; [exact S|]. exists reason. now right.
  - right. split; [reflexivity|]. exists (exn_str e). now left.
Qed.

End Answer.

End ShapeFacts.

Import ShapeFacts.

Section Transports.

Variable json_loads : pystr -> outcome pyval.
Variable repr_container : pyval -> pystr.
Variable lower : pystr -> pystr.
Variable generate : pystr -> pyfloat -> outcome (option pystr).
Variable generate_stream : pystr -> pyfloat -> list pystr * option exn.
Variables customer_context agency_context : pystr.
Variable get_vector_store : outcome unit.
Variable embed_text : pystr -> outcome (list pyfloat).
Variable embed_value : pyval -> outcome (list pyfloat).
Variable index_query :
  list pyfloat -> nat -> option pyval -> outcome (list vmatch).
Variable predict : pystr -> outcome Z.

Local Abbreviation events :=
  (event_stream json_loads lower generate generate_stream customer_context
     agency_context get_vector_store embed_text index_query).
Local Abbreviation events2 :=
  (event_stream2 generate_stream get_vector_store embed_text index_query).
Local Abbreviation socket :=
  (websocket_chat json_loads lower generate customer_context agency_context
     get_vector_store embed_text index_query predict).
Local Abbreviation socket2 :=
  (ws_turn2 generate customer_context agency_context get_vector_store
     embed_text index_query).
Local Abbreviation socket2_message :=
  (websocket_chat2 json_loads repr_container generate customer_context
     agency_context get_vector_store embed_value index_query).
Local Abbreviation post_chat :=
  (Chatbot.chat generate customer_context agency_context get_vector_store
     embed_text index_query json_loads lower).

(** X6.  The server-sent streams of [/chat/stream] and [/chat/stream2],
    whatever the model, the decoder and the index do: zero or more chunk
    events, none of them empty, then exactly one final payload, then the
    done marker.  No error event is ever sent: the classifier cannot
    fail, and a failing retrieval falls back to the general agent. *)
Theorem sse_stream_shape (query : pystr) :
  (exists chunks message menu,
      events query
      = map SseChunk chunks ++ [SseFinal message menu; SseDone]
      /\ Forall (fun chunk => chunk <> []) chunks)
  /\ (exists chunks message,
        events2 query
        = map SseChunk chunks ++ [SseFinal message more_menu; SseDone]
        /\ Forall (fun chunk => chunk <> []) chunks).
Proof.
  split.
  - unfold event_stream.
    destruct (str_eqb (lower query) (lit "rajasthan patrika"));
      [exists [], rajasthan_patrika_message, more_menu;
       split; [reflexivity|constructor]|].
    destruct (str_eqb (lower query) (lit "refund policies"));
      [exists [], refund_message, more_menu;
       split; [reflexivity|constructor]|].
    destruct (str_eqb (lower query) (lit "ad booking"));
      [exists [], ad_booking_message, ad_booking_menu;
       split; [reflexivity|constructor]|].
    destruct (get_intent_returns json_loads generate query) as [s ->].
    repeat match goal with
           | |- context [if ?c then _ else _] => destruct c
           end;
      try (rewrite stream_generator_eq; eexists _, _, _;
           split; [reflexivity|apply filter_nonempty]).
    + exists [refund_message], refund_message, more_menu.
      split; [reflexivity|]. repeat constructor. discriminate.
    + exists [ad_booking_message], ad_booking_message, ad_booking_menu.
      split; [reflexivity|]. repeat constructor. discriminate.
  - unfold event_stream2. rewrite stream_generator_eq. eexists _, _.
    split; [reflexivity|apply filter_nonempty].
Qed.

(** X7.  One turn of a socket endpoint, from the message received to the
    last frame sent.  On [/chat/ws] the loop goes on after a turn exactly
    when the turn ended with a complete frame (alone for a predefined
    query, after the stream frames of its message otherwise) or when the
    message carried no query, which is answered with one error frame.
    The loop ends after every other failure, with an error frame that
    starts with [An error occurred]; a failing retrieval is reported
    twice, once as an error in the RAG response and once more by the
    endpoint.  On [/chat/ws2] it is the same without the predefined
    queries: a message without query gets the one error frame and the
    loop goes on, as it does after the stream frames and the complete
    frame of an answer; a message that is not JSON or not an object ends
    the loop with one error frame, a failing retrieval with the two. *)
Theorem socket_turn_shape (data : pystr) :
  (snd (socket data) = Continue ->
   fst (socket data) = [WsError (lit "No query provided")]
   \/ exists message menu,
       fst (socket data) = [WsComplete message menu]
       \/ fst (socket data)
          = stream_text_response message 50 ++ [WsComplete message menu])
  /\ (snd (socket data) = Stop ->
      exists reason,
        fst (socket data) = [WsError (lit "An error occurred: " ++ reason)]
        \/ fst (socket data)
           = [WsError (lit "Error in RAG response: " ++ reason);
              WsError (lit "An error occurred: RAG query failed: "
                       ++ reason)])
  /\ (forall query,
        (snd (socket2 query) = Continue
         /\ exists message,
             fst (socket2 query)
             = stream_text_response message 50
               ++ [WsComplete message more_menu])
        \/ (snd (socket2 query) = Stop
            /\ exists reason,
                fst (socket2 query)
                = [WsError (lit "Error in RAG response: " ++ reason);
                   WsError (lit "An error occurred: RAG query failed: "
                            ++ reason)]))
  /\ (snd (socket2_message data) = Continue ->
      fst (socket2_message data) = [WsError (lit "No query provided")]
      \/ exists message,
          fst (socket2_message data)
          = stream_text_response message 50
            ++ [WsComplete message more_menu])
  /\ (snd (socket2_message data) = Stop ->
      exists reason,
        fst (socket2_message data)
        = [WsError (lit "An error occurred: " ++ reason)]
        \/ fst (socket2_message data)
           = [WsError (lit "Error in RAG response: " ++ reason);
              WsError (lit "An error occurred: RAG query failed: "
                       ++ reason)])
  /\ (forall message_data,
        json_loads data = Returned (PyDict message_data) ->
        (truthy (get_default message_data (lit "query") (PyStr [])) = false ->
         socket2_message data
         = ([WsError (lit "No query provided")], Continue))
        /\ (forall query,
              get_default message_data (lit "query") (PyStr [])
              = PyStr query ->
              query <> [] ->
              socket2_message data
              = ws_turn2 generate customer_context agency_context
                  get_vector_store (fun q => embed_value (PyStr q))
                  index_query query))
  /\ (forall e,
        json_loads data = Raised e ->
        socket2_message data
        = ([WsError (lit "An error occurred: " ++ exn_str e)], Stop))
  /\ (forall v,
        json_loads data = Returned v ->
        (forall message_data, v <> PyDict message_data) ->
        socket2_message data
        = ([WsError (lit "An error occurred: " ++ lit "'" ++ type_name v
                     ++ lit "' object has no attribute 'get'")], Stop)).
Proof.
  assert (F : forall e,
             snd (ws_fail e) = Stop
             /\ fst (ws_fail e)
                = [WsError (lit "An error occurred: " ++ exn_str e)])
    by (intros e; split; reflexivity).
  split; [|split; [|split; [|split; [|split; [|split; [|split]]]]]].
  - unfold websocket_chat, ws_receive.
    destruct (json_loads data) as [[| | | | |l|d]|e]; try discriminate.
    destruct (negb (truthy (get_default d (lit "query") (PyStr []))));
      [now left|].
    destruct (get_default d (lit "query") (PyStr [])) as [| | | |q| |];
      try discriminate.
    intros S. right.
    destruct (ws_turn_cases generate customer_context agency_context
                get_vector_store embed_text index_query lower predict q)
      as [[_ H]|[S' _]]; [exact H|congruence].
  - unfold websocket_chat, ws_receive.
    destruct (json_loads data) as [[| | | | |l|d]|e];
      try (intros _; eexists; left; apply F).
    destruct (negb (truthy (get_default d (lit "query") (PyStr []))));
      [discriminate|].
    destruct (get_default d (lit "query") (PyStr [])) as [| | | |q| |];
      try (intros _; eexists; left; apply F).
    intros S.
    destruct (ws_turn_cases generate customer_context agency_context
                get_vector_store embed_text index_query lower predict q)
      as [[S' _]|[_ H]]; [congruence|exact H].
  - intros query. unfold ws_turn2. apply ws_answer_rp_cases.
  - unfold websocket_chat2.
    destruct (json_loads data) as [[| | | | |l|d]|e]; try discriminate.
    destruct (negb (truthy (get_default d (lit "query") (PyStr []))));
      [now left|].
    intros S. right.
    destruct (ws_answer_rp_cases generate customer_context agency_context
                get_vector_store
                (fun _ : pystr =>
                   embed_value (get_default d (lit "query") (PyStr [])))
                index_query
                (py_str repr_container
                   (get_default d (lit "query") (PyStr []))))
      as [[_ H]|[S' _]]; [exact H|congruence].
  - unfold websocket_chat2.
    destruct (json_loads data) as [[| | | | |l|d]|e];
      try (intros _; eexists; left; apply F).
    destruct (negb (truthy (get_default d (lit "query") (PyStr []))));
      [discriminate|].
    intros S.
    destruct (ws_answer_rp_cases generate customer_context agency_context
                get_vector_store
                (fun _ : pystr =>
                   embed_value (get_default d (lit "query") (PyStr [])))
                index_query
                (py_str repr_container
                   (get_default d (lit "query") (PyStr []))))
      as [[S' _]|[_ (reason & H)]]; [congruence|].
    exists reason. now right.
  - intros message_data Hd. unfold websocket_chat2. rewrite Hd. split.
    + intros ->. reflexivity.
    + intros query -> Hq. destruct query as [|c query]; [contradiction|].
      reflexivity.
  - intros e He. unfold websocket_chat2. now rewrite He.
  - intros v Hv Hn. unfold websocket_chat2. rewrite Hv.
    destruct v as [| | | | | |d]; try reflexivity.
    now contradiction (Hn d).
Qed.

(** X8.  [POST /chat/] fails in one way only: with status 500 and a detail
    that starts with [Query failed], raised by the retrieval of the [rp]
    intent.  The classifier never makes the request fail, and no other
    intent does. *)
Theorem chat_fails_only_in_retrieval (query : pystr) (e : exn) :
  post_chat query = Raised e ->
  (exists reason,
      e = HTTPException 500 (lit "Query failed: " ++ reason))
  /\ get_intent json_loads generate query = Returned (PyStr (lit "rp"))
  /\ predefined lower query = false.
Proof.
  unfold Chatbot.chat, predefined.
  destruct (str_eqb (lower query) (lit "rajasthan patrika")); [discriminate|].
  destruct (str_eqb (lower query) (lit "refund policies")); [discriminate|].
  destruct (str_eqb (lower query) (lit "ad booking")); [discriminate|].
  destruct (get_intent_returns json_loads generate query) as [s Hs].
  rewrite Hs. cbn [bind]. unfold Chatbot.ai_response.
  destruct (eq_str (PyStr s) (lit "refund")); [discriminate|].
  destruct (eq_str (PyStr s) (lit "rp")) eqn:R.
  - cbn [eq_str] in R. apply str_eqb_eq in R. subst s.
    unfold Chatbot.rag_response, try_except.
    match goal with
    | |- context [match ?b with Returned _ => _ | Raised _ => _ end] =>
        destruct b as [r|e0]
    end; cbn [bind]; [discriminate|].
    intros E. injection E as <-.
    split; [exists (exn_str e0); reflexivity|split; reflexivity].
  - repeat match goal with
           | |- context [if ?c then _ else _] => destruct c
           end; discriminate.
Qed.

End Transports.

(** An instance: the classifier says [rp] and the vector store cannot be
    reached. *)
Lemma chat_fails_only_in_retrieval_witness :
  (exists reason,
      HTTPException 500 (lit "Query failed: down")
      = HTTPException 500 (lit "Query failed: " ++ reason))
  /\ get_intent Ref.json_loads
       (Ref.answer (Ref.json_object1 (lit "intent") (lit "rp")))
       (lit "hello")
     = Returned (PyStr (lit "rp"))
  /\ predefined Ref.lower (lit "hello") = false.
Proof.
  apply (@chat_fails_only_in_retrieval Ref.json_loads Ref.lower
           (Ref.answer (Ref.json_object1 (lit "intent") (lit "rp"))) [] []
           (Raised (Exc ServiceError (lit "down"))) Ref.no_embedding
           Ref.no_matches (lit "hello")).
  vm_compute. reflexivity.
Defined.

Module AgreementFacts.

(** The loop of [rag_response] over matches whose passages are all
    strings collects them in order. *)
Lemma collect_strings results :
  forall texts acc,
    context_of results = map PyStr texts ->
    foldM Chatbot.collect_step acc results
    = Returned (acc ++ map PyStr texts).
Proof.
  induction results as [|m rest IH]; intros texts acc H.
  - destruct texts; [|discriminate]. simpl. now rewrite app_nil_r.
  - cbn [context_of flat_map] in H. cbn [foldM].
    unfold Chatbot.collect_step at 1.
    destruct (lookup (match_metadata m) (lit "text")) as [v|].
    + destruct texts as [|t texts]; [discriminate|].
      cbn [app map] in H. injection H as -> H. cbn [bind].
      rewrite (IH texts) by exact H. cbn [map]. now rewrite <- app_assoc.
    + cbn [bind]. cbn [app] in H. now apply IH.
Qed.

Lemma all_strs_strings texts : all_strs (map PyStr texts) = Returned texts.
Proof.
  induction texts as [|t texts IH]; [reflexivity|].
  cbn [map all_strs]. now rewrite IH.
Qed.

End AgreementFacts.

Import AgreementFacts.

Section Agreement.

Variable generate : pystr -> pyfloat -> outcome (option pystr).
Variables customer_context agency_context : pystr.
Variable get_vector_store : outcome unit.
Variable embed_text : pystr -> outcome (list pyfloat).
Variable index_query :
  list pyfloat -> nat -> option pyval -> outcome (list vmatch).

Local Abbreviation ai_response' :=
  (Chatbot.ai_response generate customer_context agency_context
     get_vector_store embed_text index_query).
Local Abbreviation stream_ai_response' :=
  (stream_ai_response generate customer_context agency_context
     get_vector_store embed_text index_query).

(** X9.  The request/response path and the socket path compute the same
    answer and the same menu.  For every intent other than [rp] both
    return, without a frame being sent.  For [rp], when the store is
    there and the index returns matches whose passages are strings, at
    least one, both return what [rag_agent] makes of these passages:
    the answer of the model to the prompt built from the passages joined
    by blank lines. *)
Theorem transports_agree (query : pystr) :
  (forall intent,
      eq_str intent (lit "rp") = false ->
      exists response menu,
        ai_response' query intent = Returned (PyStr response, menu)
        /\ stream_ai_response' query intent = ([], Returned (response, menu)))
  /\ (forall results texts,
        get_vector_store = Returned tt ->
        query_by_text embed_text index_query query 5 None = Returned results ->
        context_of results = map PyStr texts ->
        texts <> [] ->
        let response :=
          get_google_response generate
            (rag_prompt query (join (nl ++ nl) texts)) default_temperature in
        ai_response' query (PyStr (lit "rp"))
        = Returned (PyStr response, more_menu)
        /\ stream_ai_response' query (PyStr (lit "rp"))
           = ([], Returned (response, more_menu))).
Proof.
  split.
  - intros intent Hrp. unfold Chatbot.ai_response, stream_ai_response.
    rewrite Hrp.
    repeat match goal with
           | |- context [if ?c then _ else _] => destruct c
           end; eexists _, _; split; reflexivity.
  - intros results texts Hs Hq Hc Hne. cbv zeta.
    assert (A : rag_agent generate query (map PyStr texts)
                = Returned (get_google_response generate
                              (rag_prompt query (join (nl ++ nl) texts))
                              default_temperature)).
    { unfold rag_agent, join_values. now rewrite all_strs_strings. }
    unfold Chatbot.ai_response, stream_ai_response.
    replace (eq_str (PyStr (lit "rp")) (lit "refund")) with false
      by reflexivity.
    replace (eq_str (PyStr (lit "rp")) (lit "rp")) with true by reflexivity.
    unfold Chatbot.rag_response, stream_rag_response.
    rewrite Hs, Hq. cbn [bind]. rewrite (collect_strings results texts [] Hc).
    rewrite Hc. cbn [app bind].
    destruct texts as [|t texts]; [contradiction|].
    cbn [map] in *. rewrite A. split; reflexivity.
Qed.

End Agreement.

(* ===================================================================== *)
(** * Identifiers of objects without an id *)
(* ===================================================================== *)

Module NumeralFacts.

Lemma digits_string_of_uint d :
  digits (lit (NilEmpty.string_of_uint d)).
Proof.
  unfold digits, lit.
  induction d; simpl; constructor; try assumption; reflexivity.
Qed.

Lemma digits_dec n : digits (dec n).
Proof.
  unfold dec, NilZero.string_of_uint.
  destruct (Nat.to_uint n); try apply digits_string_of_uint.
  repeat constructor.
Qed.

Lemma to_uint_not_nil n : Nat.to_uint n <> Decimal.Nil.
Proof.
  intros E. pose proof (Unsigned.of_to n) as H. rewrite E in H.
  simpl in H. subst n. discriminate.
Qed.

Lemma dec_inj n m : dec n = dec m -> n = m.
Proof.
  unfold dec. intros H. apply lit_inj in H.
  apply (f_equal NilZero.uint_of_string) in H.
  rewrite !NilZero.usu in H by apply to_uint_not_nil.
  injection H as H. now apply Unsigned.to_uint_inj.
Qed.

(** A numeral followed by something that is not a digit can be read off
    the front of a text in one way only. *)
Lemma numeral_prefix a :
  forall b x y (r s : pystr),
    digits a -> digits b ->
    JsonRef.is_digit x = false -> JsonRef.is_digit y = false ->
    a ++ x :: r = b ++ y :: s ->
    a = b /\ x :: r = y :: s.
Proof.
  unfold digits.
  induction a as [|c a IH]; intros [|d b] x y r s Ha Hb Hx Hy E.
  - auto.
  - cbn [app] in E. injection E as -> _. inversion Hb; congruence.
  - cbn [app] in E. injection E as -> _. inversion Ha; congruence.
  - cbn [app] in E. injection E as -> E.
    inversion Ha; inversion Hb; subst.
    destruct (IH b x y r s) as [-> H]; auto.
Qed.

End NumeralFacts.

Import NumeralFacts.

(** X10.  The identifier the bulk pipeline gives a chunk of an object that
    has no [id] is made of the position of the object in the file, the
    index of the chunk and the content hash, and it determines all three:
    two chunks of such objects get the same identifier only when they
    agree in position, chunk index and hash.  Chunks of different objects
    without an id therefore never overwrite each other in the index. *)
Theorem anonymous_ids_do_not_collide
  (repr_container : pyval -> pystr) (json_obj json_obj' : dict)
  (position position' chunk_index chunk_index' : nat) (hash hash' : pystr) :
  lookup json_obj (lit "id") = None ->
  lookup json_obj' (lit "id") = None ->
  jsonl_vector_id repr_container json_obj position chunk_index hash
  = jsonl_vector_id repr_container json_obj' position' chunk_index' hash' ->
  position = position' /\ chunk_index = chunk_index' /\ hash = hash'.
Proof.
  intros H H'. unfold jsonl_vector_id, get_default. rewrite H, H'.
  cbn [py_str]. rewrite <- !app_assoc. intros E.
  apply app_inv_head in E.
  change (lit "_chunk_") with (95%N :: lit "chunk_") in E.
  cbn [app] in E.
  apply numeral_prefix in E as [Ep E];
    [|apply digits_dec|apply digits_dec|reflexivity|reflexivity].
  apply dec_inj in Ep. injection E as E.
  apply numeral_prefix in E as [Ei E];
    [|apply digits_dec|apply digits_dec|reflexivity|reflexivity].
  apply dec_inj in Ei. injection E as E. auto.
Qed.

(** An instance: the first chunk of the third object. *)
Lemma anonymous_ids_do_not_collide_witness :
  2 = 2 /\ 0 = 0 /\ lit "0cc175b9" = lit "0cc175b9".
Proof.
  apply (@anonymous_ids_do_not_collide Ref.repr_x
           [(lit "text", PyStr (lit "a"))] [(lit "text", PyStr (lit "a"))]
           2 2 0 0 (lit "0cc175b9") (lit "0cc175b9"));
    reflexivity.
Defined.

(** X11.  A key of the object's nested [metadata] that does not hold
    [None] reaches the stored metadata with the value given there (as it
    is for a string, a number or a boolean, as its [str] otherwise), also
    when the key is one of the fields the pipeline writes itself, such as
    [filename], [source_type] or [chunk_index]: the nested metadata wins.
    Only [site], [text] and [total_chunks] are written after it. *)
Theorem nested_metadata_overrides
  (repr_container : pyval -> pystr)
  (urlparse_netloc : pyval -> outcome pystr)
  (json_obj : dict) (filename : pystr) (chunk_index : nat)
  (chunk_text : pystr) (total : nat) (created_at : Z)
  (extra : dict) (key : pystr) (v : pyval) :
  lookup json_obj (lit "metadata") = Some (PyDict extra) ->
  NoDup (keys extra) ->
  lookup extra key = Some v ->
  v <> PyNone ->
  key <> lit "site" -> key <> lit "text" -> key <> lit "total_chunks" ->
  lookup (create_metadata repr_container urlparse_netloc json_obj filename
            chunk_index created_at) key
  = Some (stored_value repr_container v)
  /\ lookup (chunk_metadata repr_container urlparse_netloc json_obj filename
               chunk_index chunk_text total created_at) key
     = Some (stored_value repr_container v)
  /\ lookup (chunk_metadata repr_container urlparse_netloc json_obj filename
               chunk_index chunk_text total created_at) (lit "total_chunks")
     = Some (PyInt (Z.of_nat total)).
Proof.
  intros Hm Hnd Hk Hv Hsite Htext Htotal.
  assert (C : lookup (create_metadata repr_container urlparse_netloc json_obj
                        filename chunk_index created_at) key
              = Some (stored_value repr_container v))
    by now apply create_metadata_lookup with extra.
  split; [exact C|].
  unfold chunk_metadata.
  rewrite (sanitize_clean repr_container urlparse_netloc)
    by (do 2 apply NoDup_keys_set; apply NoDup_keys_create_metadata).
  split.
  - apply lookup_clean_basic.
    + rewrite !lookup_set_other by congruence. exact C.
    + unfold stored_value. destruct v; reflexivity.
  - apply lookup_clean_basic; [|reflexivity]. apply lookup_set_same.
Qed.

(** An instance: an object whose nested metadata names a [filename]. *)
Lemma nested_metadata_overrides_witness :
  lookup
    (chunk_metadata Ref.repr_x Ref.netloc_example
       [(lit "text", PyStr (lit "a"));
        (lit "metadata", PyDict [(lit "filename", PyStr (lit "other.txt"))])]
       (lit "f.jsonl") 0 (lit "a") 1 1700000000)
    (lit "filename")
  = Some (PyStr (lit "other.txt")).
Proof.
  apply (@nested_metadata_overrides Ref.repr_x Ref.netloc_example
           [(lit "text", PyStr (lit "a"));
            (lit "metadata",
             PyDict [(lit "filename", PyStr (lit "other.txt"))])]
           (lit "f.jsonl") 0 (lit "a") 1 1700000000
           [(lit "filename", PyStr (lit "other.txt"))] (lit "filename")
           (PyStr (lit "other.txt")));
    try reflexivity; try discriminate.
  repeat constructor. simpl. tauto.
Defined.

(** X12.  [create_metadata] always returns the eight fields it writes
    itself ([source_type], [filename], [chunk_index], [created_at], [id],
    [url], [title], [section]), whatever the object holds, and none of
    them holds [None]: an [id], [url], [title] or [section] that is
    missing or falsy (and not named by the nested metadata) is stored as
    the empty string. *)
Theorem create_metadata_has_base_fields
  (repr_container : pyval -> pystr)
  (urlparse_netloc : pyval -> outcome pystr)
  (json_obj : dict) (filename : pystr) (chunk_index : nat) (created_at : Z) :
  (forall key,
      In key base_fields ->
      exists v,
        lookup (create_metadata repr_container urlparse_netloc json_obj
                  filename chunk_index created_at) key = Some v
        /\ v <> PyNone)
  /\ (forall key,
        In key [lit "id"; lit "url"; lit "title"; lit "section"] ->
        (forall extra,
            lookup json_obj (lit "metadata") = Some (PyDict extra) ->
            ~ In key (keys extra)) ->
        truthy (get_default json_obj key PyNone) = false ->
        lookup (create_metadata repr_container urlparse_netloc json_obj
                  filename chunk_index created_at) key = Some (PyStr [])).
Proof.
  split; [intros key; apply create_metadata_base|].
  intros key Hin Hm Hf. unfold create_metadata.
  apply lookup_drop_none; [|discriminate].
  match goal with
  | |- lookup (if _ then match _ with
                         | Returned _ => _
                         | Raised _ => ?m
                         end else _) _ = _ =>
      assert (M : lookup m key = Some (PyStr []))
  end.
  { assert (B : lookup
                  [(lit "source_type", PyStr (lit "jsonl"));
                   (lit "filename", PyStr (or_unknown (Some filename)));
                   (lit "chunk_index", PyInt (Z.of_nat chunk_index));
                   (lit "created_at", PyInt created_at);
                   (lit "id", get_or_empty json_obj (lit "id"));
                   (lit "url", get_or_empty json_obj (lit "url"));
                   (lit "title", get_or_empty json_obj (lit "title"));
                   (lit "section", get_or_empty json_obj (lit "section"))]
                  key = Some (PyStr [])).
    { cbn [In] in Hin.
      repeat destruct Hin as [<-|Hin]; try contradiction;
        unfold get_or_empty, py_or; rewrite Hf; reflexivity. }
    destruct (lookup json_obj (lit "metadata")) as [[| | | | | |extra]|];
      try exact B.
    assert (Habs : ~ In key (keys extra)) by exact (Hm extra eq_refl).
    now rewrite lookup_add_extra_absent. }
  destruct (truthy (get_default json_obj (lit "url") PyNone)); [|exact M].
  destruct (urlparse_netloc _) as [netloc|e]; [|exact M].
  destruct (nonempty netloc); [|exact M].
  rewrite lookup_set_other; [exact M|].
  cbn [In] in Hin.
  repeat destruct Hin as [<-|Hin]; try contradiction; discriminate.
Qed.

(* ===================================================================== *)
(** * Replacing in a text *)
(* ===================================================================== *)

Module ReplaceFacts.

Lemma startswith_refl u : forall b, startswith (u ++ b) u = true.
Proof.
  induction u as [|x u IH]; intros b; [now destruct b|].
  simpl. now rewrite N.eqb_refl, IH.
Qed.

Lemma startswith_nil_r s : startswith s [] = true.
Proof. now destruct s. Qed.

(** [sub in s] holds exactly when [s] can be cut around [sub]. *)
Lemma contains_iff s u :
  contains s u = true <-> exists a b, s = a ++ u ++ b.
Proof.
  split.
  - induction s as [|c s IH]; cbn [contains]; intros H.
    + rewrite orb_false_r in H. apply startswith_app in H as [t ->].
      now exists [], t.
    + apply orb_true_iff in H as [H|H].
      * apply startswith_app in H as [t ->]. now exists [], t.
      * destruct (IH H) as (a & b & ->). now exists (c :: a), b.
  - intros (a & b & ->). induction a as [|c a IH].
    + cbn [app]. destruct (u ++ b) eqn:E.
      * destruct u; [reflexivity|discriminate].
      * cbn [contains]. rewrite <- E, startswith_refl. reflexivity.
    + cbn [app contains]. rewrite IH. apply orb_true_r.
Qed.

Lemma contains_false_cons c s u :
  contains (c :: s) u = false ->
  startswith (c :: s) u = false /\ contains s u = false.
Proof. cbn [contains]. intros H. now apply orb_false_iff in H. Qed.

(** A text that lacks [u] lacks every text [u] is a part of. *)
Lemma contains_part s p u q :
  contains s u = false -> contains s (p ++ u ++ q) = false.
Proof.
  intros H. destruct (contains s (p ++ u ++ q)) eqn:E; [|reflexivity].
  apply contains_iff in E as (a & b & ->).
  assert (C : contains (a ++ (p ++ u ++ q) ++ b) u = true).
  { apply contains_iff. exists (a ++ p), (q ++ b).
    now rewrite <- !app_assoc. }
  congruence.
Qed.

Lemma contains_suffix a s u :
  contains (a ++ s) u = false -> contains s u = false.
Proof.
  intros H. destruct (contains s u) eqn:E; [|reflexivity].
  apply contains_iff in E as (x & y & ->).
  assert (C : contains (a ++ x ++ u ++ y) u = true).
  { apply contains_iff. exists (a ++ x), y. now rewrite <- !app_assoc. }
  congruence.
Qed.

(** Code points that are not in [u] in front of a text do not start an
    occurrence of [u]. *)
Lemma contains_after new s u :
  u <> [] -> disjoint new u ->
  contains (new ++ s) u = contains s u.
Proof.
  intros Hu Hd. induction new as [|n new IH]; [reflexivity|].
  cbn [app contains]. rewrite IH by (intros c Hc; apply Hd; now right).
  destruct u as [|x u]; [contradiction|].
  cbn [startswith].
  assert (E : (x =? n)%N = false).
  { apply N.eqb_neq. intros ->. apply (Hd n); now left. }
  now rewrite E.
Qed.

Lemma startswith_cons_inv c s u :
  u <> [] -> startswith (c :: s) u = true ->
  exists u', u = c :: u' /\ startswith s u' = true.
Proof.
  destruct u as [|x u']; [contradiction|]. intros _ H.
  cbn [startswith] in H. apply andb_true_iff in H as [Hx H].
  apply N.eqb_eq in Hx. subst x. eauto.
Qed.

Lemma startswith_cons c s u' :
  startswith s u' = true -> startswith (c :: s) (c :: u') = true.
Proof. intros H. cbn [startswith]. now rewrite N.eqb_refl, H. Qed.

Lemma length_nonempty (u : pystr) : u <> [] -> 0 < List.length u.
Proof. destruct u; [contradiction|cbn; lia]. Qed.

Lemma contains_nil_nonempty (u : pystr) : u <> [] -> contains [] u = false.
Proof. destruct u; [contradiction|reflexivity]. Qed.

Section Replace.

Variables old new : pystr.
Hypothesis old_nonempty : old <> [].
Hypothesis new_nonempty : new <> [].

Lemma replace_go_skip pre :
  forall t, replace_go old new (pre ++ t) (List.length pre)
            = replace_go old new t 0.
Proof. induction pre as [|x pre IH]; intros t; simpl; auto. Qed.

Lemma replace_at_match t :
  replace (old ++ t) old new = new ++ replace t old new.
Proof.
  unfold replace.
  pose proof (startswith_refl old t) as S.
  assert (L : exists c old', old = c :: old')
    by (destruct old; [contradiction|eauto]).
  destruct L as (c & old' & E).
  replace (old ++ t) with (c :: old' ++ t) in * by now rewrite E.
  cbn [replace_go]. rewrite S.
  replace (List.length old - 1) with (List.length old')
    by (rewrite E; cbn [List.length]; lia).
  now rewrite replace_go_skip.
Qed.

Lemma replace_no_match c s :
  startswith (c :: s) old = false ->
  replace (c :: s) old new = c :: replace s old new.
Proof. unfold replace. cbn [replace_go]. now intros ->. Qed.

(** What the result starts with, when these are code points that a
    replacement does not bring, was copied from the text. *)
Lemma replace_prefix u :
  disjoint u new ->
  forall s, startswith (replace s old new) u = true ->
            startswith s u = true.
Proof.
  induction u as [|x u IH]; intros Hd s H; [apply startswith_nil_r|].
  destruct s as [|c s]; [discriminate|].
  destruct (startswith (c :: s) old) eqn:E.
  - apply startswith_app in E as [t E]. rewrite E in H |- *.
    rewrite replace_at_match in H.
    apply startswith_app in H as [r H].
    assert (N : exists n new', new = n :: new')
      by (destruct new; [contradiction|eauto]).
    destruct N as (n & new' & N). rewrite N in H.
    cbn [app] in H. injection H as H _. subst n.
    exfalso. apply (Hd x); [now left|]. rewrite N. now left.
  - rewrite replace_no_match in H by assumption.
    cbn [startswith] in *. apply andb_true_iff in H as [Hx H].
    rewrite Hx. apply IH; [|exact H].
    intros c' Hc'. apply Hd. now right.
Qed.

(** Replacing leaves no occurrence of [old] behind, provided the
    replacement shares no code point with it. *)
Lemma replace_removes :
  disjoint new old ->
  forall n s, List.length s <= n -> contains (replace s old new) old = false.
Proof.
  intros Hd.
  assert (Hd' : disjoint old new).
  { intros c Hc Hn. now apply (Hd c). }
  pose proof (length_nonempty old_nonempty) as Hlen.
  induction n as [|n IH]; intros s Hn.
  - destruct s; [|simpl in Hn; lia]. now apply contains_nil_nonempty.
  - destruct s as [|c s]; [now apply contains_nil_nonempty|].
    destruct (startswith (c :: s) old) eqn:E.
    + apply startswith_app in E as [t E]. rewrite E, replace_at_match.
      rewrite contains_after by assumption.
      apply IH. apply (f_equal (@List.length _)) in E.
      rewrite length_app in E. cbn [List.length] in *. lia.
    + rewrite replace_no_match by assumption. cbn [contains].
      rewrite IH by (cbn [List.length] in Hn; lia).
      rewrite orb_false_r.
      destruct (startswith (c :: replace s old new) old) eqn:F;
        [|reflexivity].
      apply startswith_cons_inv in F as (old' & Eo & F);
        [|exact old_nonempty].
      apply replace_prefix in F.
      * apply (startswith_cons c) in F. rewrite <- Eo in F. congruence.
      * intros c' Hc'. apply Hd'. rewrite Eo. now right.
Qed.

(** Replacing brings no occurrence of a text [u] that was not there,
    provided the replacement shares no code point with [u]. *)
Lemma replace_keeps_absent u :
  u <> [] -> disjoint new u ->
  forall n s,
    List.length s <= n ->
    contains s u = false -> contains (replace s old new) u = false.
Proof.
  intros Hu Hd.
  assert (Hd' : disjoint u new).
  { intros c Hc Hn. now apply (Hd c). }
  pose proof (length_nonempty old_nonempty) as Hlen.
  induction n as [|n IH]; intros s Hn Hs.
  - destruct s; [|simpl in Hn; lia]. now apply contains_nil_nonempty.
  - destruct s as [|c s]; [now apply contains_nil_nonempty|].
    destruct (startswith (c :: s) old) eqn:E.
    + apply startswith_app in E as [t E]. rewrite E in *.
      rewrite replace_at_match, contains_after by assumption.
      apply IH.
      * rewrite length_app in Hn. lia.
      * now apply contains_suffix with old.
    + rewrite replace_no_match by assumption.
      apply contains_false_cons in Hs as [Hs1 Hs2]. cbn [contains].
      rewrite IH by (cbn [List.length] in Hn; try lia; assumption).
      rewrite orb_false_r.
      destruct (startswith (c :: replace s old new) u) eqn:F;
        [|reflexivity].
      apply startswith_cons_inv in F as (u' & Eu & F); [|exact Hu].
      apply replace_prefix in F.
      * apply (startswith_cons c) in F. rewrite <- Eu in F. congruence.
      * intros c' Hc'. apply Hd'. rewrite Eu. now right.
Qed.

(** Replacing in a text without [old] changes nothing. *)
Lemma replace_absent s :
  contains s old = false -> replace s old new = s.
Proof.
  induction s as [|c s IH]; intros H; [reflexivity|].
  apply contains_false_cons in H as [H1 H2].
  rewrite replace_no_match by assumption. now rewrite IH.
Qed.

End Replace.

End ReplaceFacts.

Import ReplaceFacts.

(** X13.  [Chatbot.clean_text] is its first two replacements: after them
    the text holds neither of the two garbled sequences, so the third
    replacement (the garbled apostrophe once more, now by a double quote)
    and the fourth (the garbled apostrophe inside [I'm]) never find
    anything to replace. *)
Theorem clean_text_is_two_replacements (text : pystr) :
  clean_text text
  = replace (replace text garbled_apostrophe (lit "'")) garbled_quote dq
  /\ contains (clean_text text) garbled_apostrophe = false
  /\ contains (clean_text text) garbled_quote = false.
Proof.
  set (t1 := replace text garbled_apostrophe (lit "'")).
  set (t2 := replace t1 garbled_quote dq).
  assert (D : forall a b : pystr,
             (forall c, In c a -> In c b -> False) -> disjoint a b)
    by (intros a b H c Ha Hb; eauto).
  assert (A1 : contains t1 garbled_apostrophe = false).
  { apply replace_removes with (n := List.length text);
      try discriminate; [|lia].
    apply D. cbn. intuition congruence. }
  assert (A2 : contains t2 garbled_apostrophe = false).
  { apply replace_keeps_absent with (n := List.length t1);
      try discriminate; [|lia|exact A1].
    apply D. cbn. intuition congruence. }
  assert (Q2 : contains t2 garbled_quote = false).
  { apply replace_removes with (n := List.length t1);
      try discriminate; [|lia].
    apply D. cbn. intuition congruence. }
  assert (E : clean_text text = t2).
  { unfold clean_text. cbv zeta. fold t1. fold t2.
    rewrite (replace_absent garbled_apostrophe dq t2 A2).
    apply replace_absent. now apply contains_part. }
  rewrite E. auto.
Qed.

(* ===================================================================== *)
(** * Reading an upload under a size limit *)
(* ===================================================================== *)

Module SizeLimitFacts.

Lemma remaining_after_read f n :
  remaining (snd (file_read f n)) = skipn n (remaining f).
Proof.
  unfold remaining, file_read. cbn [snd file_bytes position].
  rewrite length_firstn, length_skipn.
  destruct (le_lt_dec n (List.length (file_bytes f) - position f)) as [H|H].
  - rewrite Nat.min_l by lia. rewrite Nat.add_comm. symmetry.
    apply skipn_skipn.
  - rewrite Nat.min_r by lia.
    rewrite !skipn_all2; auto; rewrite ?length_skipn; lia.
Qed.

Section Loop.

Variable chunk_size : nat.
Hypothesis chunk_size_positive : 0 < chunk_size.
Variable max_bytes : Z.

(** The loop with enough fuel: it returns what was left to read when the
    running total stays within the bound, and raises otherwise. *)
Lemma read_loop_spec fuel :
  forall f buf total,
    List.length (remaining f) < fuel ->
    ((Z.of_nat (total + List.length (remaining f)) <= max_bytes)%Z
     \/ remaining f = [] ->
     read_loop fuel chunk_size max_bytes f buf total
     = Some ({| file_bytes := file_bytes f;
                position := position f + List.length (remaining f) |},
             Returned (buf ++ remaining f)))
    /\ ((max_bytes < Z.of_nat (total + List.length (remaining f)))%Z ->
        remaining f <> [] ->
        exists f',
          read_loop fuel chunk_size max_bytes f buf total
          = Some (f', Raised (too_large max_bytes))
          /\ file_bytes f' = file_bytes f
          /\ position f < position f').
Proof.
  induction fuel as [|fuel IH]; intros f buf total Hfuel; [lia|].
  cbn [read_loop].
  pose proof (remaining_after_read f chunk_size) as R.
  unfold file_read in *. cbn [snd] in R. fold (remaining f) in *.
  set (chunk := firstn chunk_size (remaining f)) in *.
  set (f' := {| file_bytes := file_bytes f;
                position := position f + List.length chunk |}) in *.
  assert (Lc : List.length chunk
               = Nat.min chunk_size (List.length (remaining f)))
    by apply length_firstn.
  assert (Lr : List.length (remaining f')
               = List.length (remaining f) - chunk_size)
    by (rewrite R; apply length_skipn).
  assert (Split : remaining f = chunk ++ remaining f')
    by (rewrite R; symmetry; apply firstn_skipn).
  destruct (nonempty chunk) eqn:NE; cbn [negb].
  2:{ (* the file has ended *)
    assert (Ec : List.length chunk = 0) by (destruct chunk; [reflexivity|discriminate]).
    assert (E : remaining f = []).
    { destruct (remaining f); [reflexivity|].
      cbn [List.length] in Lc. lia. }
    rewrite E. cbn [List.length].
    split; [|intros _ H; contradiction].
    intros _. subst f'. rewrite Ec. now rewrite app_nil_r. }
  - assert (Hc : 0 < List.length chunk)
      by (destruct chunk; [discriminate|cbn; lia]).
    cbv zeta.
    assert (Hfuel' : List.length (remaining f') < fuel) by lia.
    destruct (IH f' (buf ++ chunk) (total + List.length chunk) Hfuel')
      as [Hok Hbad].
    assert (Sum : total + List.length chunk + List.length (remaining f')
                  = total + List.length (remaining f)).
    { pose proof (f_equal (@List.length _) Split) as LS.
      rewrite length_app in LS. lia. }
    rewrite Sum in *.
    subst f'. cbn [file_bytes position] in *.
    destruct (max_bytes <? Z.of_nat (total + List.length chunk))%Z eqn:B.
    + apply Z.ltb_lt in B. split.
      * intros [H|H]; [lia|].
        rewrite H in Split. destruct chunk; [cbn in Hc; lia|discriminate].
      * intros _ _. eexists. split; [reflexivity|]. cbn. split; [auto|lia].
    + apply Z.ltb_ge in B. split.
      * intros H. rewrite Hok.
        -- rewrite <- app_assoc, <- Split. do 3 f_equal.
           pose proof (f_equal (@List.length _) Split) as LS.
           rewrite length_app in LS. lia.
        -- destruct H as [H|H]; [now left|].
           right. rewrite H in Split.
           destruct chunk; [cbn in Hc; lia|discriminate].
      * intros H Hne. destruct Hbad as (f' & E & Hb & Hp); [exact H| |].
        -- intros N. rewrite N in Sum. cbn [List.length] in Sum. lia.
        -- exists f'. split; [exact E|]. split; [exact Hb|lia].
Qed.

End Loop.

End SizeLimitFacts.

Import SizeLimitFacts.

(** X14.  [_enforce_size_limit] reads the file from its position to its
    end, a megabyte at a time.  When what is left has at most [max_bytes]
    bytes (or nothing is left) it returns exactly these bytes and rewinds
    the file to its start.  When more is left it raises status 413 with
    the limit in whole megabytes, and the file is not rewound: its
    position has moved on.  The reads never run out: the function
    answers for every file. *)
Theorem enforce_size_limit_spec (f : upload_file) (max_bytes : Z) :
  ((Z.of_nat (List.length (remaining f)) <= max_bytes)%Z
   \/ remaining f = [] ->
   _enforce_size_limit f max_bytes
   = Some (file_rewind f, Returned (remaining f)))
  /\ ((max_bytes < Z.of_nat (List.length (remaining f)))%Z ->
      remaining f <> [] ->
      exists f',
        _enforce_size_limit f max_bytes
        = Some (f', Raised (HTTPException 413
                              (lit "File too large (> "
                               ++ dec_int (max_bytes / (1024 * 1024))
                               ++ lit " MB).")))
        /\ file_bytes f' = file_bytes f
        /\ position f < position f').
Proof.
  assert (Hfuel : List.length (remaining f) < S (List.length (file_bytes f))).
  { unfold remaining. rewrite length_skipn. lia. }
  destruct (@read_loop_spec (1024 * 1024) ltac:(lia) max_bytes _ f [] 0 Hfuel)
    as [Hok Hbad].
  unfold _enforce_size_limit. split.
  - intros H. rewrite Hok by (cbn [Nat.add]; exact H). reflexivity.
  - intros H Hne. destruct (Hbad H Hne) as (f' & E & Hb & Hp).
    exists f'. rewrite E. auto.
Qed.

(** An instance: three bytes under a limit of ten. *)
Lemma enforce_size_limit_spec_witness :
  _enforce_size_limit {| file_bytes := [1%N; 2%N; 3%N]; position := 0 |} 10
  = Some ({| file_bytes := [1%N; 2%N; 3%N]; position := 0 |},
          Returned [1%N; 2%N; 3%N]).
Proof.
  apply (proj1 (enforce_size_limit_spec
                  {| file_bytes := [1%N; 2%N; 3%N]; position := 0 |} 10)).
  left. cbn. lia.
Defined.

(* ===================================================================== *)
(** * The upload endpoint *)
(* ===================================================================== *)

Module UploadFacts.

Section Parse.

Variable json_loads : pystr -> outcome pyval.

(** Whatever goes wrong in [parse_jsonl_file] comes out as status 400
    (the file is not UTF-8) or as status 500. *)
Lemma parse_jsonl_file_raises file_content e :
  parse_jsonl_file json_loads file_content = Raised e ->
  e = HTTPException 400 (lit "File must be UTF-8 encoded")
  \/ exists reason,
      e = HTTPException 500 (lit "Failed to parse JSONL file: " ++ reason).
Proof.
  unfold parse_jsonl_file, try_except.
  match goal with
  | |- match ?b with _ => _ end = _ -> _ => destruct b as [objs|e0]
  end; [discriminate|].
  destruct (is_class UnicodeDecodeError e0); intros E; injection E as <-;
    [now left|right; eexists; reflexivity].
Qed.

Variable repr_container : pyval -> pystr.
Variable urlparse_netloc : pyval -> outcome pystr.
Variable clock : nat -> Z.
Variable md5_hexdigest : pystr -> pystr.
Variable embed_texts : list pystr -> outcome (list (list pyfloat)).
Variable index_upsert : list vector -> outcome unit.

(** A file that is refused has stored nothing. *)
Lemma process_jsonl_file_raises file_content filename w w' e :
  process_jsonl_file json_loads repr_container urlparse_netloc clock
    md5_hexdigest embed_texts index_upsert file_content filename w
  = (w', Raised e) ->
  w' = w /\ parse_jsonl_file json_loads file_content = Raised e.
Proof.
  unfold process_jsonl_file.
  destruct (parse_jsonl_file json_loads file_content) as [objs|e0].
  - destruct (process_jsonl_batch _ _ _ _ _ _ _ _ _ w). discriminate.
  - intros E. injection E as <- <-. auto.
Qed.

Lemma process_jsonl_file_returns file_content filename w w' st :
  process_jsonl_file json_loads repr_container urlparse_netloc clock
    md5_hexdigest embed_texts index_upsert file_content filename w
  = (w', Returned st) ->
  exists json_objects,
    parse_jsonl_file json_loads file_content = Returned json_objects
    /\ process_jsonl_batch repr_container urlparse_netloc clock
         md5_hexdigest embed_texts index_upsert json_objects filename 50 w
       = (w', st).
Proof.
  unfold process_jsonl_file.
  destruct (parse_jsonl_file json_loads file_content) as [objs|e0];
    [|discriminate].
  destruct (process_jsonl_batch _ _ _ _ _ _ _ _ _ w) as [w1 st1] eqn:P.
  intros E. injection E as <- <-. eauto.
Qed.

Variable read : outcome (list N).

Lemma read_content_raises e :
  read_content read = Raised e ->
  exists reason, e = HTTPException 400 (lit "Failed to read file: " ++ reason).
Proof.
  unfold read_content, try_except.
  match goal with
  | |- match ?b with _ => _ end = _ -> _ => destruct b as [c|e0]
  end; [discriminate|].
  intros E. injection E as <-. eexists. reflexivity.
Qed.

Lemma read_content_returns content :
  read_content read = Returned content ->
  read = Returned content /\ content <> []
  /\ (Z.of_nat (List.length content) <= max_size)%Z.
Proof.
  unfold read_content, try_except.
  destruct read as [c|e0]; cbn [bind]; [|discriminate].
  destruct c as [|b c]; cbn [nonempty negb]; [discriminate|].
  destruct (max_size <? _)%Z eqn:B; [discriminate|].
  intros E. injection E as <-. apply Z.ltb_ge in B.
  repeat split; [discriminate|exact B].
Qed.

End Parse.

End UploadFacts.

Import UploadFacts.

Section UploadEndpoint.

Variable json_loads : pystr -> outcome pyval.
Variable repr_container : pyval -> pystr.
Variable urlparse_netloc : pyval -> outcome pystr.
Variable clock : nat -> Z.
Variable md5_hexdigest : pystr -> pystr.
Variable embed_texts : list pystr -> outcome (list (list pyfloat)).
Variable index_upsert : list vector -> outcome unit.
Variable get_vector_store : outcome unit.
Variable lower : pystr -> pystr.
Variable read : outcome (list N).
Variable format_rate : nat -> nat -> pystr.

Local Abbreviation upload :=
  (upload_jsonl json_loads repr_container urlparse_netloc clock
     md5_hexdigest embed_texts index_upsert get_vector_store lower read
     format_rate).

(** X15.  How [POST /chat/upload-jsonl] fails.  Every failure is an
    [HTTPException] with status 400, 415 or 500, and an upload that is
    answered with a failure has stored nothing.  Status 413 never leaves
    the endpoint: the size check raises it for a file of more than 50 MB
    inside the [try] whose handler turns every exception into status 400,
    and the same happens to the status 400 of an empty file, so both are
    answered with a detail that starts with [Failed to read file].  A
    file that is not UTF-8 is answered with status 400, and a vector
    store that cannot be reached with status 500. *)
Theorem upload_jsonl_failures (filename : option pystr) (w : world) :
  (not_http get_vector_store ->
   forall w' e,
     upload filename w = (w', Raised e) -> upload_failure e /\ w' = w)
  /\ (forall name content,
        filename = Some name ->
        name <> [] ->
        endswith (lower name) (lit ".jsonl") = true ->
        read = Returned content ->
        (max_size < Z.of_nat (List.length content))%Z ->
        upload filename w
        = (w, Raised (HTTPException 400
                        (lit "Failed to read file: 413: File too large. "
                         ++ lit "Maximum size allowed is 50MB"))))
  /\ (forall name,
        filename = Some name ->
        name <> [] ->
        endswith (lower name) (lit ".jsonl") = true ->
        read = Returned [] ->
        upload filename w
        = (w, Raised (HTTPException 400
                        (lit "Failed to read file: 400: "
                         ++ lit "Empty file provided."))))
  /\ (forall name content,
        filename = Some name ->
        name <> [] ->
        endswith (lower name) (lit ".jsonl") = true ->
        read = Returned content ->
        content <> [] ->
        (Z.of_nat (List.length content) <= max_size)%Z ->
        (get_vector_store = Returned tt ->
         utf8_decode content = None ->
         upload filename w
         = (w, Raised (HTTPException 400 (lit "File must be UTF-8 encoded"))))
        /\ (forall class msg,
              get_vector_store = Raised (Exc class msg) ->
              upload filename w
              = (w, Raised (HTTPException 500
                              (lit "Failed to process JSONL file: "
                               ++ msg))))).
Proof.
  split; [|split; [|split]].
  - intros Hstore w' e. unfold upload_jsonl.
    destruct filename as [[|c name]|];
      try (unfold raise; intros E; injection E as <- <-;
           split; [eexists; eauto|reflexivity]).
    destruct (negb (endswith (lower (c :: name)) (lit ".jsonl")));
      [unfold raise; intros E; injection E as <- <-;
       split; [eexists; eauto|reflexivity]|].
    unfold bindM at 1. unfold lift at 1.
    destruct (read_content read) as [content|e0] eqn:R.
    + unfold catch, bindM, lift, ret, raise.
      destruct get_vector_store as [[]|e1] eqn:S.
      * destruct (process_jsonl_file _ _ _ _ _ _ _ _ _ w) as [w1 [st|e2]]
          eqn:P; [discriminate|].
        apply process_jsonl_file_raises in P as [-> P].
        intros E. injection E as <- <-. split; [|reflexivity].
        apply parse_jsonl_file_raises in P as [->|[reason ->]];
          eexists; cbn [reraise_as_500]; eauto.
      * intros E. injection E as <- <-. split; [|reflexivity].
        destruct e1 as [c1 msg|code detail];
          [eexists; cbn [reraise_as_500]; eauto|].
        exfalso. now apply (Hstore code detail).
    + intros E. injection E as <- <-. split; [|reflexivity].
      apply read_content_raises in R as [reason ->]. eexists; eauto.
  - intros name content -> Hname Hext Hread Hsize. unfold upload_jsonl.
    destruct name as [|c name]; [contradiction|]. rewrite Hext. cbn [negb].
    unfold bindM, lift, read_content. rewrite Hread. cbn [bind].
    destruct content as [|b content]; [cbn in Hsize; unfold max_size in Hsize; lia|].
    cbn [nonempty negb]. apply Z.ltb_lt in Hsize. rewrite Hsize.
    reflexivity.
  - intros name -> Hname Hext Hread. unfold upload_jsonl.
    destruct name as [|c name]; [contradiction|]. rewrite Hext. cbn [negb].
    unfold bindM, lift, read_content. rewrite Hread. reflexivity.
  - intros name content -> Hname Hext Hread Hne Hsize.
    assert (R : read_content read = Returned content).
    { unfold read_content. rewrite Hread. cbn [bind].
      destruct content as [|b content]; [contradiction|].
      cbn [nonempty negb]. apply Z.ltb_ge in Hsize. now rewrite Hsize. }
    unfold upload_jsonl.
    destruct name as [|c name]; [contradiction|]. rewrite Hext. cbn [negb].
    unfold bindM at 1. unfold lift at 1. rewrite R. split.
    + intros Hstore Hdec. unfold catch, bindM, lift, ret, raise.
      rewrite Hstore. unfold process_jsonl_file, parse_jsonl_file.
      now rewrite Hdec.
    + intros class msg Hstore. unfold catch, bindM, lift, ret, raise.
      now rewrite Hstore.
Qed.

(** X16.  A successful answer of [POST /chat/upload-jsonl] reports the run
    that produced it: the file was read, is not empty and has at most
    50 MB, it parsed, and the numbers of the answer are the statistics
    of [process_jsonl_batch] on its objects, in batches of fifty, with
    [file_size_bytes] the length of the content; what the index has been
    handed after the request is what that run handed it. *)
Theorem upload_jsonl_success (filename : option pystr) (w w' : world)
  (response : upload_response) :
  upload filename w = (w', Returned response) ->
  exists name content json_objects st,
    filename = Some name
    /\ endswith (lower name) (lit ".jsonl") = true
    /\ read = Returned content
    /\ content <> []
    /\ (Z.of_nat (List.length content) <= max_size)%Z
    /\ parse_jsonl_file json_loads content = Returned json_objects
    /\ st = snd (process_jsonl_batch repr_container urlparse_netloc clock
                   md5_hexdigest embed_texts index_upsert json_objects name
                   50 w)
    /\ index_log w'
       = index_log (fst (process_jsonl_batch repr_container urlparse_netloc
                           clock md5_hexdigest embed_texts index_upsert
                           json_objects name 50 w))
    /\ response = response_data format_rate st name content
    /\ file_size_bytes response = List.length content
    /\ vectors_created (details response) = successful_stores st
    /\ errors (details response) = failed_stores st.
Proof.
  unfold upload_jsonl.
  destruct filename as [[|c name]|]; try discriminate.
  destruct (negb (endswith (lower (c :: name)) (lit ".jsonl"))) eqn:X;
    [discriminate|].
  apply negb_false_iff in X.
  unfold bindM at 1. unfold lift at 1.
  destruct (read_content read) as [content|e0] eqn:R; [|discriminate].
  apply read_content_returns in R as (Hread & Hne & Hsize).
  unfold catch, bindM, lift, ret, raise.
  destruct get_vector_store as [[]|e1]; [|discriminate].
  destruct (process_jsonl_file _ _ _ _ _ _ _ _ _ w) as [w1 [st|e2]] eqn:P;
    [|discriminate].
  apply process_jsonl_file_returns in P as (objs & Hparse & Hbatch).
  intros E. injection E as <- <-.
  exists (c :: name), content, objs, st. rewrite Hbatch.
  repeat split; auto.
Qed.

End UploadEndpoint.

(** An instance: an empty file named [f.jsonl]. *)
Lemma upload_jsonl_failures_witness :
  upload_jsonl Ref.json_loads Ref.repr_x Ref.netloc_example
    (Ref.clock_at 1700000000) Ref.md5_of_a Ref.embed_all Ref.upsert_ok
    (Returned tt) Ref.lower (Returned []) (fun _ _ => lit "100.00")
    (Some (lit "f.jsonl")) empty_world
  = (empty_world,
     Raised (HTTPException 400
               (lit "Failed to read file: 400: Empty file provided."))).
Proof.
  refine (proj1 (proj2 (proj2
    (@upload_jsonl_failures Ref.json_loads Ref.repr_x Ref.netloc_example
       (Ref.clock_at 1700000000) Ref.md5_of_a Ref.embed_all Ref.upsert_ok
       (Returned tt) Ref.lower (Returned []) (fun _ _ => lit "100.00")
       (Some (lit "f.jsonl")) empty_world)))
    (lit "f.jsonl") eq_refl _ eq_refl eq_refl).
  discriminate.
Defined.

(** An instance: one object in a file of thirteen bytes. *)
Lemma upload_jsonl_success_witness :
  exists name content json_objects st,
    Some (lit "f.jsonl") = Some name
    /\ endswith (Ref.lower name) (lit ".jsonl") = true
    /\ Returned (Ref.json_object1 (lit "text") (lit "a")) = Returned content
    /\ content <> []
    /\ (Z.of_nat (List.length content) <= max_size)%Z
    /\ parse_jsonl_file Ref.json_loads content = Returned json_objects
    /\ st = snd (process_jsonl_batch Ref.repr_x Ref.netloc_example
                   (Ref.clock_at 1700000000) Ref.md5_of_a Ref.embed_all
                   Ref.upsert_ok json_objects name 50 empty_world)
    /\ [[{| vec_id := lit "obj_0_chunk_0_0cc175b9";
            vec_values := [];
            vec_metadata :=
              [(lit "source_type", PyStr (lit "jsonl"));
               (lit "filename", PyStr (lit "f.jsonl"));
               (lit "chunk_index", PyInt 0);
               (lit "created_at", PyInt 1700000000);
               (lit "id", PyStr []);
               (lit "url", PyStr []);
               (lit "title", PyStr []);
               (lit "section", PyStr []);
               (lit "text", PyStr (lit "a"));
               (lit "total_chunks", PyInt 1)] |}]]
       = index_log (fst (process_jsonl_batch Ref.repr_x Ref.netloc_example
                           (Ref.clock_at 1700000000) Ref.md5_of_a
                           Ref.embed_all Ref.upsert_ok json_objects name 50
                           empty_world))
    /\ {| response_message := lit "JSONL file processed successfully";
          response_filename := lit "f.jsonl";
          file_size_bytes := 13;
          response_total_objects := 1;
          response_successful_stores := 1;
          response_failed_stores := 0;
          response_total_chunks := 1;
          success_rate := lit "100.00%";
          details := {| objects_processed := 1; vectors_created := 1;
                        chunks_created := 1; errors := 0 |} |}
       = response_data (fun _ _ => lit "100.00") st name content
    /\ 13 = List.length content
    /\ 1 = successful_stores st
    /\ 0 = failed_stores st.
Proof.
  refine (@upload_jsonl_success Ref.json_loads Ref.repr_x Ref.netloc_example
            (Ref.clock_at 1700000000) Ref.md5_of_a Ref.embed_all
            Ref.upsert_ok (Returned tt) Ref.lower
            (Returned (Ref.json_object1 (lit "text") (lit "a")))
            (fun _ _ => lit "100.00")
            (Some (lit "f.jsonl")) empty_world
            {| ticks := 1;
               index_log :=
                 [[{| vec_id := lit "obj_0_chunk_0_0cc175b9";
                      vec_values := [];
                      vec_metadata :=
                        [(lit "source_type", PyStr (lit "jsonl"));
                         (lit "filename", PyStr (lit "f.jsonl"));
                         (lit "chunk_index", PyInt 0);
                         (lit "created_at", PyInt 1700000000);
                         (lit "id", PyStr []);
                         (lit "url", PyStr []);
                         (lit "title", PyStr []);
                         (lit "section", PyStr []);
                         (lit "text", PyStr (lit "a"));
                         (lit "total_chunks", PyInt 1)] |}]] |}
            {| response_message := lit "JSONL file processed successfully";
               response_filename := lit "f.jsonl";
               file_size_bytes := 13;
               response_total_objects := 1;
               response_successful_stores := 1;
               response_failed_stores := 0;
               response_total_chunks := 1;
               success_rate := lit "100.00%";
               details := {| objects_processed := 1; vectors_created := 1;
                             chunks_created := 1; errors := 0 |} |} _).
  vm_compute. reflexivity.
Defined.

(** X17.  A reply wrapped in a markdown fence is decoded as if the fence
    were not there: for a body without backticks that does not begin with
    a letter and is not blank, the fenced reply (three backticks, a
    language tag of letters, the body, three backticks) and the bare
    body both give what [json.loads] makes of the trimmed body. *)
Theorem fenced_reply_is_unwrapped
  (json_loads : pystr -> outcome pyval) (lang body : pystr) (v : pyval) :
  letters lang ->
  no_backtick body ->
  no_letter_first body ->
  strip body <> [] ->
  json_loads (strip body) = Returned v ->
  extract_json_from_string json_loads (fenced lang body) = v
  /\ extract_json_from_string json_loads body = v.
Proof.
  intros Hl Hb Hf Hne Hv. split.
  - apply extract_cleaned.
    + apply fenced_not_blank.
    + now rewrite cleaned_fenced.
    + now rewrite cleaned_fenced.
  - apply extract_cleaned.
    + exact Hne.
    + now rewrite cleaned_plain.
    + now rewrite cleaned_plain.
Qed.

(** An instance: the object [{"intent": "rp"}] on a line of its own in a
    fence tagged [json]. *)
Lemma fenced_reply_is_unwrapped_witness :
  extract_json_from_string Ref.json_loads
    (fenced (lit "json")
       (nl ++ Ref.json_object1 (lit "intent") (lit "rp") ++ nl))
  = PyDict [(lit "intent", PyStr (lit "rp"))]
  /\ extract_json_from_string Ref.json_loads
       (nl ++ Ref.json_object1 (lit "intent") (lit "rp") ++ nl)
     = PyDict [(lit "intent", PyStr (lit "rp"))].
Proof.
  apply (@fenced_reply_is_unwrapped Ref.json_loads (lit "json")
           (nl ++ Ref.json_object1 (lit "intent") (lit "rp") ++ nl)
           (PyDict [(lit "intent", PyStr (lit "rp"))])).
  - repeat constructor.
  - repeat (constructor; [discriminate|]). constructor.
  - reflexivity.
  - vm_compute. discriminate.
  - vm_compute. reflexivity.
Defined.

Section HappyPath.

Variable json_loads : pystr -> outcome pyval.
Variable generate : pystr -> pyfloat -> outcome (option pystr).

(** X18.  The classifier on a well-formed reply.  When the reply of the
    model, bare or inside a markdown fence, decodes to an object whose
    [intent] is one of the six literals, [get_intent] returns that
    literal. *)
Theorem get_intent_reads_the_reply (query lang body : pystr) (d : dict)
  (s : pystr) :
  let reply :=
    get_google_response generate (intent_prompt query) default_temperature in
  reply = body \/ reply = fenced lang body ->
  letters lang ->
  no_backtick body ->
  no_letter_first body ->
  strip body <> [] ->
  json_loads (strip body) = Returned (PyDict d) ->
  lookup d (lit "intent") = Some (PyStr s) ->
  In s valid_intents ->
  get_intent json_loads generate query = Returned (PyStr s).
Proof.
  intros reply Hreply Hl Hb Hf Hne Hv Hd Hs.
  rewrite get_intent_unfold. fold reply.
  assert (E : extract_json_from_string json_loads reply = PyDict d
              /\ strip reply <> []).
  { destruct Hreply as [->| ->].
    - split; [|exact Hne]. apply extract_cleaned; auto;
        now rewrite cleaned_plain.
    - split; [|apply fenced_not_blank]. apply extract_cleaned;
        [apply fenced_not_blank| |]; now rewrite cleaned_fenced. }
  destruct E as [E Hr].
  assert (R : negb (nonempty reply) || str_eqb (strip reply) [] = false).
  { apply orb_false_iff. split.
    - destruct reply; [now contradiction Hr|reflexivity].
    - now apply str_eqb_neq. }
  rewrite R, E. unfold get_default. rewrite Hd.
  replace (in_valid_intents (PyStr s)) with true; [reflexivity|].
  symmetry. unfold in_valid_intents. apply existsb_exists.
  exists s. split; [exact Hs|]. cbn [eq_str]. apply str_eqb_refl.
Qed.

End HappyPath.

(** An instance: the model answers [{"intent": "agency"}] inside a fence
    tagged [json]. *)
Lemma get_intent_reads_the_reply_witness :
  get_intent Ref.json_loads
    (Ref.answer
       (fenced (lit "json")
          (nl ++ Ref.json_object1 (lit "intent") (lit "agency") ++ nl)))
    (lit "how does an agency book")
  = Returned (PyStr (lit "agency")).
Proof.
  apply (@get_intent_reads_the_reply Ref.json_loads
           (Ref.answer
              (fenced (lit "json")
                 (nl ++ Ref.json_object1 (lit "intent") (lit "agency")
                  ++ nl)))
           (lit "how does an agency book") (lit "json")
           (nl ++ Ref.json_object1 (lit "intent") (lit "agency") ++ nl)
           [(lit "intent", PyStr (lit "agency"))] (lit "agency")).
  - right. vm_compute. reflexivity.
  - repeat constructor.
  - repeat (constructor; [discriminate|]). constructor.
  - reflexivity.
  - vm_compute. discriminate.
  - vm_compute. reflexivity.
  - reflexivity.
  - cbn. tauto.
Defined.

(* ===================================================================== *)
(** * Storing one small text *)
(* ===================================================================== *)

Module OneChunkFacts.

Section Store.

Variable embed_texts : list pystr -> outcome (list (list pyfloat)).
Variable index_upsert : list vector -> outcome unit.

(** The store called with one text whose metadata have a [text]. *)
Lemma store_one id text metadata w :
  has_key metadata (lit "text") = true ->
  store_upsert_texts embed_texts index_upsert [id] [text] [metadata] w
  = match embed_texts [text] with
    | Raised e => (w, Raised e)
    | Returned [] => (w, Returned tt)
    | Returned (embedding :: _) =>
        let vector := {| vec_id := id; vec_values := embedding;
                         vec_metadata := metadata |} in
        ({| ticks := ticks w; index_log := index_log w ++ [[vector]] |},
         match index_upsert [vector] with
         | Returned _ => Returned tt
         | Raised e => Raised e
         end)
    end.
Proof.
  intros T. unfold store_upsert_texts.
  cbn [List.length Nat.eqb negb andb]. unfold bindM, lift.
  destruct (embed_texts [text]) as [[|embedding rest]|e];
    [destruct w; reflexivity| |reflexivity].
  cbn [zip4]. unfold upsert_vector. rewrite T.
  cbn [List.length]. unfold range0.
  change ((1 + 100 - 1) / 100) with 1. cbn [seq map forM Nat.mul].
  unfold bindM, send_batch, ret. cbv zeta.
  match goal with
  | |- context [slice ?l 0 (0 + 100)] => change (slice l 0 (0 + 100)) with l
  end.
  cbn [ticks index_log].
  now destruct (index_upsert _) as [[]|e].
Qed.

End Store.

End OneChunkFacts.

Import OneChunkFacts.

Section SmallText.

Variable clock : nat -> Z.
Variable md5_hexdigest : pystr -> pystr.
Variable embed_texts : list pystr -> outcome (list (list pyfloat)).
Variable index_upsert : list vector -> outcome unit.

Local Abbreviation upsert :=
  (upsert_texts clock md5_hexdigest (Returned tt) embed_texts index_upsert).

(** X19.  [rag.upsert_texts] on a text that is not blank and has at most
    50000 bytes, with the store at hand.  When the embedding service
    gives one vector and the index accepts it, exactly one vector is
    handed to the index, in a batch of its own: its identifier is made of
    the first eight digits of the content hash, the first clock reading
    and the index 0, its metadata carry the second clock reading as
    [created_at] and the preview as [text], and the call returns [True].
    When the index raises, the call returns [False].  When the embedding
    service gives no vector at all, nothing is handed to the index and
    the call still returns [True]. *)
Theorem upsert_texts_of_one_chunk (text : pystr) (n : nat)
  (filename file_type : option pystr) (w : world) :
  utf8_len text = Some n ->
  (Z.of_nat n <= 50000)%Z ->
  strip text <> [] ->
  let vector_id :=
    doc_vector_id (firstn 8 (md5_hexdigest text)) (clock (ticks w)) 0 in
  let metadata :=
    doc_metadata filename file_type text (clock (S (ticks w))) 0 1 in
  (forall embedding,
      embed_texts [text] = Returned [embedding] ->
      let vector := {| vec_id := vector_id; vec_values := embedding;
                       vec_metadata := metadata |} in
      (index_upsert [vector] = Returned tt ->
       upsert text filename file_type w
       = ({| ticks := S (S (ticks w));
             index_log := index_log w ++ [[vector]] |},
          Returned true))
      /\ (forall e,
            index_upsert [vector] = Raised e ->
            upsert text filename file_type w
            = ({| ticks := S (S (ticks w));
                  index_log := index_log w ++ [[vector]] |},
               Returned false)))
  /\ (embed_texts [text] = Returned [] ->
      upsert text filename file_type w
      = ({| ticks := S (S (ticks w)); index_log := index_log w |},
         Returned true)).
Proof.
  intros Hn Hle Hne vector_id metadata.
  assert (E : encoded_len text = Returned n)
    by (unfold encoded_len; now rewrite Hn).
  assert (C : chunks_of_text text = Returned [text]).
  { unfold chunks_of_text. rewrite E. cbn [bind].
    apply Z.ltb_ge in Hle. now rewrite Hle. }
  assert (B : negb (nonempty text) || negb (nonempty (strip text)) = false).
  { destruct (strip text) eqn:S; [contradiction|].
    destruct text; [discriminate|reflexivity]. }
  assert (H : chunk_hash md5_hexdigest text
              = Returned (firstn 8 (md5_hexdigest text))).
  { unfold chunk_hash. now rewrite E. }
  assert (T : has_key metadata (lit "text") = true) by reflexivity.
  unfold upsert_texts, catch, bindM, lift, ret. rewrite B, C.
  cbn [enumerate List.length seq combine forM].
  unfold bindM, ret, store_chunk, catch, bindM, lift, ret, time_now.
  rewrite H. cbn [ticks index_log]. fold vector_id. fold metadata.
  rewrite store_one by exact T. cbv zeta. cbn [ticks index_log].
  split.
  - intros embedding He. rewrite He. split.
    + intros ->. reflexivity.
    + intros e ->. reflexivity.
  - intros ->. reflexivity.
Qed.

End SmallText.

(** An instance: the text [a] stored at a clock that stands still. *)
Lemma upsert_texts_of_one_chunk_witness :
  upsert_texts (Ref.clock_at 1700000000) Ref.md5_of_a (Returned tt)
    Ref.embed_all Ref.upsert_ok (lit "a") (Some (lit "f.txt"))
    (Some (lit "txt")) empty_world
  = ({| ticks := 2;
        index_log :=
          [[{| vec_id := lit "doc_0cc175b9_1700000000_0";
               vec_values := [];
               vec_metadata :=
                 [(lit "filename", PyStr (lit "f.txt"));
                  (lit "file_type", PyStr (lit "txt"));
                  (lit "text", PyStr (lit "a"));
                  (lit "created_at", PyInt 1700000000);
                  (lit "chunk_index", PyInt 0);
                  (lit "total_chunks", PyInt 1)] |}]] |},
     Returned true).
Proof.
  pose proof (@upsert_texts_of_one_chunk (Ref.clock_at 1700000000)
                Ref.md5_of_a Ref.embed_all Ref.upsert_ok (lit "a") 1
                (Some (lit "f.txt")) (Some (lit "txt")) empty_world
                eq_refl ltac:(lia) ltac:(discriminate)) as [H _].
  exact (proj1 (H [] eq_refl) eq_refl).
Defined.

(* ===================================================================== *)
(** * A model that fails, a field that is blank *)
(* ===================================================================== *)

(** X20.  When the model breaks in the middle of a stream,
    [get_google_response_stream] yields the text of the exception as one
    more chunk after the chunks received so far (those that are not
    empty), and the loop of the streaming endpoints sends it like any
    other chunk: no error event goes out, and the final payload is all of
    these joined. *)
Theorem model_failure_is_streamed_as_text
  (generate_stream : pystr -> pyfloat -> list pystr * option exn)
  (prompt : pystr) (temperature : pyfloat) (menu : support_message)
  (texts : list pystr) (e : exn) :
  generate_stream prompt temperature = (texts, Some e) ->
  get_google_response_stream generate_stream prompt temperature
  = filter nonempty texts ++ [model_error e]
  /\ stream_generator
       (get_google_response_stream generate_stream prompt temperature) menu
     = map SseChunk (filter nonempty texts)
       ++ [SseChunk (model_error e);
           SseFinal (List.concat (filter nonempty texts) ++ model_error e)
             menu;
           SseDone].
Proof.
  intros H.
  assert (G : get_google_response_stream generate_stream prompt temperature
              = filter nonempty texts ++ [model_error e]).
  { unfold get_google_response_stream. now rewrite H. }
  split; [exact G|].
  rewrite G, stream_generator_eq.
  assert (F : filter nonempty (filter nonempty texts ++ [model_error e])
              = filter nonempty texts ++ [model_error e]).
  { rewrite filter_app. f_equal. clear.
    induction texts as [|t ts IH]; [reflexivity|].
    cbn [filter]. destruct (nonempty t) eqn:N; [|exact IH].
    cbn [filter]. now rewrite N, IH. }
  rewrite F, map_app, concat_app. cbn [map List.concat].
  rewrite app_nil_r, <- app_assoc. reflexivity.
Qed.

(** An instance: the stream breaks after the chunk [Hel]. *)
Lemma model_failure_is_streamed_as_text_witness :
  stream_generator
    (get_google_response_stream
       (fun _ _ => ([lit "Hel"; []], Some (Exc ServiceError (lit "reset"))))
       (lit "p") low_temperature)
    other_menu
  = [SseChunk (lit "Hel");
     SseChunk (lit "Error while generating response: reset");
     SseFinal (lit "HelError while generating response: reset") other_menu;
     SseDone].
Proof.
  exact (proj2 (@model_failure_is_streamed_as_text
                  (fun _ _ => ([lit "Hel"; []],
                               Some (Exc ServiceError (lit "reset"))))
                  (lit "p") low_temperature other_menu [lit "Hel"; []]
                  (Exc ServiceError (lit "reset")) eq_refl)).
Defined.

Section BlankField.

Variable repr_container : pyval -> pystr.
Variable urlparse_netloc : pyval -> outcome pystr.
Variable clock : nat -> Z.
Variable md5_hexdigest : pystr -> pystr.

(** X21.  The first text field that is truthy decides, also when it is
    blank: an object whose first truthy field among [text], [content],
    [description], [body], [summary], [title] holds nothing but
    whitespace has no text, whatever its other fields hold; it is counted
    as failed and nothing is collected for it. *)
Theorem blank_text_field_fails_the_object (d : dict) (v : pyval)
  (filename : pystr) (batch_start obj_index : nat) (p : progress)
  (w : world) :
  first_text_field d text_fields = Some v ->
  strip (py_str repr_container v) = [] ->
  extract_text_content repr_container (PyDict d) = Returned []
  /\ add_object repr_container urlparse_netloc clock md5_hexdigest filename
       batch_start p (obj_index, PyDict d) w
     = (w, {| collected := collected p; failed := S (failed p);
              chunks_seen := chunks_seen p |}).
Proof.
  intros Hf Hs.
  assert (E : extract_text_content repr_container (PyDict d) = Returned []).
  { unfold extract_text_content. now rewrite Hf, Hs. }
  split; [exact E|]. unfold add_object. now rewrite E.
Qed.

End BlankField.

(** An instance: a [text] of one blank beside a [content] with words. *)
Lemma blank_text_field_fails_the_object_witness :
  extract_text_content Ref.repr_x
    (PyDict [(lit "text", PyStr (lit " "));
             (lit "content", PyStr (lit "real words"))])
  = Returned [].
Proof.
  apply (@blank_text_field_fails_the_object Ref.repr_x Ref.netloc_example
           (Ref.clock_at 1700000000) Ref.md5_of_a
           [(lit "text", PyStr (lit " "));
            (lit "content", PyStr (lit "real words"))]
           (PyStr (lit " ")) (lit "f.jsonl") 0 0
           {| collected := empty_batch; failed := 0; chunks_seen := 0 |}
           empty_world);
    reflexivity.
Defined.
